(** * install.py: build and install markitdown-mcp

    A shallow embedding of [install.py] and the properties of its
    specification.  The script is a straight-line orchestration of external
    processes and file-system operations, so it is embedded in a small
    state-and-exception monad over an explicit host: the search path lookup,
    the external commands and the platform are oracles of the host, the file
    system and the log of observable actions are the threaded state.

    Python text is modelled as [string]; character classes are the ASCII
    ones (the white space and the digits that Python recognises outside
    ASCII are not modelled). *)

From Stdlib Require Import ZArith Strings.String Strings.Ascii List Bool Lia.
From Stdlib Require Import DecimalString.
From stdpp Require Import gmap strings list fin_maps.
Import ListNotations.

Local Open Scope string_scope.
Local Open Scope Z_scope.

#[local] Arguments String.append !_ _ / : simpl nomatch.

(** ** Python string primitives *)

Module PyStr.

(** [str.isspace] on one ASCII character: TAB..CR, FS..US and the space. *)
Definition isspace (c : ascii) : bool :=
  let n := N_of_ascii c in
  (((9 <=? n) && (n <=? 13)) || ((28 <=? n) && (n <=? 32)))%N.

Definition isdigit (c : ascii) : bool :=
  let n := N_of_ascii c in ((48 <=? n) && (n <=? 57))%N.

Definition digit_value (c : ascii) : Z := Z.of_N (N_of_ascii c) - 48.

(** Prepend a character to the first string of a list of fields (the field
    that is still open), or open one. *)
Definition push_front (c : ascii) (fields : list string) : list string :=
  match fields with
  | [] => [String c ""]
  | f :: fs => String c f :: fs
  end.

Definition starts_with_space (s : string) : bool :=
  match s with
  | "" => true
  | String c _ => isspace c
  end.

(** [s.split()]: the maximal runs of non-white-space characters. *)
Fixpoint split_ws (s : string) : list string :=
  match s with
  | "" => []
  | String c s' =>
      if isspace c then split_ws s'
      else if starts_with_space s' then String c "" :: split_ws s'
      else push_front c (split_ws s')
  end.

(** [s.split(sep)] for a separator of one character. *)
Fixpoint split_on (sep : ascii) (s : string) : list string :=
  match s with
  | "" => [""]
  | String c s' =>
      if Ascii.eqb c sep then "" :: split_on sep s'
      else push_front c (split_on sep s')
  end.

Fixpoint mem_char (c : ascii) (chars : string) : bool :=
  match chars with
  | "" => false
  | String d chars' => Ascii.eqb c d || mem_char c chars'
  end.

(** [s.lstrip(chars)]: drop the leading characters that occur in [chars]. *)
Fixpoint lstrip (chars : string) (s : string) : string :=
  match s with
  | "" => ""
  | String c s' => if mem_char c chars then lstrip chars s' else s
  end.

(** The white space [int] skips around a number: that of C's [isspace], TAB..CR
    and the space.  The separators FS..US are white space for [str.split] and
    not for [int]. *)
Definition int_space (c : ascii) : bool :=
  let n := N_of_ascii c in
  (((9 <=? n) && (n <=? 13)) || (n =? 32))%N.

Fixpoint lstrip_ws (s : string) : string :=
  match s with
  | "" => ""
  | String c s' => if int_space c then lstrip_ws s' else s
  end.

Fixpoint rstrip_ws (s : string) : string :=
  match s with
  | "" => ""
  | String c s' =>
      match rstrip_ws s' with
      | "" => if int_space c then "" else String c ""
      | r => String c r
      end
  end.

Definition strip_ws (s : string) : string := rstrip_ws (lstrip_ws s).

(** Line boundaries of [str.splitlines] within ASCII: LF, VT, FF, CR, FS, GS,
    RS; CR LF counts as one. *)
Definition is_linebreak (c : ascii) : bool :=
  let n := N_of_ascii c in
  (((10 <=? n) && (n <=? 13)) || ((28 <=? n) && (n <=? 30)))%N.

Fixpoint splitlines_from (after_cr : bool) (s : string) : list string :=
  match s with
  | "" => []
  | String c s' =>
      if after_cr && Ascii.eqb c "010" then splitlines_from false s'
      else if is_linebreak c then "" :: splitlines_from (Ascii.eqb c "013") s'
      else push_front c (splitlines_from false s')
  end.

Definition splitlines (s : string) : list string := splitlines_from false s.

(** CPython's default [sys.int_max_str_digits]. *)
Definition int_max_str_digits : nat := 4300.

(** The digits of an integer literal after the first one: digits, each
    optionally preceded by one underscore.  Returns the value and the number
    of digits read. *)
Fixpoint int_digits (acc : Z) (cnt : nat) (s : string) : option (Z * nat) :=
  match s with
  | "" => Some (acc, cnt)
  | String c s' =>
      if isdigit c then int_digits (10 * acc + digit_value c) (S cnt) s'
      else if Ascii.eqb c "_" then
        match s' with
        | String d s'' =>
            if isdigit d then int_digits (10 * acc + digit_value d) (S cnt) s''
            else None
        | "" => None
        end
      else None
  end.

Definition int_unsigned (s : string) : option Z :=
  match s with
  | String c s' =>
      if isdigit c then
        match int_digits (digit_value c) 1 s' with
        | Some (v, cnt) => if (cnt <=? int_max_str_digits)%nat then Some v else None
        | None => None
        end
      else None
  | "" => None
  end.

(** [int(s)] in base ten, after the white space around the number is
    skipped; [None] stands for [ValueError]. *)
Definition int (s : string) : option Z :=
  match strip_ws s with
  | String c t =>
      if Ascii.eqb c "-" then option_map Z.opp (int_unsigned t)
      else if Ascii.eqb c "+" then int_unsigned t
      else int_unsigned (String c t)
  | "" => None
  end.

(** [str(n)] for an integer. *)
Definition str_int (n : Z) : string := NilZero.string_of_int (Z.to_int n).

End PyStr.

(** ** Paths

    A [pathlib.Path] is kept as pathlib parses it: drive, root and the list
    of components below this anchor ([parts] does not repeat the anchor).
    Paths are compared structurally (no symbolic links, no [..] resolution, a
    case-sensitive file system). *)

Record Path := mkPath { drive : string; root : string; parts : list string }.

#[global] Instance Path_eq_dec : EqDecision Path.
Proof. solve_decision. Defined.

#[global] Instance Path_countable : Countable Path.
Proof.
  refine (inj_countable' (fun p => (drive p, root p, parts p))
            (fun t => mkPath t.1.1 t.1.2 t.2) _).
  intros []; reflexivity.
Defined.

(** [p / name] for a plain component name. *)
Definition joinpath (p : Path) (name : string) : Path :=
  mkPath (drive p) (root p) (parts p ++ [name]).

(** [p.parent]; the parent of an anchor is the anchor itself. *)
Definition parent (p : Path) : Path :=
  mkPath (drive p) (root p) (removelast (parts p)).

(** [os.path.basename]. *)
Definition basename (p : Path) : string := List.last (parts p) "".

Fixpoint join_with (sep : string) (l : list string) : string :=
  match l with
  | [] => ""
  | [x] => x
  | x :: l' => x ++ sep ++ join_with sep l'
  end.

(** [str(p)], with the separator of the platform. *)
Definition str_path (sep : string) (p : Path) : string :=
  match drive p, root p, parts p with
  | "", "", [] => "."
  | d, r, l => d ++ r ++ join_with sep l
  end.

(** [p.is_absolute()]: a root, and on Windows a drive as well. *)
Definition is_absolute (windows : bool) (p : Path) : bool :=
  negb (String.eqb (root p) "") && (negb windows || negb (String.eqb (drive p) "")).

(** ** The file system *)

Inductive Node :=
| Dir (mode : Z)
| File (data : string) (mode : Z) (mtime : Z).

#[global] Instance Node_eq_dec : EqDecision Node.
Proof. solve_decision. Defined.

Inductive OSErrorKind :=
| FileNotFoundError | FileExistsError | NotADirectoryError | IsADirectoryError
| PermissionError | SameFileError.

(** The instances of Python exceptions the script can meet. *)
Inductive Exn :=
| SystemExit (code : Z)
| CalledProcessError (returncode : Z) (cmd : list string)
| IndexError
| ValueError
| OSError (kind : OSErrorKind).

(** The anchor of a path (no components) always exists and is a directory;
    every other path is looked up in the map. *)
Definition node_at (fs : gmap Path Node) (p : Path) : option Node :=
  match parts p with
  | [] => Some (Dir 493)
  | _ => fs !! p
  end.

Definition is_dir (fs : gmap Path Node) (p : Path) : bool :=
  match node_at fs p with
  | Some (Dir _) => true
  | _ => false
  end.

Definition path_exists (fs : gmap Path Node) (p : Path) : bool :=
  match node_at fs p with
  | Some _ => true
  | None => false
  end.

(** [os.mkdir(p)] with the default mode under [umask]. *)
Definition os_mkdir (umask : Z) (p : Path) (fs : gmap Path Node)
  : OSErrorKind + gmap Path Node :=
  match node_at fs p with
  | Some _ => inl FileExistsError
  | None =>
      match node_at fs (parent p) with
      | None => inl FileNotFoundError
      | Some (File _ _ _) => inl NotADirectoryError
      | Some (Dir _) => inr (<[p := Dir (Z.ldiff 511 umask)]> fs)
      end
  end.

(** [Path.mkdir(parents=False, exist_ok=...)]: an error of [os.mkdir] is
    swallowed when [exist_ok] holds and the path is a directory. *)
Definition mkdir_once (umask : Z) (exist_ok : bool) (p : Path) (fs : gmap Path Node)
  : OSErrorKind + gmap Path Node :=
  match os_mkdir umask p fs with
  | inr fs' => inr fs'
  | inl e => if exist_ok && is_dir fs p then inr fs else inl e
  end.

(** [Path.mkdir(parents=True, exist_ok=...)] on the path with anchor
    [d], [r] and components [rev rparts]: try [os.mkdir]; when the parent is
    missing, create the parent the same way (with [exist_ok=True]) and try
    once more; any other error is swallowed when [exist_ok] holds and the
    path is a directory. *)
Fixpoint mkdir_parents (umask : Z) (exist_ok : bool) (d r : string)
    (rparts : list string) (fs : gmap Path Node) : OSErrorKind + gmap Path Node :=
  let p := mkPath d r (rev rparts) in
  match os_mkdir umask p fs with
  | inr fs' => inr fs'
  | inl FileNotFoundError =>
      match rparts with
      | [] => inl FileNotFoundError
      | _ :: rparts' =>
          match mkdir_parents umask true d r rparts' fs with
          | inl e => inl e
          | inr fs1 => mkdir_once umask exist_ok p fs1
          end
      end
  | inl e => if exist_ok && is_dir fs p then inr fs else inl e
  end.

Definition Path_mkdir (umask : Z) (parents exist_ok : bool) (p : Path)
    (fs : gmap Path Node) : OSErrorKind + gmap Path Node :=
  if parents then mkdir_parents umask exist_ok (drive p) (root p) (rev (parts p)) fs
  else mkdir_once umask exist_ok p fs.

(** [shutil.copy2(src, dst)]: a directory as destination receives the file
    under the base name of the source; [copyfile] refuses to copy a file onto
    itself, reads the source, creates or truncates the destination; then
    [copystat] gives the destination the permission bits and the times of the
    source.  Permission bits are recorded and not enforced: no operation of
    this file system is refused for lack of permission. *)
Definition shutil_copy2 (src dst : Path) (fs : gmap Path Node)
  : OSErrorKind + gmap Path Node :=
  let dst := if is_dir fs dst then joinpath dst (basename src) else dst in
  if bool_decide (src = dst) && path_exists fs src then inl SameFileError
  else
    match node_at fs src with
    | None => inl FileNotFoundError
    | Some (Dir _) => inl IsADirectoryError
    | Some (File data mode mtime) =>
        match node_at fs dst with
        | Some (Dir _) => inl IsADirectoryError
        | _ =>
            match node_at fs (parent dst) with
            | None => inl FileNotFoundError
            | Some (File _ _ _) => inl NotADirectoryError
            | Some (Dir _) => inr (<[dst := File data mode mtime]> fs)
            end
        end
    end.

(** [os.chmod(p, mode)]. *)
Definition os_chmod (p : Path) (mode : Z) (fs : gmap Path Node)
  : OSErrorKind + gmap Path Node :=
  match node_at fs p with
  | None => inl FileNotFoundError
  | Some (Dir _) => inr (<[p := Dir mode]> fs)
  | Some (File data _ mtime) => inr (<[p := File data mode mtime]> fs)
  end.

(** ** Observable actions, the state and the host *)

Inductive Event :=
| Stdout (line : string)               (* one [print] on standard output *)
| Stderr (line : string)               (* one [print] on standard error *)
| Spawn (cmd : list string) (cwd : option Path) (captured : bool)
| Mkdir (p : Path)
| Copy2 (src dst : Path)
| Chmod (p : Path) (mode : Z)
| Traceback (e : Exn).                 (* the interpreter reports an uncaught exception *)

Record State := mkState { fs : gmap Path Node; log : list Event }.

(** What starting an external command gives: it ran and exited, or it
    could not be started ([FileNotFoundError] when the executable is not on
    the search path). *)
Inductive SpawnResult :=
| Exited (rc : Z) (out err : string)
| NotStarted (kind : OSErrorKind).

Record CompletedProcess := mkCompleted { returncode : Z; stdout : string; stderr : string }.

(** Everything the script asks of its surroundings. *)
Record Host := mkHost {
  system : string;                       (* platform.system() *)
  isatty : bool;                         (* sys.stdout.isatty() *)
  environ : gmap string string;          (* os.environ *)
  home : Path;                           (* Path.home() *)
  script_dir : Path;                     (* Path(__file__).resolve().parent *)
  umask : Z;
  Path_of_str : string -> Path;          (* pathlib.Path(s) *)
  shutil_which : State -> string -> bool;   (* shutil.which(name) is not None *)
  spawn : State -> list string -> option Path -> SpawnResult * gmap Path Node;
  str_CalledProcessError : Z -> list string -> string   (* str(e) *)
}.

(** ** The monad: state and exceptions *)

Inductive Result (A : Type) :=
| Ok (a : A)
| Raise (e : Exn).
Arguments Ok {A} a.
Arguments Raise {A} e.

Definition M (A : Type) : Type := State -> Result A * State.

Definition ret {A} (a : A) : M A := fun st => (Ok a, st).

Definition bind {A B} (m : M A) (k : A -> M B) : M B :=
  fun st =>
    match m st with
    | (Ok a, st') => k a st'
    | (Raise e, st') => (Raise e, st')
    end.

Definition raise {A} (e : Exn) : M A := fun st => (Raise e, st).

Definition emit (ev : Event) : M unit :=
  fun st => (Ok tt, mkState (fs st) (log st ++ [ev])%list).

Notation "x <- m ;; k" := (bind m (fun x => k))
  (at level 100, m at next level, right associativity).
Notation "m ;; k" := (bind m (fun _ => k))
  (at level 100, right associativity).

(** [try: body except subprocess.CalledProcessError as e: handler] *)
Definition try_except_CalledProcessError {A} (body : M A)
    (handler : Z -> list string -> M A) : M A :=
  fun st =>
    match body st with
    | (Raise (CalledProcessError rc cmd), st') => handler rc cmd st'
    | r => r
    end.

Definition lift_option {A} (e : Exn) (o : option A) : M A :=
  match o with
  | Some a => ret a
  | None => raise e
  end.

(** A file-system operation: logged, then applied; its error is raised as
    [OSError]. *)
Definition fs_op (ev : Event)
    (op : gmap Path Node -> OSErrorKind + gmap Path Node) : M unit :=
  fun st =>
    match op (fs st) with
    | inl k => (Raise (OSError k), mkState (fs st) (log st ++ [ev])%list)
    | inr fs' => (Ok tt, mkState fs' (log st ++ [ev])%list)
    end.

Definition dq : string := String "034" "".
Definition nl : string := String "010" "".
Definition esc : string := String "027" "".

(** ** The script *)

Record Args := mkArgs { with_ocr : bool; prefix : Path }.

Section Script.

Variable H : Host.

(* -- constants -- *)
Definition REQUIRED_GO_MAJOR : Z := 1.
Definition REQUIRED_GO_MINOR : Z := 24.
Definition REPO_ROOT : Path := script_dir H.
Definition SRC_DIR : Path := joinpath (joinpath REPO_ROOT "src") "markitdown".
Definition IS_WINDOWS : bool := String.eqb (system H) "Windows".
Definition BIN_NAME : string :=
  if IS_WINDOWS then "markitdown-mcp.exe" else "markitdown-mcp".

(** [os.sep], [os.pathsep] and [str] of a path on this platform. *)
Definition os_sep : string := if IS_WINDOWS then "\" else "/".
Definition os_pathsep : ascii := if IS_WINDOWS then ";"%char else ":"%char.
Definition str (p : Path) : string := str_path os_sep p.

(* -- colour helpers -- *)
Definition _USE_COLOR : bool := isatty H.

Definition _c (code text : string) : string :=
  if _USE_COLOR then esc ++ "[" ++ code ++ "m" ++ text ++ esc ++ "[0m" else text.

Definition info (msg : string) : M unit := emit (Stdout (_c "0;32" "==>" ++ " " ++ msg)).
Definition warn (msg : string) : M unit := emit (Stdout (_c "1;33" "warn:" ++ " " ++ msg)).
Definition error (msg : string) : M unit := emit (Stderr (_c "0;31" "error:" ++ " " ++ msg)).
Definition die {A} (msg : string) : M A := error msg ;; raise (SystemExit 1).

(* -- subprocess helpers -- *)

(** [subprocess.run(cmd, cwd=cwd, check=check)], with the output captured or
    left on the terminal.  A command that runs to its end gives its status and
    its output as text; output that cannot be decoded as text is not
    modelled. *)
Definition subprocess_run (cmd : list string) (cwd : option Path)
    (check captured : bool) : M CompletedProcess :=
  fun st =>
    let lg := (log st ++ [Spawn cmd cwd captured])%list in
    match spawn H st cmd cwd with
    | (NotStarted k, fs') => (Raise (OSError k), mkState fs' lg)
    | (Exited rc out err, fs') =>
        if check && negb (rc =? 0)
        then (Raise (CalledProcessError rc cmd), mkState fs' lg)
        else (Ok (mkCompleted rc out err), mkState fs' lg)
    end.

Definition run (cmd : list string) (cwd : option Path) (check : bool)
  : M CompletedProcess :=
  subprocess_run cmd cwd check true.

Definition which (name : string) : M bool :=
  fun st => (Ok (shutil_which H st name), st).

(* -- Go version check -- *)

(** [result.stdout.split()[2].lstrip("go")] *)
Definition version_str_of (out : string) : Result string :=
  match nth_error (PyStr.split_ws out) 2 with
  | Some tok => Ok (PyStr.lstrip "go" tok)
  | None => Raise IndexError
  end.

(** [int(version_str.split(".")[0]), int(version_str.split(".")[1])] *)
Definition major_minor_of (version_str : string) : Result (Z * Z) :=
  match nth_error (PyStr.split_on "." version_str) 0 with
  | None => Raise IndexError
  | Some a =>
      match PyStr.int a with
      | None => Raise ValueError
      | Some major =>
          match nth_error (PyStr.split_on "." version_str) 1 with
          | None => Raise IndexError
          | Some b =>
              match PyStr.int b with
              | None => Raise ValueError
              | Some minor => Ok (major, minor)
              end
          end
      end
  end.

Definition lift_result {A} (r : Result A) : M A :=
  match r with
  | Ok a => ret a
  | Raise e => raise e
  end.

(** Lines 50 and 51 of [check_go]: the version string and its two leading
    numbers, from the output of [go version]. *)
Definition parse_go_version (out : string) : Result (string * (Z * Z)) :=
  match version_str_of out with
  | Raise e => Raise e
  | Ok version_str =>
      match major_minor_of version_str with
      | Raise e => Raise e
      | Ok mm => Ok (version_str, mm)
      end
  end.

(** The condition under which [check_go] dies. *)
Definition too_old (major minor : Z) : bool :=
  (major <? REQUIRED_GO_MAJOR)
  || ((major =? REQUIRED_GO_MAJOR) && (minor <? REQUIRED_GO_MINOR)).

Definition MSG_NO_GO : string :=
  "Go is not installed. Download it from https://go.dev/dl/ and re-run.".

Definition MSG_OLD_GO (version_str : string) : string :=
  "Go " ++ PyStr.str_int REQUIRED_GO_MAJOR ++ "." ++ PyStr.str_int REQUIRED_GO_MINOR
  ++ "+ required, found " ++ version_str.

Definition check_go : M unit :=
  found <- which "go" ;;
  (if negb found then die MSG_NO_GO else ret tt) ;;
  result <- run ["go"; "version"] None true ;;
  parsed <- lift_result (parse_go_version (stdout result)) ;;
  let version_str := fst parsed in
  let major := fst (snd parsed) in
  let minor := snd (snd parsed) in
  (if too_old major minor then die (MSG_OLD_GO version_str) else ret tt) ;;
  info ("Go " ++ version_str ++ " found").

(* -- package manager detection -- *)

Definition PKG_MANAGERS : list string :=
  ["brew"; "apt-get"; "dnf"; "yum"; "pacman"; "zypper"; "choco"].

Fixpoint first_found (names : list string) : M string :=
  match names with
  | [] => ret "unknown"
  | pm :: rest =>
      found <- which pm ;;
      if found then ret pm else first_found rest
  end.

Definition detect_pkg_manager : M string := first_found PKG_MANAGERS.

(* -- Tesseract -- *)

(** [subprocess.run([...], check=True)]: output not captured. *)
Definition pm_run (cmd : list string) : M unit :=
  subprocess_run cmd None true false ;; ret tt.

(** The body of the [try] of [install_tesseract]: the commands of the
    detected manager, or the two warnings. *)
Definition provision_with (pm : string) : M unit :=
  if String.eqb pm "brew" then
    pm_run ["brew"; "install"; "tesseract"]
  else if String.eqb pm "apt-get" then
    pm_run ["sudo"; "apt-get"; "update"; "-q"] ;;
    pm_run ["sudo"; "apt-get"; "install"; "-y"; "tesseract-ocr"]
  else if String.eqb pm "dnf" then
    pm_run ["sudo"; "dnf"; "install"; "-y"; "tesseract"]
  else if String.eqb pm "yum" then
    pm_run ["sudo"; "yum"; "install"; "-y"; "tesseract"]
  else if String.eqb pm "pacman" then
    pm_run ["sudo"; "pacman"; "-Sy"; "--noconfirm"; "tesseract"; "tesseract-data-eng"]
  else if String.eqb pm "zypper" then
    pm_run ["sudo"; "zypper"; "install"; "-y"; "tesseract-ocr"]
  else if String.eqb pm "choco" then
    pm_run ["choco"; "install"; "-y"; "tesseract"]
  else
    warn "Could not detect a supported package manager." ;;
    warn "Install Tesseract manually: https://github.com/tesseract-ocr/tesseract#installing-tesseract".

Definition MSG_PROVISION (rc : Z) (cmd : list string) : string :=
  "Failed to install Tesseract: " ++ str_CalledProcessError H rc cmd.

Definition install_tesseract : M unit :=
  pm <- detect_pkg_manager ;;
  info ("Installing Tesseract using package manager: " ++ pm) ;;
  try_except_CalledProcessError (provision_with pm)
    (fun rc cmd => die (MSG_PROVISION rc cmd)).

Definition tesseract_version : M string :=
  result <- run ["tesseract"; "--version"] None false ;;
  let output := if String.eqb (stdout result) "" then stderr result else stdout result in
  if String.eqb output "" then ret "unknown"
  else lift_option IndexError (nth_error (PyStr.splitlines output) 0).

Definition check_tesseract (with_ocr : bool) : M unit :=
  if with_ocr then
    found <- which "tesseract" ;;
    if found then
      v <- tesseract_version ;;
      info ("Tesseract already installed: " ++ v)
    else
      install_tesseract ;;
      v <- tesseract_version ;;
      info ("Tesseract installed: " ++ v)
  else
    found <- which "tesseract" ;;
    if found then
      v <- tesseract_version ;;
      info ("Tesseract found: " ++ v ++ " — OCR enabled")
    else
      warn "Tesseract not found. Image OCR will be unavailable." ;;
      warn "Re-run with --with-ocr to install, or install manually and restart the server.".

(* -- build -- *)

Definition CMD_TIDY : list string := ["go"; "mod"; "tidy"; "-e"].
Definition CMD_BUILD : list string :=
  ["go"; "build"; "-ldflags=-s -w"; "-o=" ++ BIN_NAME; "."].

Definition MSG_BUILD (rc : Z) (cmd : list string) : string :=
  "Build failed: " ++ str_CalledProcessError H rc cmd.

Definition build : M Path :=
  info ("Building " ++ BIN_NAME ++ "...") ;;
  try_except_CalledProcessError
    (run CMD_TIDY (Some SRC_DIR) true ;;
     run CMD_BUILD (Some SRC_DIR) true ;;
     ret tt)
    (fun rc cmd => die (MSG_BUILD rc cmd)) ;;
  let bin_path := joinpath SRC_DIR BIN_NAME in
  info ("Built: " ++ str bin_path) ;;
  ret bin_path.

(* -- install -- *)

Definition install_binary (bin_path install_dir : Path) : M Path :=
  fs_op (Mkdir install_dir) (Path_mkdir (umask H) true true install_dir) ;;
  let dest := joinpath install_dir BIN_NAME in
  fs_op (Copy2 bin_path dest) (shutil_copy2 bin_path dest) ;;
  (if negb IS_WINDOWS then fs_op (Chmod dest 493) (os_chmod dest 493) else ret tt) ;;
  info ("Installed to: " ++ str dest) ;;
  ret dest.

Definition check_path (install_dir : Path) : M unit :=
  let path_dirs := PyStr.split_on os_pathsep (default "" (environ H !! "PATH")) in
  if negb (existsb (String.eqb (str install_dir)) path_dirs) then
    warn (str install_dir ++ " is not on your PATH.") ;;
    if IS_WINDOWS then
      warn ("Add it via: setx PATH " ++ dq ++ "%PATH%;" ++ str install_dir ++ dq)
    else
      warn ("Add this to your shell profile: export PATH=" ++ dq ++ str install_dir
            ++ ":$PATH" ++ dq)
  else ret tt.

(* -- MCP config snippet -- *)

Definition rule : string := "────────────────────────────────────────────────────".

(** The text of the f-string of [print_config]. *)
Definition config_snippet (full_path : string) : string :=
  nl ++ "{" ++ nl
  ++ "  " ++ dq ++ "mcpServers" ++ dq ++ ": {" ++ nl
  ++ "    " ++ dq ++ "markitdown" ++ dq ++ ": {" ++ nl
  ++ "      " ++ dq ++ "command" ++ dq ++ ": " ++ dq ++ full_path ++ dq ++ nl
  ++ "    }" ++ nl
  ++ "  }" ++ nl
  ++ "}" ++ nl.

(** The desktop client's configuration file, by platform. *)
Definition desktop_config : Path :=
  if String.eqb (system H) "Darwin" then
    joinpath (joinpath (joinpath (joinpath (home H) "Library")
      "Application Support") "Claude") "claude_desktop_config.json"
  else if String.eqb (system H) "Linux" then
    joinpath (joinpath (joinpath (home H) ".config") "Claude")
      "claude_desktop_config.json"
  else if String.eqb (system H) "Windows" then
    let appdata :=
      default (str (joinpath (joinpath (home H) "AppData") "Roaming"))
              (environ H !! "APPDATA") in
    joinpath (joinpath (Path_of_str H appdata) "Claude") "claude_desktop_config.json"
  else mkPath "" "" ["your MCP client config file"].

Definition print_config (full_path : Path) : M unit :=
  emit (Stdout "") ;;
  emit (Stdout rule) ;;
  emit (Stdout "  Add to your MCP client configuration:") ;;
  emit (Stdout rule) ;;
  emit (Stdout (config_snippet (str full_path))) ;;
  emit (Stdout ("Claude Desktop config: " ++ str desktop_config)) ;;
  emit (Stdout "Claude Code config:    .mcp.json in your project root") ;;
  emit (Stdout "").

(* -- main -- *)

(** [main] once [parse_args] has produced its arguments. *)
Definition main (args : Args) : M unit :=
  check_go ;;
  check_tesseract (with_ocr args) ;;
  bin_path <- build ;;
  full_path <- install_binary bin_path (prefix args) ;;
  check_path (prefix args) ;;
  print_config full_path ;;
  info "Done. Restart your MCP client to pick up the new server.".

(** The process: exit status 0 when [main] returns, the code of
    [sys.exit], and for any other exception the interpreter's traceback on
    standard error and status 1. *)
Definition run_script (args : Args) (st : State) : Z * State :=
  match main args st with
  | (Ok _, st') => (0, st')
  | (Raise (SystemExit code), st') => (code, st')
  | (Raise e, st') => (1, mkState (fs st') (log st' ++ [Traceback e])%list)
  end.

End Script.

(** ** Vocabulary of the specification *)

Module Spec.

(** [(major, minor) >= (major', minor')], on the major number first and then
    on the minor number. *)
Definition lex_ge (a b : Z * Z) : Prop :=
  fst a > fst b \/ (fst a = fst b /\ snd a >= snd b).

(** The number a string of decimal digits denotes, units last: the digits
    are taken from the right. *)
Fixpoint value_from_units (digits : list ascii) : Z :=
  match digits with
  | [] => 0
  | d :: ds => PyStr.digit_value d + 10 * value_from_units ds
  end.

Definition decimal_value (s : string) : Z :=
  value_from_units (List.rev (list_ascii_of_string s)).

Fixpoint all_chars (P : ascii -> bool) (s : string) : bool :=
  match s with
  | "" => true
  | String c s' => P c && all_chars P s'
  end.

(** A non-empty string of decimal digits that [int] accepts. *)
Definition is_number (s : string) : Prop :=
  s <> "" /\ all_chars PyStr.isdigit s = true
  /\ (String.length s <= PyStr.int_max_str_digits)%nat.

(** A version token [<prefix><major>.<minor>.<patch>]. *)
Definition version_token (pre major minor patch : string) : string :=
  pre ++ major ++ "." ++ minor ++ "." ++ patch.

(** A text without its white space. *)
Fixpoint remove_ws (s : string) : string :=
  match s with
  | "" => ""
  | String c s' => if PyStr.isspace c then remove_ws s' else String c (remove_ws s')
  end.

(** The configuration object of the specification, on one line:
    [{"mcpServers": {"markitdown": {"command": "<path>"}}}]. *)
Definition config_object (path : string) : string :=
  "{" ++ dq ++ "mcpServers" ++ dq ++ ": {" ++ dq ++ "markitdown" ++ dq ++ ": {"
  ++ dq ++ "command" ++ dq ++ ": " ++ dq ++ path ++ dq ++ "}}}".

(** The version the provisioner reports: the first line of the standard
    output of [tesseract --version], of its standard error when the former is
    empty, or [unknown] when both are. *)
Definition reported_version (out err v : string) : Prop :=
  let output := if String.eqb out "" then err else out in
  (output = "" /\ v = "unknown")
  \/ (output <> "" /\ nth_error (PyStr.splitlines output) 0 = Some v).

(** The paths [Path.mkdir(parents=True)] may have to create, from the
    directory itself up to its anchor; the components are given last first. *)
Fixpoint ancestors_from (d r : string) (rparts : list string) : list Path :=
  mkPath d r (List.rev rparts)
  :: match rparts with
     | [] => []
     | _ :: rparts' => ancestors_from d r rparts'
     end.

Definition ancestors_and_self (p : Path) : list Path :=
  ancestors_from (drive p) (root p) (List.rev (parts p)).

Definition is_file (fs : gmap Path Node) (p : Path) : bool :=
  match node_at fs p with
  | Some (File _ _ _) => true
  | _ => false
  end.

(** No regular file stands where the directory or one of its ancestors has
    to be. *)
Definition creatable (fs : gmap Path Node) (dir : Path) : bool :=
  forallb (fun q => negb (is_file fs q)) (ancestors_and_self dir).

(** Permission bits [rwxr-xr-x]: read, write and execute for the owner, read
    and execute for the group and for the others. *)
Definition rwxr_xr_x : Z := Z.lor (Z.shiftl 7 6) (Z.lor (Z.shiftl 5 3) 5).

(** What the Installer logs: the directory, the copy and, off Windows, the
    change of mode, then its notice. *)
Definition install_events (H : Host) (bin_path install_dir : Path) : list Event :=
  let dest := joinpath install_dir (BIN_NAME H) in
  [Mkdir install_dir; Copy2 bin_path dest]
  ++ (if IS_WINDOWS H then [] else [Chmod dest rwxr_xr_x])
  ++ [Stdout (_c H "0;32" "==>" ++ " " ++ "Installed to: " ++ str H dest)].

(** The two warnings of the Environment Diagnostics step. *)
Definition path_warning (H : Host) (install_dir : Path) : list Event :=
  [Stdout (_c H "1;33" "warn:" ++ " " ++ str H install_dir ++ " is not on your PATH.");
   Stdout (_c H "1;33" "warn:" ++ " " ++
           (if IS_WINDOWS H
            then "Add it via: setx PATH " ++ dq ++ "%PATH%;" ++ str H install_dir ++ dq
            else "Add this to your shell profile: export PATH=" ++ dq
                 ++ str H install_dir ++ ":$PATH" ++ dq))].

(** The segments of the search-path variable, as [check_path] reads them. *)
Definition path_segments (H : Host) : list string :=
  PyStr.split_on (os_pathsep H) (default "" (environ H !! "PATH")).

(** Something written on the error stream. *)
Definition is_stderr (ev : Event) : bool :=
  match ev with
  | Stderr _ | Traceback _ => true
  | _ => false
  end.

(** The formatted line of [error]. *)
Definition error_line (H : Host) (msg : string) : Event :=
  Stderr (_c H "0;31" "error:" ++ " " ++ msg).

(** The messages the script dies with: the toolchain is missing or too old,
    a package-manager command failed, a build command failed. *)
Inductive fatal_message (H : Host) : string -> Prop :=
| fatal_no_go : fatal_message H MSG_NO_GO
| fatal_old_go vs : fatal_message H (MSG_OLD_GO vs)
| fatal_provision rc cmd : fatal_message H (MSG_PROVISION H rc cmd)
| fatal_build rc cmd : fatal_message H (MSG_BUILD H rc cmd).

Definition quiet (events : list Event) : Prop :=
  Forall (fun ev => is_stderr ev = false) events.

(** How a computation ends, as seen on the error stream.  It adds events to
    the log; when it returns or raises an exception other than [SystemExit]
    it has written nothing on the error stream; when it raises [SystemExit]
    the code is 1 and the last event is the one formatted line of a fatal
    message, the only thing written on the error stream. *)
Definition reports {A} (H : Host) (m : M A) : Prop :=
  forall st, exists new,
    log (snd (m st)) = (log st ++ new)%list /\
    match fst (m st) with
    | Raise (SystemExit code) =>
        code = 1 /\ exists before msg,
          new = (before ++ [error_line H msg])%list /\ quiet before
          /\ fatal_message H msg
    | _ => quiet new
    end.

(** An event that acts on the world: a started command or a file-system
    operation. *)
Definition is_action (ev : Event) : bool :=
  match ev with
  | Spawn _ _ _ | Mkdir _ | Copy2 _ _ | Chmod _ _ => true
  | _ => false
  end.

(** The Windows family of platforms: [platform.system()] is [Windows]. *)
Definition windows_family (H : Host) : bool := String.eqb (system H) "Windows".

(** The name of the binary on the platform of the host. *)
Definition binary_name (H : Host) : string :=
  if windows_family H then "markitdown-mcp.exe" else "markitdown-mcp".

(** A path as the platform of the host prints it. *)
Definition rendered (H : Host) (p : Path) : string :=
  str_path (if windows_family H then "\" else "/") p.

(** The trace of a complete installation: the directory, the copy, the
    change of mode on every platform outside the Windows family and on no
    other, and the notice. *)
Definition installer_trace (H : Host) (bin_path install_dir : Path) : list Event :=
  let dest := joinpath install_dir (binary_name H) in
  [Mkdir install_dir; Copy2 bin_path dest]
  ++ (if windows_family H then [] else [Chmod dest rwxr_xr_x])
  ++ [Stdout (_c H "0;32" "==>" ++ " " ++ "Installed to: " ++ rendered H dest)].

End Spec.

(** ** Sample hosts

    Concrete hosts on which the script is evaluated below. *)

Module Samples.

Definition posix (l : list string) : Path := mkPath "" "/" l.

Definition home_u : Path := posix ["home"; "u"].
Definition repo : Path := posix ["home"; "u"; "mcp"].
Definition src_dir : Path := posix ["home"; "u"; "mcp"; "src"; "markitdown"].
Definition artifact : Path := posix ["home"; "u"; "mcp"; "src"; "markitdown"; "markitdown-mcp"].
Definition local_bin : Path := posix ["home"; "u"; ".local"; "bin"].

(** A home directory with the checked-out repository. *)
Definition fs0 : gmap Path Node :=
  <[posix ["home"] := Dir 493]>
  (<[home_u := Dir 493]>
  (<[repo := Dir 493]>
  (<[posix ["home"; "u"; "mcp"; "src"] := Dir 493]>
  (<[src_dir := Dir 493]> ∅)))).

Definition st0 : State := mkState fs0 [].

(** [repr] of a string without quotes, backslashes or control characters. *)
Definition repr_str (s : string) : string := "'" ++ s ++ "'".

(** [str(e)] for a [CalledProcessError] with a positive exit status.  The
    command is printed as the sequence [subprocess.run] received: the tuple of
    [run] for the [go] and [tesseract] commands, a list for the install
    commands. *)
Definition called_process_error_text (rc : Z) (cmd : list string) : string :=
  let items := join_with ", " (List.map repr_str cmd) in
  let shown :=
    match cmd with
    | name :: rest =>
        if String.eqb name "go" || String.eqb name "tesseract"
        then "(" ++ items ++ (match rest with [] => "," | _ => "" end) ++ ")"
        else "[" ++ items ++ "]"
    | [] => "[]"
    end in
  "Command '" ++ shown ++ "' returned non-zero exit status " ++ PyStr.str_int rc ++ ".".

(** A Linux host whose [go version] prints [go_out]; [tools] are the
    executables on the search path.  A command that is on the search path
    exits with the status [exit_code] gives it, any other cannot be started;
    a successful [go build] leaves the artifact in the source directory. *)
Definition linux_host_with (exit_code : list string -> Z) (go_out : string)
    (tools : list string) (env : gmap string string) : Host :=
  {| system := "Linux";
     isatty := false;
     environ := env;
     home := home_u;
     script_dir := repo;
     umask := 18;
     Path_of_str := fun s => mkPath "" "" [s];
     shutil_which := fun _ name => existsb (String.eqb name) tools;
     spawn := fun st cmd _ =>
       match cmd with
       | name :: args =>
           if existsb (String.eqb name) tools then
             if String.eqb name "go" then
               match args with
               | ["version"] => (Exited (exit_code cmd) go_out "", fs st)
               | "build" :: _ =>
                   if exit_code cmd =? 0
                   then (Exited 0 "" "", <[artifact := File "ELF" 509 1700000000]> (fs st))
                   else (Exited (exit_code cmd) "" "build failed", fs st)
               | _ => (Exited (exit_code cmd) "" "", fs st)
               end
             else if String.eqb name "tesseract" then
               (Exited (exit_code cmd)
                  ("tesseract 5.3.0" ++ nl ++ " leptonica-1.82.0" ++ nl) "", fs st)
             else (Exited (exit_code cmd) "" "", fs st)
           else (NotStarted FileNotFoundError, fs st)
       | [] => (NotStarted FileNotFoundError, fs st)
       end;
     str_CalledProcessError := called_process_error_text |}.

(** Every command succeeds. *)
Definition linux_host (go_out : string) (tools : list string)
    (env : gmap string string) : Host :=
  linux_host_with (fun _ => 0) go_out tools env.

Definition go_1_24 : string := "go version go1.24.0 linux/amd64" ++ nl.

Definition path_env : gmap string string := {[ "PATH" := "/usr/bin:/bin" ]}.

(** Two package managers are installed. *)
Definition two_managers : gset string := {[ "apt-get"; "brew" ]}.
Definition host_two_managers : Host :=
  linux_host go_1_24 ["go"; "apt-get"; "brew"] path_env.

(** Go 1.24.0 and nothing else: no OCR tool, no package manager. *)
Definition host_bare : Host := linux_host go_1_24 ["go"] path_env.

(** Go and the OCR tool. *)
Definition host_ocr : Host := linux_host go_1_24 ["go"; "tesseract"] path_env.

(** A toolchain whose version output has two fields only. *)
Definition host_odd_version : Host := linux_host "go version" ["go"] path_env.

(** The search path names the install directory with a trailing separator. *)
Definition host_trailing_slash : Host :=
  linux_host go_1_24 ["go"] {[ "PATH" := "/usr/bin:/home/u/.local/bin/" ]}.

(** The search path names the install directory as pathlib spells it. *)
Definition host_on_path : Host :=
  linux_host go_1_24 ["go"] {[ "PATH" := "/usr/bin:/home/u/.local/bin" ]}.

(** An older toolchain. *)
Definition host_go_1_9 : Host :=
  linux_host ("go version go1.9.2 linux/amd64" ++ nl) ["go"] path_env.

(** [brew] is there and fails. *)
Definition host_brew_fails : Host :=
  linux_host_with (fun cmd => if bool_decide (cmd = ["brew"; "install"; "tesseract"])
                              then 1 else 0)
    go_1_24 ["go"; "brew"] path_env.

(** [go mod tidy] fails. *)
Definition host_tidy_fails : Host :=
  linux_host_with (fun cmd => if bool_decide (cmd = ["go"; "mod"; "tidy"; "-e"])
                              then 1 else 0)
    go_1_24 ["go"] path_env.

(** [go build] fails. *)
Definition host_build_fails : Host :=
  linux_host_with (fun cmd => match cmd with
                              | "go" :: "build" :: _ => 2
                              | _ => 0
                              end)
    go_1_24 ["go"] path_env.

(** The state after the toolchain gate, and after the OCR check without
    [--with-ocr] on a host without the OCR tool. *)
Definition st_gate : State :=
  mkState fs0 [Spawn ["go"; "version"] None true; Stdout "==> Go 1.24.0 found"].

Definition st_checked : State :=
  mkState fs0
    [Spawn ["go"; "version"] None true; Stdout "==> Go 1.24.0 found";
     Stdout "warn: Tesseract not found. Image OCR will be unavailable.";
     Stdout "warn: Re-run with --with-ocr to install, or install manually and restart the server."].

(** The state after a successful build. *)
Definition fs_built : gmap Path Node := <[artifact := File "ELF" 509 1700000000]> fs0.
Definition st_built : State := mkState fs_built [].

(** A regular file where the parent of the install directory should be. *)
Definition fs_blocked : gmap Path Node :=
  <[posix ["home"; "u"; ".local"] := File "" 420 1600000000]> fs0.

(** A relative install directory. *)
Definition rel_bin : Path := mkPath "" "" ["bin"].

(** No [PATH] in the environment. *)
Definition host_no_path : Host := linux_host go_1_24 ["go"] ∅.

End Samples.

(** ** Vocabulary of further properties *)

Module Behaviour.

(** An ASCII letter. *)
Definition is_alpha (c : ascii) : bool :=
  let n := N_of_ascii c in
  (((65 <=? n) && (n <=? 90)) || ((97 <=? n) && (n <=? 122)))%N.

Fixpoint any_char (P : ascii -> bool) (s : string) : bool :=
  match s with
  | "" => false
  | String c s' => P c || any_char P s'
  end.

Definition is_linebreak_free (s : string) : bool :=
  Spec.all_chars (fun c => negb (PyStr.is_linebreak c)) s.

(** [v] is the first line of [output]: the text before the first line
    boundary. *)
Definition first_line_of (output v : string) : Prop :=
  exists rest,
    output = v ++ rest /\ is_linebreak_free v = true
    /\ (rest = "" \/ exists c r, rest = String c r /\ PyStr.is_linebreak c = true).

(** The install commands of [install_tesseract], by manager. *)
Definition install_commands (pm : string) : list (list string) :=
  if String.eqb pm "brew" then [["brew"; "install"; "tesseract"]]
  else if String.eqb pm "apt-get" then
    [["sudo"; "apt-get"; "update"; "-q"];
     ["sudo"; "apt-get"; "install"; "-y"; "tesseract-ocr"]]
  else if String.eqb pm "dnf" then [["sudo"; "dnf"; "install"; "-y"; "tesseract"]]
  else if String.eqb pm "yum" then [["sudo"; "yum"; "install"; "-y"; "tesseract"]]
  else if String.eqb pm "pacman" then
    [["sudo"; "pacman"; "-Sy"; "--noconfirm"; "tesseract"; "tesseract-data-eng"]]
  else if String.eqb pm "zypper" then
    [["sudo"; "zypper"; "install"; "-y"; "tesseract-ocr"]]
  else if String.eqb pm "choco" then [["choco"; "install"; "-y"; "tesseract"]]
  else [].

(** The commands of a list, each run with [check=True] and its output left
    on the terminal, one after the other. *)
Fixpoint run_all (H : Host) (cmds : list (list string)) : M unit :=
  match cmds with
  | [] => ret tt
  | cmd :: rest => bind (pm_run H cmd) (fun _ => run_all H rest)
  end.

Definition uncaptured (cmds : list (list string)) : list Event :=
  List.map (fun cmd => Spawn cmd None false) cmds.

(** Started one after the other from [st], the commands of [cmds] all exit
    with status 0 on the host and leave the state [st']. *)
Fixpoint all_exit_0 (H : Host) (cmds : list (list string)) (st st' : State) : Prop :=
  match cmds with
  | [] => st' = st
  | cmd :: rest =>
      exists out err fs1,
        spawn H st cmd None = (Exited 0 out err, fs1)
        /\ all_exit_0 H rest (mkState fs1 (log st ++ [Spawn cmd None false])%list) st'
  end.

(** Every event a computation adds to the log satisfies [P]. *)
Definition emits {A} (P : Event -> Prop) (m : M A) : Prop :=
  forall st, exists new,
    log (snd (m st)) = (log st ++ new)%list /\ Forall P new.

Definition is_fs_op (ev : Event) : bool :=
  match ev with
  | Mkdir _ | Copy2 _ _ | Chmod _ _ => true
  | _ => false
  end.

(** The commands a run may start: the two version queries and the two build
    commands, with their output captured; with [--with-ocr] also the install
    commands of a manager of the probe list, with their output left on the
    terminal. *)
Definition allowed_command (H : Host) (args : Args)
    (cmd : list string) (cwd : option Path) (captured : bool) : Prop :=
  (cmd = ["go"; "version"] /\ cwd = None /\ captured = true)
  \/ (cmd = ["tesseract"; "--version"] /\ cwd = None /\ captured = true)
  \/ ((cmd = CMD_TIDY \/ cmd = CMD_BUILD H) /\ cwd = Some (SRC_DIR H) /\ captured = true)
  \/ (with_ocr args = true /\ cwd = None /\ captured = false
      /\ exists pm, In pm PKG_MANAGERS /\ In cmd (install_commands pm)).

(** The file-system operations a run may make: the install directory is
    created, the artifact is copied to the destination, and off Windows the
    destination gets the mode [rwxr-xr-x]. *)
Definition allowed_fs_op (H : Host) (args : Args) (ev : Event) : Prop :=
  match ev with
  | Mkdir p => p = prefix args
  | Copy2 src dst =>
      src = joinpath (SRC_DIR H) (BIN_NAME H) /\ dst = joinpath (prefix args) (BIN_NAME H)
  | Chmod p mode =>
      IS_WINDOWS H = false /\ p = joinpath (prefix args) (BIN_NAME H)
      /\ mode = Spec.rwxr_xr_x
  | _ => True
  end.

Definition allowed_event (H : Host) (args : Args) (ev : Event) : Prop :=
  match ev with
  | Spawn cmd cwd captured => allowed_command H args cmd cwd captured
  | _ => allowed_fs_op H args ev
  end.

End Behaviour.

(** ** Further sample hosts and states *)

Module Cases.

Import Samples.

(** [go version] exits with status 3. *)
Definition host_go_broken : Host :=
  linux_host_with (fun cmd => if bool_decide (cmd = ["go"; "version"]) then 3 else 0)
    go_1_24 ["go"] path_env.

(** A release candidate of the toolchain. *)
Definition host_go_rc : Host :=
  linux_host ("go version go1.24rc1 linux/amd64" ++ nl) ["go"] path_env.

(** [apt-get] is there, [sudo] is not. *)
Definition host_no_sudo : Host := linux_host go_1_24 ["go"; "apt-get"] path_env.

(** [apt-get update] fails. *)
Definition host_apt_update_fails : Host :=
  linux_host_with
    (fun cmd => if bool_decide (cmd = ["sudo"; "apt-get"; "update"; "-q"]) then 100 else 0)
    go_1_24 ["go"; "sudo"; "apt-get"] path_env.

(** The OCR tool prints its version on standard error only. *)
Definition host_ocr_on_stderr : Host :=
  {| system := "Linux";
     isatty := false;
     environ := path_env;
     home := home_u;
     script_dir := repo;
     umask := 18;
     Path_of_str := fun s => mkPath "" "" [s];
     shutil_which := fun _ name => existsb (String.eqb name) ["go"; "tesseract"];
     spawn := fun st cmd _ =>
       match cmd with
       | ["tesseract"; "--version"] =>
           (Exited 1 "" ("tesseract 4.1.1" ++ String "013" (String "010" " leptonica")), fs st)
       | _ => (NotStarted FileNotFoundError, fs st)
       end;
     str_CalledProcessError := called_process_error_text |}.

(** No event of the list is a file-system operation. *)
Definition no_fs_ops (events : list Event) : Prop :=
  Forall (fun ev => Behaviour.is_fs_op ev = false) events.

(** The events a run added to the log of [st]. *)
Definition new_events (H : Host) (args : Args) (st : State) : list Event :=
  drop (length (log st)) (log (snd (run_script H args st))).

(** The destination [/home/u/.local/bin/markitdown-mcp] exists and is a
    directory. *)
Definition fs_dest_is_dir : gmap Path Node :=
  <[posix ["home"; "u"; ".local"; "bin"; "markitdown-mcp"] := Dir 448]>
  (<[local_bin := Dir 493]>
  (<[posix ["home"; "u"; ".local"] := Dir 493]> fs_built)).

(** The OCR tool is found on the search path and cannot be started. *)
Definition host_ocr_unstartable : Host :=
  {| system := "Linux";
     isatty := false;
     environ := path_env;
     home := home_u;
     script_dir := repo;
     umask := 18;
     Path_of_str := fun s => mkPath "" "" [s];
     shutil_which := fun _ name => existsb (String.eqb name) ["go"; "tesseract"];
     spawn := fun st _ _ => (NotStarted PermissionError, fs st);
     str_CalledProcessError := called_process_error_text |}.

(** A regular file named [/home/u/.local/bin]. *)
Definition fs_dir_is_file : gmap Path Node :=
  <[local_bin := File "" 420 1600000000]>
  (<[posix ["home"; "u"; ".local"] := Dir 493]> fs_built).

(** A Windows host, its file system with the built artifact, and an install
    directory that does not exist yet. *)
Definition win (l : list string) : Path := mkPath "C:" "\" l.

Definition host_windows : Host :=
  {| system := "Windows";
     isatty := false;
     environ := ∅;
     home := win ["Users"; "u"];
     script_dir := win ["mcp"];
     umask := 0;
     Path_of_str := fun s => mkPath "" "" [s];
     shutil_which := fun _ _ => false;
     spawn := fun st _ _ => (NotStarted FileNotFoundError, fs st);
     str_CalledProcessError := called_process_error_text |}.

Definition artifact_exe : Path := win ["mcp"; "src"; "markitdown"; "markitdown-mcp.exe"].

Definition fs_windows : gmap Path Node :=
  <[artifact_exe := File "MZ" 438 1700000000]>
  (<[win ["mcp"; "src"; "markitdown"] := Dir 511]>
  (<[win ["mcp"; "src"] := Dir 511]>
  (<[win ["mcp"] := Dir 511]> ∅))).

(** [apt-get update] succeeds and [apt-get install] fails. *)
Definition host_apt_install_fails : Host :=
  linux_host_with
    (fun cmd => if bool_decide (cmd = ["sudo"; "apt-get"; "install"; "-y"; "tesseract-ocr"])
                then 100 else 0)
    go_1_24 ["go"; "sudo"; "apt-get"] path_env.

End Cases.

(** * Properties *)

(** ** Strings *)

Section StringFacts.

Import PyStr Spec.

Lemma append_assoc_s (a b c : string) : (a ++ b) ++ c = a ++ (b ++ c).
Proof. induction a as [|x a IH]; simpl; [reflexivity | now rewrite IH]. Qed.

Lemma isdigit_not_space c : isdigit c = true -> isspace c = false.
Proof.
  unfold isdigit, isspace. intros Hd.
  apply andb_true_iff in Hd as [H1 H2].
  apply N.leb_le in H1. apply N.leb_le in H2.
  apply orb_false_iff; split; apply andb_false_iff.
  - right. apply N.leb_gt. lia.
  - right. apply N.leb_gt. lia.
Qed.

Lemma not_space_int c : isspace c = false -> int_space c = false.
Proof.
  unfold isspace, int_space. intros Hs.
  apply orb_false_iff in Hs as [H1 H2].
  apply orb_false_iff. split; [exact H1|].
  apply N.eqb_neq. intros E. rewrite E in H2. discriminate.
Qed.

Lemma isdigit_neq c d : isdigit c = true -> isdigit d = false -> Ascii.eqb c d = false.
Proof.
  intros Hc Hd. destruct (Ascii.eqb c d) eqn:E; [|reflexivity].
  apply Ascii.eqb_eq in E. subst. congruence.
Qed.

Lemma isdigit_not_go c : isdigit c = true -> mem_char c "go" = false.
Proof.
  intros Hc. simpl.
  rewrite (isdigit_neq c "g"), (isdigit_neq c "o"); auto.
Qed.

(** [lstrip] removes a prefix made of the given characters and stops at the
    first other character. *)
Lemma lstrip_prefix chars pre c rest :
  all_chars (fun x => mem_char x chars) pre = true ->
  mem_char c chars = false ->
  lstrip chars (pre ++ String c rest) = String c rest.
Proof.
  intros Hpre Hc. induction pre as [|x pre IH]; simpl in *.
  - now rewrite Hc.
  - apply andb_true_iff in Hpre as [Hx Hpre]. rewrite Hx. auto.
Qed.

(** Splitting on a separator cuts at its first occurrence. *)
Lemma split_on_first sep a b :
  all_chars (fun x => negb (Ascii.eqb x sep)) a = true ->
  split_on sep (a ++ String sep b) = a :: split_on sep b.
Proof.
  intros Ha. induction a as [|x a IH]; simpl in *.
  - now rewrite Ascii.eqb_refl.
  - apply andb_true_iff in Ha as [Hx Ha].
    apply negb_true_iff in Hx. rewrite Hx, (IH Ha). reflexivity.
Qed.

Lemma digits_no_dot s :
  all_chars isdigit s = true ->
  all_chars (fun x => negb (Ascii.eqb x ".")) s = true.
Proof.
  induction s as [|c s IH]; simpl; [reflexivity|].
  intros H. apply andb_true_iff in H as [Hc Hs].
  rewrite (isdigit_neq c "." Hc eq_refl). simpl. auto.
Qed.

Lemma rstrip_ws_digits s : all_chars isdigit s = true -> rstrip_ws s = s.
Proof.
  induction s as [|c s IH]; simpl; [reflexivity|].
  intros H. apply andb_true_iff in H as [Hc Hs].
  rewrite (IH Hs). destruct s; [|reflexivity].
  now rewrite (not_space_int c (isdigit_not_space c Hc)).
Qed.

Lemma strip_ws_digits s : all_chars isdigit s = true -> strip_ws s = s.
Proof.
  intros H. unfold strip_ws.
  destruct s as [|c s]; [reflexivity|].
  simpl in H. pose proof H as H'. apply andb_true_iff in H as [Hc Hs].
  simpl lstrip_ws. rewrite (not_space_int c (isdigit_not_space c Hc)).
  now apply rstrip_ws_digits.
Qed.

Lemma value_from_units_snoc l d :
  value_from_units (l ++ [d])%list
  = value_from_units l + 10 ^ Z.of_nat (List.length l) * digit_value d.
Proof.
  induction l as [|x l IH]; simpl List.length; simpl value_from_units.
  - simpl. lia.
  - simpl app. simpl value_from_units. rewrite IH.
    rewrite Nat2Z.inj_succ, Z.pow_succ_r by lia. lia.
Qed.

Lemma decimal_value_cons c s :
  decimal_value (String c s)
  = digit_value c * 10 ^ Z.of_nat (String.length s) + decimal_value s.
Proof.
  unfold decimal_value. simpl. rewrite value_from_units_snoc.
  rewrite length_rev.
  replace (List.length (list_ascii_of_string s)) with (String.length s).
  - lia.
  - clear. induction s; simpl; congruence.
Qed.

(** The loop of [int] computes the positional value. *)
Lemma int_digits_value s : forall acc cnt,
  all_chars isdigit s = true ->
  int_digits acc cnt s
  = Some (acc * 10 ^ Z.of_nat (String.length s) + decimal_value s,
          (cnt + String.length s)%nat).
Proof.
  induction s as [|c s IH]; intros acc cnt H.
  - simpl. unfold decimal_value. simpl. f_equal. f_equal; lia.
  - simpl in H. apply andb_true_iff in H as [Hc Hs].
    simpl int_digits. rewrite Hc, (IH _ _ Hs), decimal_value_cons.
    simpl String.length. rewrite Nat2Z.inj_succ, Z.pow_succ_r by lia.
    f_equal. f_equal; lia.
Qed.

Lemma int_number s : is_number s -> int s = Some (decimal_value s).
Proof.
  intros (Hne & Hd & Hlen). unfold int. rewrite (strip_ws_digits s Hd).
  destruct s as [|c s]; [congruence|].
  pose proof Hd as Hd'. simpl in Hd'. apply andb_true_iff in Hd' as [Hc Hs].
  rewrite (isdigit_neq c "-" Hc eq_refl), (isdigit_neq c "+" Hc eq_refl).
  unfold int_unsigned. rewrite Hc, (int_digits_value s _ _ Hs).
  simpl String.length in Hlen.
  destruct (Nat.leb_spec (1 + String.length s) int_max_str_digits) as [_|Hgt]; [|lia].
  f_equal. rewrite decimal_value_cons. lia.
Qed.

Lemma splitlines_from_nonempty s b :
  s <> "" -> (b = false \/ s <> String "010" "") -> splitlines_from b s <> [].
Proof.
  revert b. induction s as [|c s IH]; intros b Hne Hb; [congruence|].
  simpl. destruct (b && Ascii.eqb c "010") eqn:E.
  - apply andb_true_iff in E as [-> E]. apply Ascii.eqb_eq in E. subst c.
    destruct Hb as [Hb|Hb]; [discriminate|].
    destruct s as [|d s]; [congruence|].
    apply IH; [discriminate | now left].
  - destruct (is_linebreak c); [discriminate|].
    destruct (splitlines_from false s); discriminate.
Qed.

Lemma remove_ws_app a b : remove_ws (a ++ b) = remove_ws a ++ remove_ws b.
Proof.
  induction a as [|c a IH]; simpl; [reflexivity|].
  destruct (isspace c); simpl; now rewrite IH.
Qed.

End StringFacts.

(** Python's string methods on the inputs of the script. *)

Example split_ws_go_version :
  PyStr.split_ws "go version go1.24.0 darwin/arm64"
  = ["go"; "version"; "go1.24.0"; "darwin/arm64"].
Proof. reflexivity. Qed.

Example split_ws_blank : PyStr.split_ws "   " = [].
Proof. reflexivity. Qed.

Example split_on_dots : PyStr.split_on "." "1.24.0" = ["1"; "24"; "0"].
Proof. reflexivity. Qed.

Example split_on_empty : PyStr.split_on ":" "" = [""].
Proof. reflexivity. Qed.

Example split_on_adjacent : PyStr.split_on ":" "a::b:" = ["a"; ""; "b"; ""].
Proof. reflexivity. Qed.

Example lstrip_go : PyStr.lstrip "go" "go1.24.0" = "1.24.0".
Proof. reflexivity. Qed.

Example int_examples :
  PyStr.int "24" = Some 24 /\ PyStr.int " -7 " = Some (-7) /\
  PyStr.int "1_000" = Some 1000 /\ PyStr.int "1__0" = None /\
  PyStr.int "rc1" = None /\ PyStr.int "" = None /\ PyStr.int "007" = Some 7.
Proof. repeat split; reflexivity. Qed.

(** A tab around the number is skipped, a file separator is not. *)
Example int_white_space :
  PyStr.int (String "009" "24") = Some 24 /\ PyStr.int (String "028" "24") = None.
Proof. split; reflexivity. Qed.

Example splitlines_examples :
  PyStr.splitlines ("tesseract 5.3.0" ++ String "010" " leptonica-1.82")
  = ["tesseract 5.3.0"; " leptonica-1.82"] /\
  PyStr.splitlines (String "013" (String "010" "x")) = [""; "x"] /\
  PyStr.splitlines (String "010" "") = [""].
Proof. repeat split; reflexivity. Qed.

Example str_int_examples : PyStr.str_int 24 = "24" /\ PyStr.str_int 0 = "0".
Proof. split; reflexivity. Qed.

(** ** The monad *)

Section MonadFacts.

Context {A B : Type}.

Lemma bind_ok (m : M A) (k : A -> M B) st a st1 :
  m st = (Ok a, st1) -> bind m k st = k a st1.
Proof. intros E. unfold bind. now rewrite E. Qed.

Lemma bind_raise (m : M A) (k : A -> M B) st e st1 :
  m st = (Raise e, st1) -> bind m k st = (Raise e, st1).
Proof. intros E. unfold bind. now rewrite E. Qed.

(** A sequence that returns has run both of its parts. *)
Lemma bind_ok_inv (m : M A) (k : A -> M B) st b st2 :
  bind m k st = (Ok b, st2) ->
  exists a st1, m st = (Ok a, st1) /\ k a st1 = (Ok b, st2).
Proof.
  unfold bind. destruct (m st) as [[a|e] st1]; intros E.
  - eauto.
  - discriminate.
Qed.

End MonadFacts.

(** ** The Toolchain Gate *)

Section Gate.

Import PyStr Spec.

Variable H : Host.

(** What [check_go] does once the toolchain is found and its version
    parsed. *)
Lemma check_go_parsed st out err fs1 vs major minor :
  shutil_which H st "go" = true ->
  spawn H st ["go"; "version"] None = (Exited 0 out err, fs1) ->
  parse_go_version out = Ok (vs, (major, minor)) ->
  check_go H st =
    if too_old major minor
    then (Raise (SystemExit 1),
          mkState fs1 (log st ++ [Spawn ["go"; "version"] None true;
                                  Stderr (_c H "0;31" "error:" ++ " " ++ MSG_OLD_GO vs)]))
    else (Ok tt,
          mkState fs1 (log st ++ [Spawn ["go"; "version"] None true;
                                  Stdout (_c H "0;32" "==>" ++ " " ++ "Go " ++ vs ++ " found")])).
Proof.
  intros Hw Hs Hp.
  unfold check_go, bind, which, run, subprocess_run. rewrite Hw. simpl.
  rewrite Hs. simpl. rewrite Hp. simpl.
  destruct (too_old major minor); simpl;
    unfold die, error, info, bind, emit, raise, ret; simpl;
    now rewrite <- app_assoc.
Qed.

Lemma check_go_missing st :
  shutil_which H st "go" = false ->
  check_go H st =
    (Raise (SystemExit 1),
     mkState (fs st) (log st ++ [Stderr (_c H "0;31" "error:" ++ " " ++ MSG_NO_GO)])).
Proof.
  intros Hw. unfold check_go, bind, which. rewrite Hw. reflexivity.
Qed.

Lemma too_old_spec major minor :
  too_old major minor = false <-> lex_ge (major, minor) (1, 24).
Proof.
  unfold too_old, lex_ge, REQUIRED_GO_MAJOR, REQUIRED_GO_MINOR. simpl.
  rewrite orb_false_iff, andb_false_iff, Z.ltb_ge, Z.eqb_neq, Z.ltb_ge. lia.
Qed.

End Gate.

(** C1.  Once the toolchain is found and its version parsed as
    [(major, minor)], [check_go] returns (the run goes on) exactly when
    [(major, minor) >= (1, 24)], compared as numbers on the major number first
    and then on the minor number; otherwise it ends the run with [sys.exit(1)].
    In particular 1.9 is too old, 2.0 and 1.24 are not. *)
Theorem C1_gate_passes_iff :
  (forall H st out err fs1 vs major minor,
     shutil_which H st "go" = true ->
     spawn H st ["go"; "version"] None = (Exited 0 out err, fs1) ->
     parse_go_version out = Ok (vs, (major, minor)) ->
     ((exists st', check_go H st = (Ok tt, st'))
        <-> Spec.lex_ge (major, minor) (1, 24))
     /\ (~ Spec.lex_ge (major, minor) (1, 24) ->
         exists st', check_go H st = (Raise (SystemExit 1), st')))
  /\ too_old 1 9 = true /\ too_old 2 0 = false /\ too_old 1 24 = false.
Proof.
  split; [|repeat split; reflexivity].
  intros H st out err fs1 vs major minor Hw Hs Hp.
  rewrite (check_go_parsed H st out err fs1 vs major minor Hw Hs Hp).
  rewrite <- too_old_spec.
  destruct (too_old major minor); split.
  - split; [intros [st' E]; discriminate | discriminate].
  - intros _. eauto.
  - split; [reflexivity | eauto].
  - intros Hn. now contradiction Hn.
Qed.

(** C1 on a Linux host with Go 1.24.0: the gate passes at the boundary. *)
Lemma C1_gate_passes_iff_witness :
  ((exists st', check_go (Samples.linux_host Samples.go_1_24 ["go"] Samples.path_env)
                  Samples.st0 = (Ok tt, st'))
     <-> Spec.lex_ge (1, 24) (1, 24))
  /\ (~ Spec.lex_ge (1, 24) (1, 24) ->
      exists st', check_go (Samples.linux_host Samples.go_1_24 ["go"] Samples.path_env)
                    Samples.st0 = (Raise (SystemExit 1), st')).
Proof.
  apply (proj1 C1_gate_passes_iff
           (Samples.linux_host Samples.go_1_24 ["go"] Samples.path_env) Samples.st0
           Samples.go_1_24 "" Samples.fs0 "1.24.0" 1 24); reflexivity.
Defined.

(** ** The version parser *)

Section Parser.

Import PyStr Spec.

Lemma is_number_cons s :
  is_number s -> exists c s', s = String c s' /\ isdigit c = true.
Proof.
  intros (Hne & Hd & _). destruct s as [|c s']; [congruence|].
  simpl in Hd. apply andb_true_iff in Hd as [Hc _]. eauto.
Qed.

Lemma major_minor_of_numbers major minor patch :
  is_number major -> is_number minor ->
  major_minor_of (major ++ "." ++ minor ++ "." ++ patch)
  = Ok (decimal_value major, decimal_value minor).
Proof.
  intros Hma Hmi. unfold major_minor_of.
  pose proof Hma as (_ & Hda & _). pose proof Hmi as (_ & Hdi & _).
  change ("." ++ minor ++ "." ++ patch) with (String "." (minor ++ String "." patch)).
  rewrite (split_on_first "." major _ (digits_no_dot _ Hda)).
  rewrite (split_on_first "." minor _ (digits_no_dot _ Hdi)).
  cbn [nth_error]. cbv beta iota.
  now rewrite (int_number _ Hma), (int_number _ Hmi).
Qed.

End Parser.

(** C2, as the code has it.  When the third white-space-separated field of
    the line is a token [<prefix><major>.<minor>.<patch>] whose prefix is made
    of the letters [g] and [o] (as in [go]) and whose major and minor parts are
    decimal numbers, the parser returns the rest of the token as version
    string and [(major, minor)] as numbers, whatever the other fields are. *)
Theorem C2_third_field_parsed line tok pre major minor patch :
  nth_error (PyStr.split_ws line) 2 = Some tok ->
  tok = Spec.version_token pre major minor patch ->
  Spec.all_chars (fun c => PyStr.mem_char c "go") pre = true ->
  Spec.is_number major ->
  Spec.is_number minor ->
  parse_go_version line
  = Ok (major ++ "." ++ minor ++ "." ++ patch,
        (Spec.decimal_value major, Spec.decimal_value minor)).
Proof.
  intros Hnth -> Hpre Hma Hmi.
  unfold parse_go_version, version_str_of. rewrite Hnth.
  destruct (is_number_cons _ Hma) as (c & m' & Em & Hc).
  unfold Spec.version_token.
  assert (El : PyStr.lstrip "go" (pre ++ major ++ "." ++ minor ++ "." ++ patch)
               = major ++ "." ++ minor ++ "." ++ patch).
  { rewrite Em. simpl. apply lstrip_prefix; [exact Hpre | now apply isdigit_not_go]. }
  rewrite El, (major_minor_of_numbers _ _ _ Hma Hmi). reflexivity.
Qed.

(** C2 on the line [go version go1.24.0 darwin/arm64]. *)
Lemma C2_third_field_parsed_witness :
  parse_go_version "go version go1.24.0 darwin/arm64" = Ok ("1.24.0", (1, 24)).
Proof.
  apply (C2_third_field_parsed "go version go1.24.0 darwin/arm64" "go1.24.0"
           "go" "1" "24" "0").
  - reflexivity.
  - reflexivity.
  - reflexivity.
  - repeat split; [discriminate | unfold PyStr.int_max_str_digits; simpl; lia].
  - repeat split; [discriminate | unfold PyStr.int_max_str_digits; simpl; lia].
Defined.

(** C2 as stated fails.  A line that contains the token [go1.24.0] after one
    extra leading field is not parsed to [(1, 24)]: [int] is applied to the
    field [version] and raises [ValueError].  And a token in third position
    whose prefix is not made of the letters [g] and [o] keeps its prefix, so
    [int] raises [ValueError] as well. *)
Lemma C2_counterexample :
  (In (Spec.version_token "go" "1" "24" "0")
      (PyStr.split_ws "toolchain: go version go1.24.0 linux/amd64")
   /\ parse_go_version "toolchain: go version go1.24.0 linux/amd64" = Raise ValueError)
  /\ (nth_error (PyStr.split_ws "zig version zig1.24.0 linux/amd64") 2
      = Some (Spec.version_token "zig" "1" "24" "0")
      /\ parse_go_version "zig version zig1.24.0 linux/amd64" = Raise ValueError).
Proof. repeat split; try reflexivity. simpl. tauto. Qed.

(** C3.  When [go] is not on the search path the process prints the one
    error line and exits with status 1; nothing else is added to the log (no
    command is started, no file-system operation is made) and the file system
    is as it was. *)
Theorem C3_missing_toolchain_exits_1 H args st :
  shutil_which H st "go" = false ->
  run_script H args st
  = (1, mkState (fs st) (log st ++ [Stderr (_c H "0;31" "error:" ++ " " ++ MSG_NO_GO)]))
  /\ Forall (fun ev => Spec.is_action ev = false)
       (drop (length (log st)) (log (snd (run_script H args st)))).
Proof.
  intros Hw.
  assert (E : run_script H args st
    = (1, mkState (fs st) (log st ++ [Stderr (_c H "0;31" "error:" ++ " " ++ MSG_NO_GO)]))).
  { unfold run_script, main. now rewrite (bind_raise _ _ _ _ _ (check_go_missing H st Hw)). }
  split; [exact E|].
  rewrite E. simpl. rewrite drop_app_length. repeat constructor.
Qed.

(** C3 on a Linux host without Go. *)
Lemma C3_missing_toolchain_exits_1_witness :
  run_script (Samples.linux_host Samples.go_1_24 [] Samples.path_env)
    (mkArgs true Samples.local_bin) Samples.st0
  = (1, mkState Samples.fs0
          [Stderr "error: Go is not installed. Download it from https://go.dev/dl/ and re-run."])
  /\ Forall (fun ev => Spec.is_action ev = false)
       (drop (length (log Samples.st0))
          (log (snd (run_script (Samples.linux_host Samples.go_1_24 [] Samples.path_env)
                       (mkArgs true Samples.local_bin) Samples.st0)))).
Proof.
  apply (C3_missing_toolchain_exits_1
           (Samples.linux_host Samples.go_1_24 [] Samples.path_env)
           (mkArgs true Samples.local_bin) Samples.st0).
  reflexivity.
Defined.

(** ** The Package Manager Selector *)

Section Selector.

Variable H : Host.

(** The probe returns the first name the locator finds, and does not change
    the state. *)
Lemma first_found_spec names st :
  exists r, first_found H names st = (Ok r, st) /\
    ((r = "unknown" /\ forall pm, In pm names -> shutil_which H st pm = false)
     \/ (exists before after, names = (before ++ r :: after)%list
           /\ shutil_which H st r = true
           /\ forall pm, In pm before -> shutil_which H st pm = false)).
Proof.
  induction names as [|pm rest IH].
  - exists "unknown". split; [reflexivity|]. left. split; [reflexivity|]. intros ? [].
  - simpl. unfold bind, which. simpl.
    destruct (shutil_which H st pm) eqn:Ew.
    + exists pm. split; [reflexivity|]. right. exists [], rest.
      repeat split; [exact Ew|]. intros ? [].
    + destruct IH as (r & Er & Hr). exists r. split; [exact Er|].
      destruct Hr as [[-> Hall] | (before & after & -> & Hw & Hbefore)].
      * left. split; [reflexivity|]. intros q [<-|Hq]; auto.
      * right. exists (pm :: before), after. repeat split; [exact Hw|].
        intros q [<-|Hq]; auto.
Qed.

(** The probe depends on the locator's answers for the probed names only. *)
Lemma first_found_ext H' names st st' :
  (forall pm, In pm names -> shutil_which H st pm = shutil_which H' st' pm) ->
  fst (first_found H names st) = fst (first_found H' names st').
Proof.
  induction names as [|pm rest IH]; intros Hagree; [reflexivity|].
  simpl. unfold bind, which. simpl.
  rewrite <- (Hagree pm (or_introl eq_refl)).
  destruct (shutil_which H st pm); [reflexivity|].
  apply IH. intros q Hq. apply Hagree. now right.
Qed.

End Selector.

(** C5.  The selector probes [brew], [apt-get], [dnf], [yum], [pacman],
    [zypper], [choco] in this order.  For a set [avail] of managers on the
    search path it returns the first name of the list that is in [avail], or
    [unknown] when none is, and leaves the state alone; two hosts with the
    same available managers select the same one. *)
Theorem C5_first_available_manager H st (avail : gset string) :
  (forall pm, In pm PKG_MANAGERS -> shutil_which H st pm = bool_decide (pm ∈ avail)) ->
  PKG_MANAGERS = ["brew"; "apt-get"; "dnf"; "yum"; "pacman"; "zypper"; "choco"]
  /\ (exists r, detect_pkg_manager H st = (Ok r, st) /\
        ((r = "unknown" /\ forall pm, In pm PKG_MANAGERS -> pm ∉ avail)
         \/ (exists before after, PKG_MANAGERS = (before ++ r :: after)%list
               /\ r ∈ avail /\ forall pm, In pm before -> pm ∉ avail)))
  /\ (forall H' st',
        (forall pm, In pm PKG_MANAGERS -> shutil_which H' st' pm = bool_decide (pm ∈ avail)) ->
        fst (detect_pkg_manager H' st') = fst (detect_pkg_manager H st)).
Proof.
  intros Hav. split; [reflexivity|]. split.
  - destruct (first_found_spec H PKG_MANAGERS st) as (r & Er & Hr).
    exists r. split; [exact Er|].
    destruct Hr as [[-> Hall] | (before & after & E & Hw & Hbefore)].
    + left. split; [reflexivity|]. intros pm Hpm Hin.
      specialize (Hall pm Hpm). rewrite (Hav pm Hpm) in Hall.
      now apply bool_decide_eq_false in Hall.
    + right. exists before, after. split; [exact E|].
      assert (Hr : In r PKG_MANAGERS) by (rewrite E; apply in_or_app; right; now left).
      split.
      * rewrite (Hav r Hr) in Hw. now apply bool_decide_eq_true in Hw.
      * intros pm Hpm Hin.
        assert (Hpm' : In pm PKG_MANAGERS) by (rewrite E; apply in_or_app; now left).
        specialize (Hbefore pm Hpm). rewrite (Hav pm Hpm') in Hbefore.
        now apply bool_decide_eq_false in Hbefore.
  - intros H' st' Hav'. apply first_found_ext.
    intros pm Hpm. now rewrite (Hav pm Hpm), (Hav' pm Hpm).
Qed.

(** C5 on a host with [apt-get] and [brew]: [brew] comes first in the
    probe order. *)
Lemma C5_first_available_manager_witness :
  PKG_MANAGERS = ["brew"; "apt-get"; "dnf"; "yum"; "pacman"; "zypper"; "choco"]
  /\ (exists r, detect_pkg_manager Samples.host_two_managers Samples.st0
                = (Ok r, Samples.st0) /\
        ((r = "unknown" /\ forall pm, In pm PKG_MANAGERS -> pm ∉ Samples.two_managers)
         \/ (exists before after, PKG_MANAGERS = (before ++ r :: after)%list
               /\ r ∈ Samples.two_managers
               /\ forall pm, In pm before -> pm ∉ Samples.two_managers)))
  /\ (forall H' st',
        (forall pm, In pm PKG_MANAGERS ->
                    shutil_which H' st' pm = bool_decide (pm ∈ Samples.two_managers)) ->
        fst (detect_pkg_manager H' st')
        = fst (detect_pkg_manager Samples.host_two_managers Samples.st0)).
Proof.
  apply (C5_first_available_manager Samples.host_two_managers Samples.st0
           Samples.two_managers).
  intros pm Hpm. simpl in Hpm.
  destruct Hpm as [<-|[<-|[<-|[<-|[<-|[<-|[<-|[]]]]]]]]; vm_compute; reflexivity.
Defined.

Example detect_two_managers :
  detect_pkg_manager Samples.host_two_managers Samples.st0 = (Ok "brew", Samples.st0).
Proof. reflexivity. Qed.

Example detect_none :
  detect_pkg_manager Samples.host_bare Samples.st0 = (Ok "unknown", Samples.st0).
Proof. reflexivity. Qed.

(** ** The OCR Provisioner *)

Section Provisioner.

Import PyStr.

Variable H : Host.

(** The first element of [splitlines] is the text before the first line
    boundary. *)
Lemma splitlines_first_line s : forall v l,
  splitlines_from false s = v :: l -> Behaviour.first_line_of s v.
Proof.
  induction s as [|c s IH]; intros v l E; [discriminate|].
  simpl in E. destruct (is_linebreak c) eqn:Hc.
  - injection E as <- _. exists (String c s).
    split; [reflexivity|]. split; [reflexivity|]. right. eauto.
  - destruct (splitlines_from false s) as [|v' l'] eqn:Es.
    + injection E as <- _.
      assert (s = "") as ->.
      { destruct s as [|d s]; [reflexivity|].
        exfalso. refine (splitlines_from_nonempty (String d s) false _ _ Es);
          [discriminate | now left]. }
      exists "". split; [reflexivity|]. split; [|now left].
      unfold Behaviour.is_linebreak_free. simpl. now rewrite Hc.
    + injection E as <- <-.
      destruct (IH v' l' eq_refl) as (rest & -> & Hfree & Hrest).
      exists rest. split; [reflexivity|]. split; [|exact Hrest].
      unfold Behaviour.is_linebreak_free in *. simpl. now rewrite Hc, Hfree.
Qed.

Lemma tesseract_version_exited st rc out err fs1 :
  spawn H st ["tesseract"; "--version"] None = (Exited rc out err, fs1) ->
  exists v,
    tesseract_version H st
    = (Ok v, mkState fs1 (log st ++ [Spawn ["tesseract"; "--version"] None true]))
    /\ Spec.reported_version out err v.
Proof.
  intros Hs. unfold tesseract_version, bind, run, subprocess_run, Spec.reported_version.
  rewrite Hs. simpl.
  set (output := if String.eqb out "" then err else out).
  destruct (String.eqb output "") eqn:E.
  - exists "unknown". split; [reflexivity|]. left.
    apply String.eqb_eq in E. now split.
  - apply String.eqb_neq in E.
    pose proof (splitlines_from_nonempty output false E (or_introl eq_refl)) as Hne.
    unfold splitlines.
    destruct (splitlines_from false output) as [|v rest] eqn:El; [congruence|].
    exists v. split; [reflexivity|]. right. now split.
Qed.

(** The version returned, as text of the output of the query. *)
Lemma tesseract_version_text st rc out err fs1 :
  spawn H st ["tesseract"; "--version"] None = (Exited rc out err, fs1) ->
  exists v,
    tesseract_version H st
    = (Ok v, mkState fs1 (log st ++ [Spawn ["tesseract"; "--version"] None true]))
    /\ Spec.reported_version out err v
    /\ (out <> "" -> Behaviour.first_line_of out v)
    /\ (out = "" -> err <> "" -> Behaviour.first_line_of err v)
    /\ (out = "" -> err = "" -> v = "unknown").
Proof.
  intros Hs.
  destruct (tesseract_version_exited st rc out err fs1 Hs) as (v & Ev & Hv).
  exists v. split; [exact Ev|]. split; [exact Hv|].
  unfold Spec.reported_version in Hv. cbv zeta in Hv.
  assert (Hfirst : forall output,
            nth_error (splitlines output) 0 = Some v ->
            Behaviour.first_line_of output v).
  { intros output Hn. unfold splitlines in Hn.
    destruct (splitlines_from false output) as [|v' l] eqn:El; [discriminate|].
    injection Hn as ->. exact (splitlines_first_line output v l El). }
  destruct (String.eqb out "") eqn:Eo.
  - apply String.eqb_eq in Eo. subst out.
    split; [congruence|]. split.
    + intros _ Herr. destruct Hv as [[He _]|[Hne Hn]]; [congruence|]. now apply Hfirst.
    + intros _ Herr. destruct Hv as [[_ Hu]|[Hne _]]; [exact Hu | congruence].
  - apply String.eqb_neq in Eo.
    split; [|split; congruence].
    intros _. destruct Hv as [[He _]|[Hne Hn]]; [congruence|]. now apply Hfirst.
Qed.

Lemma tesseract_version_not_started st k fs1 :
  spawn H st ["tesseract"; "--version"] None = (NotStarted k, fs1) ->
  tesseract_version H st
  = (Raise (OSError k),
     mkState fs1 (log st ++ [Spawn ["tesseract"; "--version"] None true])).
Proof.
  intros Hs. unfold tesseract_version, bind, run, subprocess_run. now rewrite Hs.
Qed.

(** Without a package manager the provisioner prints its notice and the two
    warnings, and returns. *)
Lemma install_tesseract_unknown st :
  (forall pm, In pm PKG_MANAGERS -> shutil_which H st pm = false) ->
  install_tesseract H st
  = (Ok tt,
     mkState (fs st)
       (log st ++
        [Stdout (_c H "0;32" "==>" ++ " " ++ "Installing Tesseract using package manager: unknown");
         Stdout (_c H "1;33" "warn:" ++ " " ++ "Could not detect a supported package manager.");
         Stdout (_c H "1;33" "warn:" ++ " " ++
                 "Install Tesseract manually: https://github.com/tesseract-ocr/tesseract#installing-tesseract")])).
Proof.
  intros Hnone. unfold install_tesseract.
  destruct (first_found_spec H PKG_MANAGERS st) as (r & Er & Hr).
  unfold detect_pkg_manager. rewrite (bind_ok _ _ _ _ _ Er).
  destruct Hr as [[-> _] | (before & after & E & Hw & _)].
  - unfold bind, info, warn, emit, try_except_CalledProcessError. simpl.
    now rewrite <- !app_assoc.
  - assert (Hr : In r PKG_MANAGERS) by (rewrite E; apply in_or_app; right; now left).
    rewrite (Hnone r Hr) in Hw. discriminate.
Qed.

End Provisioner.

(** C7.  In provisioning mode with the OCR tool on the search path, when the
    version query [tesseract --version] can be started and runs to its end
    (with any exit status), the provisioner returns without error; the only
    command it starts is the version query, so no package manager is run, and
    it reports the version found: the text before the first line boundary of
    the standard output, of the standard error when the former is empty, or
    [unknown] when both are.  This holds in every state, so also when the
    provisioner is run again. *)
Theorem C7_already_installed_no_install H st rc out err fs1 :
  shutil_which H st "tesseract" = true ->
  spawn H st ["tesseract"; "--version"] None = (Exited rc out err, fs1) ->
  exists v,
    check_tesseract H true st
    = (Ok tt,
       mkState fs1
         (log st ++
          [Spawn ["tesseract"; "--version"] None true;
           Stdout (_c H "0;32" "==>" ++ " " ++ "Tesseract already installed: " ++ v)]))
    /\ Spec.reported_version out err v
    /\ (out <> "" -> Behaviour.first_line_of out v)
    /\ (out = "" -> err <> "" -> Behaviour.first_line_of err v)
    /\ (out = "" -> err = "" -> v = "unknown").
Proof.
  intros Hw Hs.
  destruct (tesseract_version_text H st rc out err fs1 Hs) as (v & Ev & Hv).
  exists v. split; [|exact Hv].
  unfold check_tesseract, bind, which. rewrite Hw, Ev.
  unfold info, emit. simpl. now rewrite <- app_assoc.
Qed.

(** C7 on a host with Tesseract 5.3.0. *)
Lemma C7_already_installed_no_install_witness :
  let out := "tesseract 5.3.0" ++ nl ++ " leptonica-1.82.0" ++ nl in
  exists v,
    check_tesseract Samples.host_ocr true Samples.st0
    = (Ok tt,
       mkState Samples.fs0
         ([] ++
          [Spawn ["tesseract"; "--version"] None true;
           Stdout (_c Samples.host_ocr "0;32" "==>" ++ " "
                   ++ "Tesseract already installed: " ++ v)]))
    /\ Spec.reported_version out "" v
    /\ (out <> "" -> Behaviour.first_line_of out v)
    /\ (out = "" -> "" <> "" -> Behaviour.first_line_of "" v)
    /\ (out = "" -> "" = "" -> v = "unknown").
Proof.
  apply (C7_already_installed_no_install Samples.host_ocr Samples.st0 0
           ("tesseract 5.3.0" ++ nl ++ " leptonica-1.82.0" ++ nl) "" Samples.fs0);
    reflexivity.
Defined.

(** C7 as stated fails.  The OCR tool is resolvable on the search path and
    cannot be executed: the version query raises [PermissionError], which
    nothing catches, so the provisioner does not report a version and does not
    succeed. *)
Lemma C7_counterexample :
  shutil_which Cases.host_ocr_unstartable Samples.st0 "tesseract" = true
  /\ check_tesseract Cases.host_ocr_unstartable true Samples.st0
     = (Raise (OSError PermissionError),
        mkState Samples.fs0 [Spawn ["tesseract"; "--version"] None true]).
Proof. split; reflexivity. Qed.

Example already_installed_line :
  log (snd (check_tesseract Samples.host_ocr true Samples.st0))
  = [Spawn ["tesseract"; "--version"] None true;
     Stdout "==> Tesseract already installed: tesseract 5.3.0"].
Proof. reflexivity. Qed.

(** C6, what the code does.  With [--with-ocr], the toolchain gate passed, no
    OCR tool and no package manager on the search path, the provisioner prints
    its notice and the two warnings; [check_tesseract] then asks the absent
    tool for its version, the command cannot be started, and the process ends
    with a traceback and status 1 before the build. *)
Theorem C6_unknown_manager_run_aborts H args st st1 k fs2 :
  with_ocr args = true ->
  check_go H st = (Ok tt, st1) ->
  shutil_which H st1 "tesseract" = false ->
  (forall pm, In pm PKG_MANAGERS -> shutil_which H st1 pm = false) ->
  let notices :=
    [Stdout (_c H "0;32" "==>" ++ " " ++ "Installing Tesseract using package manager: unknown");
     Stdout (_c H "1;33" "warn:" ++ " " ++ "Could not detect a supported package manager.");
     Stdout (_c H "1;33" "warn:" ++ " " ++
             "Install Tesseract manually: https://github.com/tesseract-ocr/tesseract#installing-tesseract")] in
  spawn H (mkState (fs st1) (log st1 ++ notices)) ["tesseract"; "--version"] None
  = (NotStarted k, fs2) ->
  run_script H args st
  = (1, mkState fs2
          (log st1 ++ notices
           ++ [Spawn ["tesseract"; "--version"] None true; Traceback (OSError k)])).
Proof.
  intros Hocr Hgo Hw Hnone notices Hs.
  unfold run_script, main. rewrite (bind_ok _ _ _ _ _ Hgo).
  assert (E : check_tesseract H (with_ocr args) st1
              = (Raise (OSError k),
                 mkState fs2 ((log st1 ++ notices)
                              ++ [Spawn ["tesseract"; "--version"] None true]))).
  { rewrite Hocr. unfold check_tesseract.
    unfold bind at 1. unfold which at 1. rewrite Hw.
    rewrite (bind_ok _ _ _ _ _ (install_tesseract_unknown H st1 Hnone)).
    now rewrite (bind_raise _ _ _ _ _ (tesseract_version_not_started H _ k fs2 Hs)). }
  rewrite (bind_raise _ _ _ _ _ E). simpl. now rewrite <- !app_assoc.
Qed.

(** C6 on a Linux host with Go 1.24.0 and nothing else. *)
Lemma C6_unknown_manager_run_aborts_witness :
  run_script Samples.host_bare (mkArgs true Samples.local_bin) Samples.st0
  = (1, mkState Samples.fs0
          [Spawn ["go"; "version"] None true;
           Stdout "==> Go 1.24.0 found";
           Stdout "==> Installing Tesseract using package manager: unknown";
           Stdout "warn: Could not detect a supported package manager.";
           Stdout "warn: Install Tesseract manually: https://github.com/tesseract-ocr/tesseract#installing-tesseract";
           Spawn ["tesseract"; "--version"] None true;
           Traceback (OSError FileNotFoundError)]).
Proof.
  apply (C6_unknown_manager_run_aborts Samples.host_bare
           (mkArgs true Samples.local_bin) Samples.st0
           (mkState Samples.fs0 [Spawn ["go"; "version"] None true;
                                 Stdout "==> Go 1.24.0 found"])
           FileNotFoundError Samples.fs0).
  - reflexivity.
  - reflexivity.
  - reflexivity.
  - intros pm Hpm. simpl in Hpm.
    destruct Hpm as [<-|[<-|[<-|[<-|[<-|[<-|[<-|[]]]]]]]]; reflexivity.
  - reflexivity.
Defined.

(** ** Environment Diagnostics *)

Section Diagnostics.

Import Spec.

Variable H : Host.

Lemma existsb_eqb_In x (l : list string) : existsb (String.eqb x) l = true <-> In x l.
Proof.
  rewrite existsb_exists. split.
  - intros (y & Hy & E). apply String.eqb_eq in E. now subst.
  - intros Hx. exists x. split; [exact Hx | apply String.eqb_refl].
Qed.

(** [check_path] returns, and prints the two warnings exactly when no
    segment equals the rendered install directory. *)
Lemma check_path_spec dir st :
  check_path H dir st
  = (Ok tt,
     if existsb (String.eqb (str H dir)) (path_segments H) then st
     else mkState (fs st) (log st ++ path_warning H dir)).
Proof.
  unfold check_path, path_segments.
  destruct (existsb _ _); simpl; [reflexivity|].
  unfold bind, warn, emit, path_warning. simpl.
  destruct (IS_WINDOWS H); simpl; now rewrite <- app_assoc.
Qed.

Lemma append_nonempty_l (a b : string) : a <> "" -> a ++ b <> "".
Proof. destruct a; [congruence | discriminate]. Qed.

Lemma append_nonempty_r (a b : string) : b <> "" -> a ++ b <> "".
Proof. destruct a; [trivial | discriminate]. Qed.

(** pathlib never renders a path as the empty string. *)
Lemma str_path_nonempty sep p :
  Forall (fun s => s <> "") (parts p) -> str_path sep p <> "".
Proof.
  intros Hparts. unfold str_path.
  destruct (drive p) as [|c d]; [|discriminate].
  destruct (root p) as [|c r]; [|discriminate].
  destruct (parts p) as [|x l]; [discriminate|].
  inversion Hparts as [|? ? Hx _]; subst.
  apply append_nonempty_r, append_nonempty_r.
  simpl. destruct l; [exact Hx | now apply append_nonempty_l].
Qed.

End Diagnostics.

(** C10.  [check_path] never raises and leaves the file system alone.  It
    compares the rendered install directory with the segments of [PATH] split
    on the platform separator, by equality of strings: it is silent when some
    segment is equal and prints its two warnings otherwise.  An unset [PATH]
    gives the single segment [""], so the warnings are always printed then; a
    segment with a trailing separator is not equal to the directory, so the
    directory is reported as absent. *)
Theorem C10_path_membership_is_string_equality :
  (forall H dir st,
     (exists st', check_path H dir st = (Ok tt, st') /\ fs st' = fs st)
     /\ (In (str H dir) (Spec.path_segments H) -> check_path H dir st = (Ok tt, st))
     /\ (~ In (str H dir) (Spec.path_segments H) ->
         check_path H dir st
         = (Ok tt, mkState (fs st) (log st ++ Spec.path_warning H dir)))
     /\ (environ H !! "PATH" = None ->
         Forall (fun s => s <> "") (parts dir) ->
         Spec.path_segments H = [""]
         /\ check_path H dir st
            = (Ok tt, mkState (fs st) (log st ++ Spec.path_warning H dir))))
  /\ (In "/home/u/.local/bin/" (Spec.path_segments Samples.host_trailing_slash)
      /\ check_path Samples.host_trailing_slash Samples.local_bin Samples.st0
         = (Ok tt, mkState Samples.fs0
                     [Stdout "warn: /home/u/.local/bin is not on your PATH.";
                      Stdout ("warn: Add this to your shell profile: export PATH=" ++ dq
                              ++ "/home/u/.local/bin:$PATH" ++ dq)])).
Proof.
  split; [|split; [vm_compute; tauto | reflexivity]].
  intros H dir st. pose proof (check_path_spec H dir st) as E.
  assert (Hno : ~ In (str H dir) (Spec.path_segments H) ->
                check_path H dir st
                = (Ok tt, mkState (fs st) (log st ++ Spec.path_warning H dir))).
  { intros Hn. rewrite E.
    destruct (existsb _ _) eqn:Eb; [|reflexivity].
    apply existsb_eqb_In in Eb. contradiction. }
  split; [|split; [|split; [exact Hno|]]].
  - rewrite E. destruct (existsb _ _); eauto.
  - intros Hin. rewrite E. apply existsb_eqb_In in Hin. now rewrite Hin.
  - intros Hunset Hparts.
    assert (Hseg : Spec.path_segments H = [""]).
    { unfold Spec.path_segments. now rewrite Hunset. }
    split; [exact Hseg|].
    apply Hno. rewrite Hseg.
    intros [Hs|[]]. symmetry in Hs. revert Hs. now apply str_path_nonempty.
Qed.

(** C10 on a host without [PATH]. *)
Lemma C10_path_membership_is_string_equality_witness :
  Spec.path_segments Samples.host_no_path = [""]
  /\ check_path Samples.host_no_path Samples.local_bin Samples.st0
     = (Ok tt, mkState (fs Samples.st0)
                 (log Samples.st0
                  ++ Spec.path_warning Samples.host_no_path Samples.local_bin)).
Proof.
  apply (proj1 C10_path_membership_is_string_equality
           Samples.host_no_path Samples.local_bin Samples.st0).
  - reflexivity.
  - repeat constructor; discriminate.
Defined.

Example check_path_silent :
  check_path Samples.host_on_path Samples.local_bin Samples.st0 = (Ok tt, Samples.st0).
Proof. reflexivity. Qed.

(** ** The Installer *)

Section FileSystemFacts.

Import Spec.

Lemma node_at_insert (fs : gmap Path Node) p v q :
  parts p <> [] ->
  node_at (<[p := v]> fs) q = if decide (p = q) then Some v else node_at fs q.
Proof.
  intros Hp. unfold node_at. destruct (parts q) eqn:E.
  - case_decide; [subst; congruence | reflexivity].
  - apply lookup_insert.
Qed.

Lemma parent_snoc d r l x : parent (mkPath d r (l ++ [x])) = mkPath d r l.
Proof. unfold parent. simpl. now rewrite removelast_last. Qed.

Lemma parent_joinpath p name : parent (joinpath p name) = p.
Proof. destruct p. unfold joinpath. simpl. apply parent_snoc. Qed.

Lemma joinpath_parts p name : parts (joinpath p name) <> [].
Proof. unfold joinpath. simpl. destruct (parts p); discriminate. Qed.

Lemma mkdir_parents_cons umask eo d r x t fs :
  mkdir_parents umask eo d r (x :: t) fs =
    match os_mkdir umask (mkPath d r (rev (x :: t))) fs with
    | inr fs' => inr fs'
    | inl FileNotFoundError =>
        match mkdir_parents umask true d r t fs with
        | inl e => inl e
        | inr fs1 => mkdir_once umask eo (mkPath d r (rev (x :: t))) fs1
        end
    | inl e => if eo && is_dir fs (mkPath d r (rev (x :: t))) then inr fs else inl e
    end.
Proof. reflexivity. Qed.

(** A path is longer than each of the ancestors of its parent. *)
Lemma ancestors_from_length d r rparts q :
  In q (ancestors_from d r rparts) -> (length (parts q) <= length rparts)%nat.
Proof.
  induction rparts as [|x t IH]; simpl.
  - intros [<-|[]]. simpl. lia.
  - intros [<-|Hq].
    + simpl. rewrite length_app, length_rev. simpl. lia.
    + specialize (IH Hq). lia.
Qed.

Lemma is_dir_node fs p : is_dir fs p = true -> exists m, node_at fs p = Some (Dir m).
Proof. unfold is_dir. destruct (node_at fs p) as [[m|]|]; try discriminate. eauto. Qed.

(** [mkdir] on an existing directory does nothing. *)
Lemma mkdir_parents_existing umask d r rparts fs :
  is_dir fs (mkPath d r (rev rparts)) = true ->
  mkdir_parents umask true d r rparts fs = inr fs.
Proof.
  intros Hd. destruct (is_dir_node _ _ Hd) as [m Em].
  destruct rparts as [|x t].
  - reflexivity.
  - rewrite mkdir_parents_cons. unfold os_mkdir. rewrite Em. cbv beta iota.
    now rewrite Hd.
Qed.

(** [mkdir(parents=True, exist_ok=True)] succeeds when no regular file is in
    the way; the directory exists afterwards, what existed is unchanged, and
    only ancestors of the directory are created. *)
Lemma mkdir_parents_ok umask d r rparts : forall fs,
  forallb (fun q => negb (is_file fs q)) (ancestors_from d r rparts) = true ->
  exists fs1,
    mkdir_parents umask true d r rparts fs = inr fs1
    /\ is_dir fs1 (mkPath d r (rev rparts)) = true
    /\ (forall q, node_at fs q <> None -> node_at fs1 q = node_at fs q)
    /\ (forall q, ~ In q (ancestors_from d r rparts) -> node_at fs1 q = node_at fs q).
Proof.
  induction rparts as [|x t IH]; intros fs Hok.
  - exists fs. repeat split; reflexivity.
  - set (p := mkPath d r (rev (x :: t))).
    assert (Hp : parts p <> []) by (simpl; destruct (rev t); discriminate).
    assert (Hok' : negb (is_file fs p)
                   && forallb (fun q => negb (is_file fs q)) (ancestors_from d r t)
                   = true) by exact Hok.
    apply andb_true_iff in Hok' as [Hfile Hrest].
    destruct (is_dir fs p) eqn:Ed.
    { exists fs. split; [now apply mkdir_parents_existing|].
      split; [exact Ed | split; reflexivity]. }
    rewrite mkdir_parents_cons. fold p.
    assert (En : node_at fs p = None).
    { unfold is_dir in Ed. unfold is_file in Hfile.
      destruct (node_at fs p) as [[m|]|]; try discriminate; reflexivity. }
    assert (Epar : parent p = mkPath d r (rev t)) by apply parent_snoc.
    assert (Hnotin : ~ In p (ancestors_from d r t)).
    { intros Hin. apply ancestors_from_length in Hin.
      simpl in Hin. rewrite length_app, length_rev in Hin. simpl in Hin. lia. }
    destruct (IH fs Hrest) as (fs1 & E1 & Hd1 & Hkeep1 & Hnew1).
    assert (Hpar : negb (is_file fs (mkPath d r (rev t))) = true).
    { assert (Hhd : forall l, forallb (fun q => negb (is_file fs q)) (ancestors_from d r l)
                              = true -> negb (is_file fs (mkPath d r (rev l))) = true).
      { intros l Hl. destruct l; apply andb_true_iff in Hl as [Hx _]; exact Hx. }
      now apply Hhd. }
    unfold os_mkdir. rewrite En, Epar.
    destruct (node_at fs (mkPath d r (rev t))) as [[m| ? ? ?]|] eqn:Ep.
    + (* the parent is a directory *)
      exists (<[p := Dir (Z.ldiff 511 umask)]> fs).
      split; [reflexivity|]. split; [|split].
      * unfold is_dir. rewrite node_at_insert by exact Hp.
        now rewrite decide_True by reflexivity.
      * intros q Hq. rewrite node_at_insert by exact Hp.
        case_decide; [subst; congruence | reflexivity].
      * intros q Hq. rewrite node_at_insert by exact Hp.
        case_decide; [|reflexivity]. subst q. exfalso. apply Hq. now left.
    + (* the parent is a regular file: excluded *)
      unfold is_file in Hpar. rewrite Ep in Hpar. discriminate.
    + (* the parent is missing: create it first *)
      rewrite E1. unfold mkdir_once, os_mkdir.
      rewrite (Hnew1 p Hnotin), En, Epar.
      destruct (is_dir_node _ _ Hd1) as [m Em]. rewrite Em.
      exists (<[p := Dir (Z.ldiff 511 umask)]> fs1).
      split; [reflexivity|]. split; [|split].
      * unfold is_dir. rewrite node_at_insert by exact Hp.
        now rewrite decide_True by reflexivity.
      * intros q Hq. rewrite node_at_insert by exact Hp.
        case_decide; [subst; congruence | now apply Hkeep1].
      * intros q Hq. rewrite node_at_insert by exact Hp.
        case_decide; [subst q; exfalso; apply Hq; now left|].
        apply Hnew1. intros Hin. apply Hq. now right.
Qed.

End FileSystemFacts.

Section Installer.

Import Spec.

Variable H : Host.

Lemma Path_mkdir_existing dir fs :
  is_dir fs dir = true -> Path_mkdir (umask H) true true dir fs = inr fs.
Proof.
  intros Hd. unfold Path_mkdir. apply mkdir_parents_existing.
  rewrite rev_involutive. now destruct dir.
Qed.

Lemma Path_mkdir_ok dir fs :
  creatable fs dir = true ->
  exists fs1,
    Path_mkdir (umask H) true true dir fs = inr fs1
    /\ is_dir fs1 dir = true
    /\ (forall q, node_at fs q <> None -> node_at fs1 q = node_at fs q)
    /\ (forall name, node_at fs1 (joinpath dir name) = node_at fs (joinpath dir name)).
Proof.
  intros Hc.
  destruct (mkdir_parents_ok (umask H) (drive dir) (root dir) (rev (parts dir)) fs Hc)
    as (fs1 & E & Hd & Hkeep & Hnew).
  exists fs1. rewrite rev_involutive in Hd.
  split; [exact E|]. split; [now destruct dir|]. split; [exact Hkeep|].
  intros name. apply Hnew. intros Hin.
  apply ancestors_from_length in Hin.
  unfold joinpath in Hin. simpl in Hin.
  rewrite length_app, length_rev in Hin. simpl in Hin. lia.
Qed.

(** The steps of [install_binary] after the directory is there. *)
Lemma install_after_mkdir bin dir st fs1 data mode mtime :
  Path_mkdir (umask H) true true dir (fs st) = inr fs1 ->
  is_dir fs1 dir = true ->
  node_at fs1 bin = Some (File data mode mtime) ->
  is_dir fs1 (joinpath dir (BIN_NAME H)) = false ->
  bin <> joinpath dir (BIN_NAME H) ->
  install_binary H bin dir st
  = (Ok (joinpath dir (BIN_NAME H)),
     mkState (<[joinpath dir (BIN_NAME H)
                := File data (if IS_WINDOWS H then mode else rwxr_xr_x) mtime]> fs1)
             (log st ++ install_events H bin dir)).
Proof.
  intros Hmk Hdir Hbin Hdest Hne.
  set (dest := joinpath dir (BIN_NAME H)) in *.
  assert (Hparts : parts dest <> []) by apply joinpath_parts.
  destruct (is_dir_node _ _ Hdir) as [m Em].
  assert (Ecopy : shutil_copy2 bin dest fs1 = inr (<[dest := File data mode mtime]> fs1)).
  { assert (Epar : node_at fs1 (parent dest) = Some (Dir m)).
    { unfold dest. now rewrite parent_joinpath. }
    assert (Hnd : forall m', node_at fs1 dest <> Some (Dir m')).
    { intros m' E. unfold is_dir in Hdest. rewrite E in Hdest. discriminate. }
    unfold shutil_copy2. rewrite Hdest.
    rewrite (bool_decide_eq_false_2 _ Hne). simpl. rewrite Hbin, Epar.
    destruct (node_at fs1 dest) as [[m'|? ? ?]|]; [|reflexivity|reflexivity].
    now contradiction (Hnd m'). }
  unfold install_binary, bind, fs_op, install_events. fold dest.
  rewrite Hmk. simpl. rewrite Ecopy. simpl.
  destruct (IS_WINDOWS H); simpl.
  - unfold info, emit, ret. simpl. now rewrite <- !app_assoc.
  - unfold os_chmod. rewrite node_at_insert by exact Hparts.
    rewrite decide_True by reflexivity. simpl.
    unfold info, emit, ret. simpl. rewrite insert_insert_eq.
    now rewrite <- !app_assoc.
Qed.

End Installer.

(** The Installer on an artifact that is a regular file, an install directory
    with no regular file in its way and a destination that is neither a
    directory nor the artifact. *)
Lemma install_binary_places H bin dir st data mode mtime :
  node_at (fs st) bin = Some (File data mode mtime) ->
  Spec.creatable (fs st) dir = true ->
  is_dir (fs st) (joinpath dir (BIN_NAME H)) = false ->
  bin <> joinpath dir (BIN_NAME H) ->
  let dest := joinpath dir (BIN_NAME H) in
  let installed := File data (if IS_WINDOWS H then mode else Spec.rwxr_xr_x) mtime in
  exists fs1,
    Path_mkdir (umask H) true true dir (fs st) = inr fs1
    /\ (is_dir (fs st) dir = true -> fs1 = fs st)
    /\ is_dir fs1 dir = true
    /\ (forall q, node_at (fs st) q <> None -> node_at fs1 q = node_at (fs st) q)
    /\ install_binary H bin dir st
       = (Ok dest, mkState (<[dest := installed]> fs1)
                     (log st ++ Spec.install_events H bin dir))
    /\ node_at (<[dest := installed]> fs1) dest = Some installed
    /\ (forall st', fs st' = <[dest := installed]> fs1 ->
          install_binary H bin dir st'
          = (Ok dest, mkState (fs st') (log st' ++ Spec.install_events H bin dir))).
Proof.
  intros Hbin Hc Hdest Hne dest installed.
  assert (Hparts : parts dest <> []) by apply joinpath_parts.
  destruct (Path_mkdir_ok H dir (fs st) Hc) as (fs1 & Emk & Hdir & Hkeep & Hchild).
  assert (Hbin1 : node_at fs1 bin = Some (File data mode mtime)).
  { rewrite Hkeep; [exact Hbin | congruence]. }
  assert (Hdest1 : is_dir fs1 dest = false).
  { unfold is_dir, dest. rewrite Hchild. exact Hdest. }
  exists fs1. split; [exact Emk|]. split; [|split; [exact Hdir|split; [exact Hkeep|]]].
  { intros Hd. rewrite (Path_mkdir_existing H dir (fs st) Hd) in Emk. congruence. }
  split; [now apply (install_after_mkdir H bin dir st fs1 data mode mtime)|].
  split.
  { rewrite node_at_insert by exact Hparts. now rewrite decide_True by reflexivity. }
  intros st' Est'.
  assert (Hdir' : is_dir (fs st') dir = true).
  { unfold is_dir. rewrite Est', node_at_insert by exact Hparts.
    case_decide as Heq; [|exact Hdir].
    exfalso. apply (f_equal (fun p => length (parts p))) in Heq.
    unfold dest, joinpath in Heq. simpl in Heq. rewrite length_app in Heq.
    simpl in Heq. lia. }
  assert (Hbin' : node_at (fs st') bin
                  = Some (File data mode mtime)).
  { rewrite Est', node_at_insert by exact Hparts.
    case_decide as Heq; [|exact Hbin1].
    exfalso. apply Hne. symmetry. exact Heq. }
  assert (Hdest' : is_dir (fs st') dest = false).
  { unfold is_dir. rewrite Est', node_at_insert by exact Hparts.
    now rewrite decide_True by reflexivity. }
  rewrite (install_after_mkdir H bin dir st' (fs st') data mode mtime
             (Path_mkdir_existing H dir _ Hdir') Hdir' Hbin' Hdest' Hne).
  fold dest installed.
  replace (<[dest := installed]> (fs st')) with (fs st'); [reflexivity|].
  rewrite Est'. symmetry. apply insert_insert_eq.
Qed.

(** C8.  Let the artifact be a regular file, let no regular file stand in the
    way of the install directory, and let the destination (the directory
    joined with the binary name of the platform) be neither a directory nor
    the artifact itself.  Then the Installer creates the directory with its
    missing parents (and changes nothing when it exists), copies the artifact
    to the destination with its data and modification time, touches nothing
    that existed besides the destination, and returns the destination.  On
    every platform outside the Windows family it then sets the mode of the
    destination to [rwxr-xr-x]; on Windows it makes no change of mode and the
    copy keeps the mode of the artifact.  Running it again on the result
    succeeds and leaves the file system as it is. *)
Theorem C8_installer_places_binary H bin dir st data mode mtime :
  node_at (fs st) bin = Some (File data mode mtime) ->
  Spec.creatable (fs st) dir = true ->
  is_dir (fs st) (joinpath dir (Spec.binary_name H)) = false ->
  bin <> joinpath dir (Spec.binary_name H) ->
  let dest := joinpath dir (Spec.binary_name H) in
  let installed :=
    File data (if Spec.windows_family H then mode else Spec.rwxr_xr_x) mtime in
  exists fs1,
    Path_mkdir (umask H) true true dir (fs st) = inr fs1
    /\ (is_dir (fs st) dir = true -> fs1 = fs st)
    /\ is_dir fs1 dir = true
    /\ (forall q, node_at (fs st) q <> None -> node_at fs1 q = node_at (fs st) q)
    /\ install_binary H bin dir st
       = (Ok dest, mkState (<[dest := installed]> fs1)
                     (log st ++ Spec.installer_trace H bin dir))
    /\ node_at (<[dest := installed]> fs1) dest = Some installed
    /\ (forall st', fs st' = <[dest := installed]> fs1 ->
          install_binary H bin dir st'
          = (Ok dest, mkState (fs st') (log st' ++ Spec.installer_trace H bin dir))).
Proof.
  exact (install_binary_places H bin dir st data mode mtime).
Qed.

(** ** What reaches the error stream *)

Section Reporting.

Import Spec.
Local Open Scope list_scope.

Variable H : Host.

Lemma quiet_app l1 l2 : quiet l1 -> quiet l2 -> quiet (l1 ++ l2).
Proof. unfold quiet. intros. apply Forall_app; split; assumption. Qed.

Lemma reports_ret {A} (a : A) : reports H (ret a).
Proof. intros st. exists []. simpl. rewrite app_nil_r. split; [reflexivity | constructor]. Qed.

Lemma reports_raise {A} e :
  (forall code, e <> SystemExit code) -> reports H (@raise A e).
Proof.
  intros Hne st. exists []. simpl. rewrite app_nil_r. split; [reflexivity|].
  destruct e as [code| | | |]; [now contradiction (Hne code) | constructor..].
Qed.

Lemma reports_emit ev : is_stderr ev = false -> reports H (emit ev).
Proof.
  intros Hev st. exists [ev]. split; [reflexivity|]. simpl. now repeat constructor.
Qed.

Lemma reports_die {A} msg : fatal_message H msg -> reports H (@die H A msg).
Proof.
  intros Hmsg st. exists [error_line H msg]. split; [reflexivity|]. simpl.
  split; [reflexivity|]. exists [], msg. repeat split; [constructor | exact Hmsg].
Qed.

Lemma reports_bind {A B} (m : M A) (k : A -> M B) :
  reports H m -> (forall a, reports H (k a)) -> reports H (bind m k).
Proof.
  intros Hm Hk st. unfold bind.
  destruct (Hm st) as (new1 & E1 & C1).
  destruct (m st) as [[a|e] st1]; simpl in E1, C1.
  - destruct (Hk a st1) as (new2 & E2 & C2).
    exists (new1 ++ new2). split; [now rewrite E2, E1, app_assoc|].
    destruct (fst (k a st1)) as [b|[code| | | |]]; try (now apply quiet_app).
    destruct C2 as (-> & before & msg & -> & Hq & Hmsg).
    split; [reflexivity|]. exists (new1 ++ before), msg.
    split; [now rewrite app_assoc|]. split; [now apply quiet_app | exact Hmsg].
  - exists new1. split; [exact E1 | exact C1].
Qed.

Lemma reports_try {A} (body : M A) handler :
  reports H body -> (forall rc cmd, reports H (handler rc cmd)) ->
  reports H (try_except_CalledProcessError body handler).
Proof.
  intros Hb Hh st. unfold try_except_CalledProcessError.
  destruct (Hb st) as (new1 & E1 & C1).
  destruct (body st) as [[a|[code|rc cmd| | |k]] st1]; simpl in E1, C1;
    try (exists new1; split; [exact E1 | exact C1]).
  destruct (Hh rc cmd st1) as (new2 & E2 & C2).
  exists (new1 ++ new2). split; [now rewrite E2, E1, app_assoc|].
  destruct (fst (handler rc cmd st1)) as [b|[code| | | |]]; try (now apply quiet_app).
  destruct C2 as (-> & before & msg & -> & Hq & Hmsg).
  split; [reflexivity|]. exists (new1 ++ before), msg.
  split; [now rewrite app_assoc|]. split; [now apply quiet_app | exact Hmsg].
Qed.

Lemma reports_which name : reports H (which H name).
Proof. intros st. exists []. simpl. rewrite app_nil_r. split; [reflexivity | constructor]. Qed.

Lemma reports_subprocess_run cmd cwd check captured :
  reports H (subprocess_run H cmd cwd check captured).
Proof.
  intros st. exists [Spawn cmd cwd captured]. unfold subprocess_run.
  destruct (spawn H st cmd cwd) as [[rc out err|k] fs1]; simpl.
  - destruct (check && negb (rc =? 0)); simpl; split; try reflexivity;
      repeat constructor.
  - split; [reflexivity | repeat constructor].
Qed.

Lemma reports_fs_op ev op : is_stderr ev = false -> reports H (fs_op ev op).
Proof.
  intros Hev st. exists [ev]. unfold fs_op.
  destruct (op (fs st)); simpl; split; try reflexivity; now repeat constructor.
Qed.

Lemma parse_go_version_raises out e :
  parse_go_version out = Raise e -> e = IndexError \/ e = ValueError.
Proof.
  unfold parse_go_version. intros E.
  destruct (version_str_of out) as [vs|e1] eqn:E1.
  - destruct (major_minor_of vs) as [mm|e2] eqn:E2; [discriminate|].
    inversion E; subst. unfold major_minor_of in E2.
    repeat match type of E2 with
           | context [match ?x with _ => _ end] => destruct x
           end; inversion E2; auto.
  - inversion E; subst. unfold version_str_of in E1.
    destruct (nth_error _ _); inversion E1; auto.
Qed.

Lemma reports_lift_parse out : reports H (lift_result (parse_go_version out)).
Proof.
  destruct (parse_go_version out) as [r|e] eqn:E; simpl.
  - apply reports_ret.
  - apply reports_raise. intros code ->.
    destruct (parse_go_version_raises _ _ E); discriminate.
Qed.

Lemma reports_lift_option {A} e (o : option A) :
  (forall code, e <> SystemExit code) -> reports H (lift_option e o).
Proof. intros He. destruct o; [apply reports_ret | now apply reports_raise]. Qed.

End Reporting.

Create HintDb reports.

#[local] Hint Resolve reports_ret reports_which reports_subprocess_run
  reports_lift_parse : reports.
#[local] Hint Constructors Spec.fatal_message : reports.

(** One step of a proof that a computation of the script [reports]: peel
    the outermost construct. *)
Ltac reports_step :=
  cbv zeta;
  match goal with
  | |- Spec.reports _ (die _ _) => apply reports_die; auto with reports
  | |- Spec.reports _ (bind _ _) => apply reports_bind; [|intros ?]
  | |- Spec.reports _ (try_except_CalledProcessError _ _) =>
      apply reports_try; [|intros ? ?]
  | |- Spec.reports _ (if ?b then _ else _) => destruct b
  | |- Spec.reports _ (emit _) => apply reports_emit; reflexivity
  | |- Spec.reports _ (fs_op _ _) => apply reports_fs_op; reflexivity
  | |- Spec.reports _ (lift_option _ _) => apply reports_lift_option; discriminate
  | |- Spec.reports _ _ => solve [auto with reports]
  end.

Section ScriptReports.

Import Spec.

Variable H : Host.

Lemma reports_info msg : reports H (info H msg).
Proof. unfold info. reports_step. Qed.

Lemma reports_warn msg : reports H (warn H msg).
Proof. unfold warn. reports_step. Qed.

Hint Resolve reports_info reports_warn : reports.

Lemma reports_check_go : reports H (check_go H).
Proof. unfold check_go, run. repeat reports_step. Qed.

Lemma reports_first_found names : reports H (first_found H names).
Proof.
  induction names as [|pm rest IH]; simpl; [apply reports_ret|].
  repeat reports_step.
Qed.

Lemma reports_provision_with pm : reports H (provision_with H pm).
Proof. unfold provision_with, pm_run. repeat reports_step. Qed.

Lemma reports_install_tesseract : reports H (install_tesseract H).
Proof.
  unfold install_tesseract, detect_pkg_manager.
  apply reports_bind; [apply reports_first_found|intros pm].
  apply reports_bind; [apply reports_info|intros _].
  apply reports_try; [apply reports_provision_with|intros rc cmd].
  reports_step.
Qed.

Lemma reports_tesseract_version : reports H (tesseract_version H).
Proof. unfold tesseract_version, run. repeat reports_step. Qed.

Hint Resolve reports_check_go reports_install_tesseract reports_tesseract_version
  : reports.

Lemma reports_check_tesseract w : reports H (check_tesseract H w).
Proof. unfold check_tesseract. repeat reports_step. Qed.

Lemma reports_build : reports H (build H).
Proof. unfold build, run. repeat reports_step. Qed.

Lemma reports_install_binary bin dir : reports H (install_binary H bin dir).
Proof. unfold install_binary. repeat reports_step. Qed.

Lemma reports_check_path dir : reports H (check_path H dir).
Proof. unfold check_path. repeat reports_step. Qed.

Lemma reports_print_config p : reports H (print_config H p).
Proof. unfold print_config. repeat reports_step. Qed.

Hint Resolve reports_check_tesseract reports_build reports_install_binary
  reports_check_path reports_print_config : reports.

Lemma reports_main args : reports H (main H args).
Proof. unfold main. repeat reports_step. Qed.

End ScriptReports.

(** ** Fatal conditions *)

Section Fatal.

Import Spec.
Local Open Scope list_scope.

Variable H : Host.

Lemma run_script_missing_go args st :
  shutil_which H st "go" = false ->
  run_script H args st = (1, mkState (fs st) (log st ++ [error_line H MSG_NO_GO])).
Proof.
  intros Hw. unfold run_script, main.
  now rewrite (bind_raise _ _ _ _ _ (check_go_missing H st Hw)).
Qed.

Lemma run_script_old_go args st out err fs1 vs major minor :
  shutil_which H st "go" = true ->
  spawn H st ["go"; "version"] None = (Exited 0 out err, fs1) ->
  parse_go_version out = Ok (vs, (major, minor)) ->
  too_old major minor = true ->
  run_script H args st
  = (1, mkState fs1 (log st ++ [Spawn ["go"; "version"] None true;
                                error_line H (MSG_OLD_GO vs)])).
Proof.
  intros Hw Hs Hp Hold. unfold run_script, main.
  pose proof (check_go_parsed H st out err fs1 vs major minor Hw Hs Hp) as E.
  rewrite Hold in E. now rewrite (bind_raise _ _ _ _ _ E).
Qed.

(** A command run with [check=True] that exits with a status other than 0
    raises [CalledProcessError]. *)
Lemma pm_run_fails cmd st rc out err fs1 :
  spawn H st cmd None = (Exited rc out err, fs1) ->
  rc <> 0 ->
  pm_run H cmd st
  = (Raise (CalledProcessError rc cmd), mkState fs1 (log st ++ [Spawn cmd None false])).
Proof.
  intros Hs Hrc. unfold pm_run, bind, subprocess_run. rewrite Hs.
  apply Z.eqb_neq in Hrc. now rewrite Hrc.
Qed.

Lemma run_script_provision_fails args st st1 pm rc cmd st2 :
  with_ocr args = true ->
  check_go H st = (Ok tt, st1) ->
  shutil_which H st1 "tesseract" = false ->
  detect_pkg_manager H st1 = (Ok pm, st1) ->
  provision_with H pm
    (mkState (fs st1)
       (log st1 ++ [Stdout (_c H "0;32" "==>" ++ " "
                            ++ "Installing Tesseract using package manager: " ++ pm)%string]))
  = (Raise (CalledProcessError rc cmd), st2) ->
  run_script H args st
  = (1, mkState (fs st2) (log st2 ++ [error_line H (MSG_PROVISION H rc cmd)])).
Proof.
  intros Hocr Hgo Hw Hpm Hprov. unfold run_script, main.
  rewrite (bind_ok _ _ _ _ _ Hgo), Hocr.
  assert (E : install_tesseract H st1
              = (Raise (SystemExit 1),
                 mkState (fs st2) (log st2 ++ [error_line H (MSG_PROVISION H rc cmd)]))).
  { unfold install_tesseract. rewrite (bind_ok _ _ _ _ _ Hpm).
    unfold bind at 1. unfold info at 1. unfold emit at 1.
    unfold try_except_CalledProcessError. rewrite Hprov. reflexivity. }
  assert (E' : check_tesseract H true st1
               = (Raise (SystemExit 1),
                  mkState (fs st2) (log st2 ++ [error_line H (MSG_PROVISION H rc cmd)]))).
  { unfold check_tesseract. unfold bind at 1. unfold which at 1. rewrite Hw.
    now rewrite (bind_raise _ _ _ _ _ E). }
  now rewrite (bind_raise _ _ _ _ _ E').
Qed.

Lemma run_script_tidy_fails args st st1 st2 rc out err fs3 :
  check_go H st = (Ok tt, st1) ->
  check_tesseract H (with_ocr args) st1 = (Ok tt, st2) ->
  let building := Stdout (_c H "0;32" "==>" ++ " " ++ "Building " ++ BIN_NAME H ++ "...")%string in
  spawn H (mkState (fs st2) (log st2 ++ [building])) CMD_TIDY (Some (SRC_DIR H))
  = (Exited rc out err, fs3) ->
  rc <> 0 ->
  run_script H args st
  = (1, mkState fs3 (log st2 ++ [building; Spawn CMD_TIDY (Some (SRC_DIR H)) true;
                                 error_line H (MSG_BUILD H rc CMD_TIDY)])).
Proof.
  intros Hgo Hocr building Hs Hrc. unfold run_script, main.
  rewrite (bind_ok _ _ _ _ _ Hgo), (bind_ok _ _ _ _ _ Hocr).
  apply Z.eqb_neq in Hrc.
  assert (E : build H st2
              = (Raise (SystemExit 1),
                 mkState fs3 (log st2 ++ [building; Spawn CMD_TIDY (Some (SRC_DIR H)) true;
                                          error_line H (MSG_BUILD H rc CMD_TIDY)]))).
  { assert (Erun : run H CMD_TIDY (Some (SRC_DIR H)) true
                      (mkState (fs st2) (log st2 ++ [building]))
                    = (Raise (CalledProcessError rc CMD_TIDY),
                       mkState fs3 ((log st2 ++ [building])
                                    ++ [Spawn CMD_TIDY (Some (SRC_DIR H)) true]))).
    { unfold run, subprocess_run. rewrite Hs. cbn [andb]. now rewrite Hrc. }
    unfold build. unfold bind at 1. unfold info at 1. unfold emit at 1.
    unfold bind at 1. unfold try_except_CalledProcessError.
    rewrite (bind_raise _ _ _ _ _ Erun).
    unfold die, error, bind, emit, raise. cbn [fs log].
    now rewrite <- !app_assoc. }
  now rewrite (bind_raise _ _ _ _ _ E).
Qed.

Lemma run_script_build_fails args st st1 st2 out0 err0 fs3 rc out err fs4 :
  check_go H st = (Ok tt, st1) ->
  check_tesseract H (with_ocr args) st1 = (Ok tt, st2) ->
  let building := Stdout (_c H "0;32" "==>" ++ " " ++ "Building " ++ BIN_NAME H ++ "...")%string in
  spawn H (mkState (fs st2) (log st2 ++ [building])) CMD_TIDY (Some (SRC_DIR H))
  = (Exited 0 out0 err0, fs3) ->
  spawn H (mkState fs3 (log st2 ++ [building; Spawn CMD_TIDY (Some (SRC_DIR H)) true]))
    (CMD_BUILD H) (Some (SRC_DIR H))
  = (Exited rc out err, fs4) ->
  rc <> 0 ->
  run_script H args st
  = (1, mkState fs4 (log st2 ++ [building; Spawn CMD_TIDY (Some (SRC_DIR H)) true;
                                 Spawn (CMD_BUILD H) (Some (SRC_DIR H)) true;
                                 error_line H (MSG_BUILD H rc (CMD_BUILD H))])).
Proof.
  intros Hgo Hocr building Hs0 Hs Hrc. unfold run_script, main.
  rewrite (bind_ok _ _ _ _ _ Hgo), (bind_ok _ _ _ _ _ Hocr).
  apply Z.eqb_neq in Hrc.
  assert (E : build H st2
              = (Raise (SystemExit 1),
                 mkState fs4 (log st2 ++ [building; Spawn CMD_TIDY (Some (SRC_DIR H)) true;
                                          Spawn (CMD_BUILD H) (Some (SRC_DIR H)) true;
                                          error_line H (MSG_BUILD H rc (CMD_BUILD H))]))).
  { assert (Etidy : run H CMD_TIDY (Some (SRC_DIR H)) true
                       (mkState (fs st2) (log st2 ++ [building]))
                     = (Ok (mkCompleted 0 out0 err0),
                        mkState fs3 ((log st2 ++ [building])
                                     ++ [Spawn CMD_TIDY (Some (SRC_DIR H)) true]))).
    { unfold run, subprocess_run. now rewrite Hs0. }
    assert (Erun : run H (CMD_BUILD H) (Some (SRC_DIR H)) true
                      (mkState fs3 ((log st2 ++ [building])
                                    ++ [Spawn CMD_TIDY (Some (SRC_DIR H)) true]))
                    = (Raise (CalledProcessError rc (CMD_BUILD H)),
                       mkState fs4 (((log st2 ++ [building])
                                     ++ [Spawn CMD_TIDY (Some (SRC_DIR H)) true])
                                    ++ [Spawn (CMD_BUILD H) (Some (SRC_DIR H)) true]))).
    { unfold run, subprocess_run. rewrite <- app_assoc. cbn [app].
      rewrite Hs. cbn [andb]. now rewrite Hrc. }
    unfold build. unfold bind at 1. unfold info at 1. unfold emit at 1.
    unfold bind at 1. unfold try_except_CalledProcessError.
    rewrite (bind_ok _ _ _ _ _ Etidy), (bind_raise _ _ _ _ _ Erun).
    unfold die, error, bind, emit, raise. cbn [fs log].
    now rewrite <- !app_assoc. }
  now rewrite (bind_raise _ _ _ _ _ E).
Qed.

(** How the process ends: status 0 and a silent error stream; or status 1
    after [die], with one formatted line of a fatal message as last event and
    nothing else on the error stream; or status 1 with the traceback of an
    uncaught exception and no formatted line. *)
Lemma run_script_outcomes args st :
  exists new,
    log (snd (run_script H args st)) = log st ++ new /\
    match fst (main H args st) with
    | Ok _ => fst (run_script H args st) = 0 /\ quiet new
    | Raise (SystemExit _) =>
        fst (run_script H args st) = 1 /\
        exists before msg,
          new = before ++ [error_line H msg] /\ quiet before /\ fatal_message H msg
    | Raise e =>
        fst (run_script H args st) = 1 /\
        exists before, new = before ++ [Traceback e] /\ quiet before
    end.
Proof.
  destruct (reports_main H args st) as (new & E & C). unfold run_script.
  destruct (main H args st) as [[u|e] st1]; simpl in E, C |- *.
  - exists new. auto.
  - destruct e as [code|rc cmd| | |k]; cbn [fst snd fs log];
      try (match goal with
           | |- context [Traceback ?x] => exists (new ++ [Traceback x])
           end;
           split; [now rewrite E, app_assoc | split; [reflexivity | eauto]]).
    destruct C as (-> & before & msg & -> & Hq & Hmsg).
    exists (before ++ [error_line H msg]). split; [exact E|].
    split; [reflexivity|]. eauto.
Qed.

End Fatal.

(** C4, as the code has it.  The process ends in one of three ways: with
    status 0 and nothing on the error stream; after [die], with status 1 and,
    as its last action, the one formatted line [error: <message>] of a fatal
    message, with nothing else and no traceback on the error stream; or on an
    uncaught exception, with status 1 and the interpreter's traceback.  The
    conditions the script dies on are: the toolchain is missing; it is too
    old; a package-manager command exits with a status other than 0; [go mod
    tidy] or [go build] does. *)
Theorem C4_fatal_conditions_reported :
  (* how a run ends *)
  (forall H args st, exists new,
      log (snd (run_script H args st)) = (log st ++ new)%list /\
      match fst (main H args st) with
      | Ok _ => fst (run_script H args st) = 0 /\ Spec.quiet new
      | Raise (SystemExit _) =>
          fst (run_script H args st) = 1 /\
          exists before msg,
            new = (before ++ [Spec.error_line H msg])%list /\ Spec.quiet before
            /\ Spec.fatal_message H msg
      | Raise e =>
          fst (run_script H args st) = 1 /\
          exists before, new = (before ++ [Traceback e])%list /\ Spec.quiet before
      end)
  (* missing toolchain *)
  /\ (forall H args st,
        shutil_which H st "go" = false ->
        run_script H args st
        = (1, mkState (fs st) (log st ++ [Spec.error_line H MSG_NO_GO])))
  (* toolchain too old *)
  /\ (forall H args st out err fs1 vs major minor,
        shutil_which H st "go" = true ->
        spawn H st ["go"; "version"] None = (Exited 0 out err, fs1) ->
        parse_go_version out = Ok (vs, (major, minor)) ->
        too_old major minor = true ->
        run_script H args st
        = (1, mkState fs1 (log st ++ [Spawn ["go"; "version"] None true;
                                      Spec.error_line H (MSG_OLD_GO vs)])))
  (* a package-manager command fails *)
  /\ (forall H cmd st rc out err fs1,
        spawn H st cmd None = (Exited rc out err, fs1) ->
        rc <> 0 ->
        pm_run H cmd st
        = (Raise (CalledProcessError rc cmd),
           mkState fs1 (log st ++ [Spawn cmd None false])))
  /\ (forall H args st st1 pm rc cmd st2,
        with_ocr args = true ->
        check_go H st = (Ok tt, st1) ->
        shutil_which H st1 "tesseract" = false ->
        detect_pkg_manager H st1 = (Ok pm, st1) ->
        provision_with H pm
          (mkState (fs st1)
             (log st1 ++ [Stdout (_c H "0;32" "==>" ++ " "
                                  ++ "Installing Tesseract using package manager: " ++ pm)]))
        = (Raise (CalledProcessError rc cmd), st2) ->
        run_script H args st
        = (1, mkState (fs st2)
                (log st2 ++ [Spec.error_line H (MSG_PROVISION H rc cmd)])))
  (* a build command fails *)
  /\ (forall H args st st1 st2 rc out err fs3,
        check_go H st = (Ok tt, st1) ->
        check_tesseract H (with_ocr args) st1 = (Ok tt, st2) ->
        let building :=
          Stdout (_c H "0;32" "==>" ++ " " ++ "Building " ++ BIN_NAME H ++ "...") in
        spawn H (mkState (fs st2) (log st2 ++ [building])) CMD_TIDY (Some (SRC_DIR H))
        = (Exited rc out err, fs3) ->
        rc <> 0 ->
        run_script H args st
        = (1, mkState fs3
                (log st2 ++ [building; Spawn CMD_TIDY (Some (SRC_DIR H)) true;
                             Spec.error_line H (MSG_BUILD H rc CMD_TIDY)])))
  /\ (forall H args st st1 st2 out0 err0 fs3 rc out err fs4,
        check_go H st = (Ok tt, st1) ->
        check_tesseract H (with_ocr args) st1 = (Ok tt, st2) ->
        let building :=
          Stdout (_c H "0;32" "==>" ++ " " ++ "Building " ++ BIN_NAME H ++ "...") in
        spawn H (mkState (fs st2) (log st2 ++ [building])) CMD_TIDY (Some (SRC_DIR H))
        = (Exited 0 out0 err0, fs3) ->
        spawn H (mkState fs3 (log st2 ++ [building; Spawn CMD_TIDY (Some (SRC_DIR H)) true]))
          (CMD_BUILD H) (Some (SRC_DIR H))
        = (Exited rc out err, fs4) ->
        rc <> 0 ->
        run_script H args st
        = (1, mkState fs4
                (log st2 ++ [building; Spawn CMD_TIDY (Some (SRC_DIR H)) true;
                             Spawn (CMD_BUILD H) (Some (SRC_DIR H)) true;
                             Spec.error_line H (MSG_BUILD H rc (CMD_BUILD H))]))).
Proof.
  split; [exact run_script_outcomes|].
  split; [exact run_script_missing_go|].
  split; [exact run_script_old_go|].
  split; [exact pm_run_fails|].
  split; [exact run_script_provision_fails|].
  split; [exact run_script_tidy_fails | exact run_script_build_fails].
Qed.

(** C4 on five hosts: no Go; Go 1.9.2; [brew install] fails; [go mod tidy]
    fails; [go build] fails.  Each run ends with status 1 and one line on the
    error stream. *)
Lemma C4_fatal_conditions_reported_witness :
  run_script (Samples.linux_host Samples.go_1_24 [] Samples.path_env)
    (mkArgs false Samples.local_bin) Samples.st0
  = (1, mkState Samples.fs0
          [Stderr "error: Go is not installed. Download it from https://go.dev/dl/ and re-run."])
  /\ run_script Samples.host_go_1_9 (mkArgs false Samples.local_bin) Samples.st0
     = (1, mkState Samples.fs0
             [Spawn ["go"; "version"] None true;
              Stderr "error: Go 1.24+ required, found 1.9.2"])
  /\ pm_run Samples.host_brew_fails ["brew"; "install"; "tesseract"] Samples.st_gate
     = (Raise (CalledProcessError 1 ["brew"; "install"; "tesseract"]),
        mkState Samples.fs0
          (log Samples.st_gate ++ [Spawn ["brew"; "install"; "tesseract"] None false]))
  /\ run_script Samples.host_brew_fails (mkArgs true Samples.local_bin) Samples.st0
     = (1, mkState Samples.fs0
             [Spawn ["go"; "version"] None true;
              Stdout "==> Go 1.24.0 found";
              Stdout "==> Installing Tesseract using package manager: brew";
              Spawn ["brew"; "install"; "tesseract"] None false;
              Stderr "error: Failed to install Tesseract: Command '['brew', 'install', 'tesseract']' returned non-zero exit status 1."])
  /\ run_script Samples.host_tidy_fails (mkArgs false Samples.local_bin) Samples.st0
     = (1, mkState Samples.fs0
             (log Samples.st_checked ++
              [Stdout "==> Building markitdown-mcp...";
               Spawn ["go"; "mod"; "tidy"; "-e"] (Some Samples.src_dir) true;
               Stderr "error: Build failed: Command '('go', 'mod', 'tidy', '-e')' returned non-zero exit status 1."]))
  /\ run_script Samples.host_build_fails (mkArgs false Samples.local_bin) Samples.st0
     = (1, mkState Samples.fs0
             (log Samples.st_checked ++
              [Stdout "==> Building markitdown-mcp...";
               Spawn ["go"; "mod"; "tidy"; "-e"] (Some Samples.src_dir) true;
               Spawn ["go"; "build"; "-ldflags=-s -w"; "-o=markitdown-mcp"; "."]
                 (Some Samples.src_dir) true;
               Stderr "error: Build failed: Command '('go', 'build', '-ldflags=-s -w', '-o=markitdown-mcp', '.')' returned non-zero exit status 2."])).
Proof.
  destruct C4_fatal_conditions_reported
    as (_ & Hmissing & Hold & Hpm & Hprov & Htidy & Hbuild).
  split; [|split; [|split; [|split; [|split]]]].
  - apply (Hmissing (Samples.linux_host Samples.go_1_24 [] Samples.path_env)
             (mkArgs false Samples.local_bin) Samples.st0).
    reflexivity.
  - apply (Hold Samples.host_go_1_9 (mkArgs false Samples.local_bin) Samples.st0
             ("go version go1.9.2 linux/amd64" ++ nl) "" Samples.fs0 "1.9.2" 1 9);
      reflexivity.
  - apply (Hpm Samples.host_brew_fails ["brew"; "install"; "tesseract"] Samples.st_gate
             1 "" "" Samples.fs0); [reflexivity | lia].
  - apply (Hprov Samples.host_brew_fails (mkArgs true Samples.local_bin) Samples.st0
             Samples.st_gate "brew" 1 ["brew"; "install"; "tesseract"]
             (mkState Samples.fs0
                [Spawn ["go"; "version"] None true;
                 Stdout "==> Go 1.24.0 found";
                 Stdout "==> Installing Tesseract using package manager: brew";
                 Spawn ["brew"; "install"; "tesseract"] None false]));
      reflexivity.
  - apply (Htidy Samples.host_tidy_fails (mkArgs false Samples.local_bin) Samples.st0
             Samples.st_gate Samples.st_checked 1 "" "" Samples.fs0);
      [reflexivity | reflexivity | reflexivity | lia].
  - apply (Hbuild Samples.host_build_fails (mkArgs false Samples.local_bin) Samples.st0
             Samples.st_gate Samples.st_checked "" "" Samples.fs0 2 "" "build failed"
             Samples.fs0);
      [reflexivity | reflexivity | reflexivity | reflexivity | lia].
Defined.

(** C4 as stated fails.  When the output of [go version] has fewer than
    three fields the parser raises [IndexError]; when a regular file stands in
    the way of the install directory [mkdir] raises [NotADirectoryError].
    Neither is caught: the process ends with status 1 and a traceback, and no
    formatted line is printed on the error stream. *)
Lemma C4_counterexample :
  run_script Samples.host_odd_version (mkArgs false Samples.local_bin) Samples.st0
  = (1, mkState Samples.fs0 [Spawn ["go"; "version"] None true; Traceback IndexError])
  /\ run_script Samples.host_bare (mkArgs false Samples.local_bin)
       (mkState Samples.fs_blocked [])
     = (1, mkState (<[Samples.artifact := File "ELF" 509 1700000000]> Samples.fs_blocked)
             (log Samples.st_checked ++
              [Stdout "==> Building markitdown-mcp...";
               Spawn ["go"; "mod"; "tidy"; "-e"] (Some Samples.src_dir) true;
               Spawn ["go"; "build"; "-ldflags=-s -w"; "-o=markitdown-mcp"; "."]
                 (Some Samples.src_dir) true;
               Stdout "==> Built: /home/u/mcp/src/markitdown/markitdown-mcp";
               Mkdir Samples.local_bin;
               Traceback (OSError NotADirectoryError)])).
Proof. split; reflexivity. Qed.

(** C8 on a Linux host: the artifact goes to [/home/u/.local/bin], whose
    parent [.local] does not exist yet. *)
Lemma C8_installer_places_binary_witness :
  let H := Samples.host_bare in
  let dest := Samples.posix ["home"; "u"; ".local"; "bin"; "markitdown-mcp"] in
  let installed := File "ELF" 493 1700000000 in
  let trace :=
    [Mkdir Samples.local_bin; Copy2 Samples.artifact dest; Chmod dest 493;
     Stdout "==> Installed to: /home/u/.local/bin/markitdown-mcp"] in
  exists fs1,
    Path_mkdir (umask H) true true Samples.local_bin (fs Samples.st_built) = inr fs1
    /\ (is_dir (fs Samples.st_built) Samples.local_bin = true -> fs1 = fs Samples.st_built)
    /\ is_dir fs1 Samples.local_bin = true
    /\ (forall q, node_at (fs Samples.st_built) q <> None ->
                  node_at fs1 q = node_at (fs Samples.st_built) q)
    /\ install_binary H Samples.artifact Samples.local_bin Samples.st_built
       = (Ok dest, mkState (<[dest := installed]> fs1) (log Samples.st_built ++ trace))
    /\ node_at (<[dest := installed]> fs1) dest = Some installed
    /\ (forall st', fs st' = <[dest := installed]> fs1 ->
          install_binary H Samples.artifact Samples.local_bin st'
          = (Ok dest, mkState (fs st') (log st' ++ trace))).
Proof.
  apply (C8_installer_places_binary Samples.host_bare Samples.artifact Samples.local_bin
           Samples.st_built "ELF" 509 1700000000).
  - reflexivity.
  - reflexivity.
  - reflexivity.
  - apply (proj1 (bool_decide_eq_false _)). reflexivity.
Defined.

(** C8 as stated fails.  With the source directory as install directory the
    destination is the artifact itself: [copy2] raises [SameFileError] and
    nothing is installed.  With a directory in place of the destination the
    Installer succeeds, but the path it returns is that directory, whose mode
    it changed; the copy lies inside it with the mode of the artifact. *)
Lemma C8_counterexample :
  let H := Samples.host_bare in
  let dest := Samples.posix ["home"; "u"; ".local"; "bin"; "markitdown-mcp"] in
  (node_at Samples.fs_built Samples.artifact = Some (File "ELF" 509 1700000000)
   /\ install_binary H Samples.artifact Samples.src_dir Samples.st_built
      = (Raise (OSError SameFileError),
         mkState Samples.fs_built
           [Mkdir Samples.src_dir; Copy2 Samples.artifact Samples.artifact]))
  /\ (let r := install_binary H Samples.artifact Samples.local_bin
                 (mkState Cases.fs_dest_is_dir []) in
      fst r = Ok dest
      /\ node_at (fs (snd r)) dest = Some (Dir 493)
      /\ node_at (fs (snd r)) (joinpath dest "markitdown-mcp")
         = Some (File "ELF" 509 1700000000)).
Proof. repeat split; reflexivity. Qed.

(** On Windows the binary carries the suffix [.exe], no change of mode is
    made and the copy keeps the mode of the artifact. *)
Example install_on_windows :
  let dir := Cases.win ["tools"; "bin"] in
  let dest := Cases.win ["tools"; "bin"; "markitdown-mcp.exe"] in
  let r := install_binary Cases.host_windows Cases.artifact_exe dir
             (mkState Cases.fs_windows []) in
  fst r = Ok dest
  /\ log (snd r)
     = [Mkdir dir; Copy2 Cases.artifact_exe dest;
        Stdout "==> Installed to: C:\tools\bin\markitdown-mcp.exe"]
  /\ node_at (fs (snd r)) dest = Some (File "MZ" 438 1700000000).
Proof. repeat split; reflexivity. Qed.

Example install_then_reinstall :
  let H := Samples.host_bare in
  let first := install_binary H Samples.artifact Samples.local_bin Samples.st_built in
  let again := install_binary H Samples.artifact Samples.local_bin (snd first) in
  fst first = Ok (Samples.posix ["home"; "u"; ".local"; "bin"; "markitdown-mcp"])
  /\ fst again = fst first
  /\ fs (snd again) = fs (snd first)
  /\ fs (snd first) !! Samples.posix ["home"; "u"; ".local"; "bin"; "markitdown-mcp"]
     = Some (File "ELF" 493 1700000000)
  /\ fs (snd first) !! Samples.posix ["home"; "u"; ".local"] = Some (Dir 493).
Proof. repeat split; reflexivity. Qed.

(** ** The Configuration Emitter *)

Section Emitter.

Import Spec.

Variable H : Host.

Lemma install_binary_returns bin dir st p st' :
  install_binary H bin dir st = (Ok p, st') -> p = joinpath dir (BIN_NAME H).
Proof.
  unfold install_binary. intros E.
  apply bind_ok_inv in E as (? & s1 & _ & E). cbv zeta in E.
  apply bind_ok_inv in E as (? & s2 & _ & E).
  apply bind_ok_inv in E as (? & s3 & _ & E).
  apply bind_ok_inv in E as (? & s4 & _ & E).
  unfold ret in E. now inversion E.
Qed.

Lemma reports_log {A} (m : M A) st r st' :
  reports H m -> m st = (r, st') -> exists new, log st' = (log st ++ new)%list.
Proof.
  intros Hm E. destruct (Hm st) as (new & El & _). rewrite E in El. eauto.
Qed.

(** The printed text is the configuration object of the specification, up to
    white space. *)
Lemma config_snippet_shape path :
  remove_ws (config_snippet path) = remove_ws (config_object path).
Proof.
  unfold config_snippet, config_object. rewrite !remove_ws_app. reflexivity.
Qed.

Lemma is_absolute_joinpath w p name :
  is_absolute w (joinpath p name) = is_absolute w p.
Proof. reflexivity. Qed.

End Emitter.

(** C9, as the code has it.  When [main] returns (full success), the last nine lines on
    standard output are those of the Configuration Emitter and the closing
    notice; the snippet is, up to white space, the object
    [{"mcpServers": {"markitdown": {"command": "<path>"}}}], where [<path>] is
    the path the Installer returned, the install directory joined with the
    binary name; it is absolute when the install directory is. *)
Theorem C9_config_snippet_of_installed_path H args st :
  fst (main H args st) = Ok tt ->
  let st' := snd (main H args st) in
  let dest := joinpath (prefix args) (BIN_NAME H) in
  (exists before,
      log st'
      = (log st ++ before ++
         [Stdout ""; Stdout rule; Stdout "  Add to your MCP client configuration:";
          Stdout rule;
          Stdout (config_snippet (str H dest));
          Stdout ("Claude Desktop config: " ++ str H (desktop_config H));
          Stdout "Claude Code config:    .mcp.json in your project root";
          Stdout "";
          Stdout (_c H "0;32" "==>" ++ " "
                  ++ "Done. Restart your MCP client to pick up the new server.")])%list)
  /\ (exists bin st1 st2, install_binary H bin (prefix args) st1 = (Ok dest, st2))
  /\ Spec.remove_ws (config_snippet (str H dest))
     = Spec.remove_ws (Spec.config_object (str H dest))
  /\ (is_absolute (IS_WINDOWS H) (prefix args) = true ->
      is_absolute (IS_WINDOWS H) dest = true).
Proof.
  intros Hok st' dest.
  assert (Hmain : main H args st = (Ok tt, st')).
  { unfold st'. destruct (main H args st) as [r s0]. simpl in Hok |- *. now subst r. }
  clearbody st'. clear Hok. unfold main in Hmain.
  apply bind_ok_inv in Hmain as (u1 & s1 & E1 & Hmain).
  apply bind_ok_inv in Hmain as (u2 & s2 & E2 & Hmain).
  apply bind_ok_inv in Hmain as (bin & s3 & E3 & Hmain).
  apply bind_ok_inv in Hmain as (full & s4 & E4 & Hmain).
  apply bind_ok_inv in Hmain as (u5 & s5 & E5 & Hmain).
  apply bind_ok_inv in Hmain as (u6 & s6 & E6 & Hmain).
  pose proof (install_binary_returns H _ _ _ _ _ E4) as ->. fold dest in E4, E6.
  destruct (reports_log H _ _ _ _ (reports_check_go H) E1) as (n1 & L1).
  destruct (reports_log H _ _ _ _ (reports_check_tesseract H _) E2) as (n2 & L2).
  destruct (reports_log H _ _ _ _ (reports_build H) E3) as (n3 & L3).
  destruct (reports_log H _ _ _ _ (reports_install_binary H _ _) E4) as (n4 & L4).
  destruct (reports_log H _ _ _ _ (reports_check_path H _) E5) as (n5 & L5).
  split; [|split; [eauto|split; [apply config_snippet_shape|]]].
  - exists (n1 ++ n2 ++ n3 ++ n4 ++ n5)%list.
    unfold print_config, bind, emit in E6. simpl in E6. inversion E6; subst s6.
    unfold info, emit in Hmain. simpl in Hmain. inversion Hmain.
    simpl. rewrite L5, L4, L3, L2, L1. rewrite <- !app_assoc. reflexivity.
  - intros Habs. unfold dest. now rewrite is_absolute_joinpath.
Qed.

(** C9 on a Linux host with Go 1.24.0 and the default install directory. *)
Lemma C9_config_snippet_of_installed_path_witness :
  let H := Samples.host_bare in
  let args := mkArgs false Samples.local_bin in
  let st' := snd (main H args Samples.st0) in
  let dest := joinpath (prefix args) (BIN_NAME H) in
  (exists before,
      log st'
      = (log Samples.st0 ++ before ++
         [Stdout ""; Stdout rule; Stdout "  Add to your MCP client configuration:";
          Stdout rule;
          Stdout (config_snippet (str H dest));
          Stdout ("Claude Desktop config: " ++ str H (desktop_config H));
          Stdout "Claude Code config:    .mcp.json in your project root";
          Stdout "";
          Stdout (_c H "0;32" "==>" ++ " "
                  ++ "Done. Restart your MCP client to pick up the new server.")])%list)
  /\ (exists bin st1 st2, install_binary H bin (prefix args) st1 = (Ok dest, st2))
  /\ Spec.remove_ws (config_snippet (str H dest))
     = Spec.remove_ws (Spec.config_object (str H dest))
  /\ (is_absolute (IS_WINDOWS H) (prefix args) = true ->
      is_absolute (IS_WINDOWS H) dest = true).
Proof.
  apply (C9_config_snippet_of_installed_path Samples.host_bare
           (mkArgs false Samples.local_bin) Samples.st0).
  reflexivity.
Defined.

(** C9 as stated fails for a relative install directory: with [--prefix bin]
    the run succeeds and the snippet names [bin/markitdown-mcp], which is not
    an absolute path. *)
Lemma C9_counterexample :
  let r := run_script Samples.host_bare (mkArgs false Samples.rel_bin) Samples.st0 in
  fst r = 0
  /\ In (Stdout (config_snippet "bin/markitdown-mcp")) (log (snd r))
  /\ str Samples.host_bare (joinpath Samples.rel_bin (BIN_NAME Samples.host_bare))
     = "bin/markitdown-mcp"
  /\ is_absolute (IS_WINDOWS Samples.host_bare)
       (joinpath Samples.rel_bin (BIN_NAME Samples.host_bare)) = false.
Proof.
  vm_compute. split; [reflexivity|]. split; [|split; reflexivity].
  do 18 right. left. reflexivity.
Qed.

(** * Further properties of the script *)

(** ** The Toolchain Gate, step by step *)

Section GateSteps.

Import PyStr Spec.
Local Open Scope list_scope.

Variable H : Host.

(** [check_go] once [go] is found, by what [go version] does. *)
Lemma check_go_found st :
  shutil_which H st "go" = true ->
  check_go H st =
    let started := log st ++ [Spawn ["go"; "version"] None true] in
    match spawn H st ["go"; "version"] None with
    | (NotStarted k, fs1) => (Raise (OSError k), mkState fs1 started)
    | (Exited rc out err, fs1) =>
        if rc =? 0 then
          match parse_go_version out with
          | Raise e => (Raise e, mkState fs1 started)
          | Ok (vs, (major, minor)) =>
              if too_old major minor
              then (Raise (SystemExit 1),
                    mkState fs1 (started ++ [error_line H (MSG_OLD_GO vs)]))
              else (Ok tt,
                    mkState fs1
                      (started ++ [Stdout (_c H "0;32" "==>" ++ " " ++ "Go " ++ vs
                                           ++ " found")%string]))
          end
        else (Raise (CalledProcessError rc ["go"; "version"]), mkState fs1 started)
    end.
Proof.
  intros Hw.
  assert (E0 : which H "go" st = (Ok true, st)) by (unfold which; now rewrite Hw).
  unfold check_go. rewrite (bind_ok _ _ _ _ _ E0). cbn [negb].
  rewrite (bind_ok _ _ st tt st eq_refl).
  unfold bind at 1. unfold run, subprocess_run. cbv zeta.
  destruct (spawn H st ["go"; "version"] None) as [[rc out err|k] fs1]; [|reflexivity].
  cbn [andb]. destruct (rc =? 0); cbn [negb]; [|reflexivity].
  cbn [stdout]. unfold bind at 1.
  destruct (parse_go_version out) as [[vs [major minor]]|e]; [|reflexivity].
  cbn [lift_result ret fst snd]. destruct (too_old major minor); reflexivity.
Qed.

End GateSteps.

(** X1.  [check_go] returns only when [go] is on the search path,
    [go version] exits with status 0, its output parses, and the version is at
    least 1.24; it has then started that one command and printed the version
    found. *)
Theorem X1_gate_passes_only_if H st st1 :
  check_go H st = (Ok tt, st1) ->
  shutil_which H st "go" = true
  /\ exists out err vs major minor,
       spawn H st ["go"; "version"] None = (Exited 0 out err, fs st1)
       /\ parse_go_version out = Ok (vs, (major, minor))
       /\ Spec.lex_ge (major, minor) (1, 24)
       /\ log st1 = (log st ++ [Spawn ["go"; "version"] None true;
                                Stdout (_c H "0;32" "==>" ++ " " ++ "Go " ++ vs ++ " found")])%list.
Proof.
  intros E.
  destruct (shutil_which H st "go") eqn:Hw;
    [|rewrite (check_go_missing H st Hw) in E; discriminate].
  split; [reflexivity|].
  rewrite (check_go_found H st Hw) in E. cbv zeta in E.
  destruct (spawn H st ["go"; "version"] None) as [[rc out err|k] fs1] eqn:Hs;
    [|discriminate].
  destruct (rc =? 0) eqn:Hrc; [|discriminate]. apply Z.eqb_eq in Hrc. subst rc.
  destruct (parse_go_version out) as [[vs [major minor]]|e] eqn:Hp; [|discriminate].
  destruct (too_old major minor) eqn:Hold; [discriminate|].
  injection E as <-. cbn [fs log].
  exists out, err, vs, major, minor.
  split; [reflexivity|]. split; [exact Hp|].
  split; [now apply too_old_spec|]. now rewrite <- app_assoc.
Qed.

(** X1 on a Linux host with Go 1.24.0. *)
Lemma X1_gate_passes_only_if_witness :
  shutil_which Samples.host_bare Samples.st0 "go" = true
  /\ exists out err vs major minor,
       spawn Samples.host_bare Samples.st0 ["go"; "version"] None
       = (Exited 0 out err, fs Samples.st_gate)
       /\ parse_go_version out = Ok (vs, (major, minor))
       /\ Spec.lex_ge (major, minor) (1, 24)
       /\ log Samples.st_gate
          = (log Samples.st0
             ++ [Spawn ["go"; "version"] None true;
                 Stdout (_c Samples.host_bare "0;32" "==>" ++ " " ++ "Go " ++ vs
                         ++ " found")])%list.
Proof.
  apply (X1_gate_passes_only_if Samples.host_bare Samples.st0 Samples.st_gate).
  reflexivity.
Defined.

(** X2.  A [go] that is found but whose [version] command exits with a
    status other than 0, or cannot be started, is not reported by [die]: the
    exception of [run] is not caught, and the process ends with a traceback
    and status 1 after that one command. *)
Theorem X2_go_version_failure_is_uncaught H args st res fs1 :
  shutil_which H st "go" = true ->
  spawn H st ["go"; "version"] None = (res, fs1) ->
  (forall out err, res <> Exited 0 out err) ->
  run_script H args st
  = (1, mkState fs1
          (log st ++ [Spawn ["go"; "version"] None true;
                      Traceback match res with
                                | Exited rc _ _ => CalledProcessError rc ["go"; "version"]
                                | NotStarted k => OSError k
                                end])%list).
Proof.
  intros Hw Hs Hres. pose proof (check_go_found H st Hw) as E. cbv zeta in E.
  rewrite Hs in E. unfold run_script, main.
  destruct res as [rc out err|k].
  - destruct (rc =? 0) eqn:Hrc.
    + apply Z.eqb_eq in Hrc. subst rc. now contradiction (Hres out err).
    + rewrite (bind_raise _ _ _ _ _ E). cbn [fs log]. now rewrite <- app_assoc.
  - rewrite (bind_raise _ _ _ _ _ E). cbn [fs log]. now rewrite <- app_assoc.
Qed.

(** X2 on a host whose [go version] exits with status 3. *)
Lemma X2_go_version_failure_is_uncaught_witness :
  run_script Cases.host_go_broken (mkArgs false Samples.local_bin) Samples.st0
  = (1, mkState Samples.fs0
          [Spawn ["go"; "version"] None true;
           Traceback (CalledProcessError 3 ["go"; "version"])]).
Proof.
  apply (X2_go_version_failure_is_uncaught Cases.host_go_broken
           (mkArgs false Samples.local_bin) Samples.st0
           (Exited 3 Samples.go_1_24 "") Samples.fs0);
    [reflexivity | reflexivity | discriminate].
Defined.

(** ** More on the version parser *)

Section ParserEdges.

Import PyStr Spec Behaviour.

Lemma alpha_facts c :
  is_alpha c = true ->
  isdigit c = false /\ isspace c = false /\ Ascii.eqb c "_" = false
  /\ Ascii.eqb c "-" = false /\ Ascii.eqb c "+" = false /\ Ascii.eqb c "." = false.
Proof.
  intros Hc.
  assert (Hn : (65 <= N_of_ascii c <= 90 \/ 97 <= N_of_ascii c <= 122)%N).
  { unfold is_alpha in Hc. apply orb_true_iff in Hc as [Hc|Hc];
      apply andb_true_iff in Hc as [H1 H2];
      apply N.leb_le in H1; apply N.leb_le in H2; lia. }
  assert (Hneq : forall d, N_of_ascii d <> N_of_ascii c -> Ascii.eqb c d = false).
  { intros d Hd. destruct (Ascii.eqb c d) eqn:E; [|reflexivity].
    apply Ascii.eqb_eq in E. subst. congruence. }
  repeat split.
  - unfold isdigit. apply andb_false_iff.
    destruct (N.leb_spec (N_of_ascii c) 57); [left; apply N.leb_gt; lia | now right].
  - unfold isspace. apply orb_false_iff; split; apply andb_false_iff;
      right; apply N.leb_gt; lia.
  - apply Hneq. simpl. lia.
  - apply Hneq. simpl. lia.
  - apply Hneq. simpl. lia.
  - apply Hneq. simpl. lia.
Qed.

Lemma split_on_nonempty sep s : split_on sep s <> [].
Proof.
  destruct s as [|c s]; simpl; [discriminate|].
  destruct (Ascii.eqb c sep); [discriminate|].
  destruct (split_on sep s); discriminate.
Qed.

(** A string without the separator is its own single field. *)
Lemma split_on_nosep sep a :
  all_chars (fun x => negb (Ascii.eqb x sep)) a = true -> split_on sep a = [a].
Proof.
  induction a as [|x a IH]; simpl; [reflexivity|].
  intros Ha. apply andb_true_iff in Ha as [Hx Ha].
  apply negb_true_iff in Hx. now rewrite Hx, (IH Ha).
Qed.

(** The first field starts with everything up to the first separator. *)
Lemma split_on_head sep a c rest :
  all_chars (fun x => negb (Ascii.eqb x sep)) a = true ->
  Ascii.eqb c sep = false ->
  exists h t, split_on sep (a ++ String c rest) = (a ++ String c h) :: t.
Proof.
  intros Ha Hc. induction a as [|x a IH]; simpl in *.
  - rewrite Hc. destruct (split_on sep rest) as [|h t]; simpl; eauto.
  - apply andb_true_iff in Ha as [Hx Ha]. apply negb_true_iff in Hx. rewrite Hx.
    destruct (IH Ha) as (h & t & ->). simpl. eauto.
Qed.

Lemma any_char_app P a b : any_char P (a ++ b) = any_char P a || any_char P b.
Proof.
  induction a as [|x a IH]; simpl; [reflexivity|]. now rewrite IH, orb_assoc.
Qed.

Lemma digits_no_alpha s : all_chars isdigit s = true -> any_char is_alpha s = false.
Proof.
  induction s as [|c s IH]; simpl; [reflexivity|].
  intros Hs. apply andb_true_iff in Hs as [Hc Hs]. rewrite (IH Hs), orb_false_r.
  destruct (is_alpha c) eqn:E; [|reflexivity].
  apply alpha_facts in E as (Hd & _). congruence.
Qed.

(** The loop of [int] stops with an error at a letter. *)
Lemma int_digits_alpha n : forall s acc cnt,
  (String.length s <= n)%nat ->
  any_char is_alpha s = true -> int_digits acc cnt s = None.
Proof.
  induction n as [|n IH]; intros s acc cnt Hlen Hs.
  - destruct s; [discriminate | simpl in Hlen; lia].
  - destruct s as [|c s]; [discriminate|]. simpl in Hlen, Hs |- *.
    destruct (isdigit c) eqn:Hc.
    + destruct (is_alpha c) eqn:Ha.
      * apply alpha_facts in Ha as (Hd & _). congruence.
      * apply IH; [lia | exact Hs].
    + destruct (Ascii.eqb c "_") eqn:Hu; [|reflexivity].
      destruct s as [|d s]; [reflexivity|].
      destruct (isdigit d) eqn:Hd; [|reflexivity].
      assert (Ha : is_alpha c = false).
      { destruct (is_alpha c) eqn:Ha; [|reflexivity].
        apply alpha_facts in Ha as (_ & _ & Hu' & _). congruence. }
      assert (Ha' : is_alpha d = false).
      { destruct (is_alpha d) eqn:Ha'; [|reflexivity].
        apply alpha_facts in Ha' as (Hd' & _). congruence. }
      rewrite Ha in Hs. simpl in Hs, Hlen. rewrite Ha' in Hs.
      apply IH; [lia | exact Hs].
Qed.

Lemma int_unsigned_alpha s : any_char is_alpha s = true -> int_unsigned s = None.
Proof.
  intros Hs. destruct s as [|c s]; [discriminate|]. simpl in Hs |- *.
  destruct (isdigit c) eqn:Hc; [|reflexivity].
  assert (Ha : is_alpha c = false).
  { destruct (is_alpha c) eqn:Ha; [|reflexivity].
    apply alpha_facts in Ha as (Hd & _). congruence. }
  rewrite Ha in Hs.
  now rewrite (int_digits_alpha (String.length s) s _ _ (Nat.le_refl _) Hs).
Qed.

Lemma lstrip_ws_alpha s : any_char is_alpha s = true -> any_char is_alpha (lstrip_ws s) = true.
Proof.
  induction s as [|c s IH]; simpl; [discriminate|]. intros Hs.
  destruct (int_space c) eqn:Hc; [|exact Hs].
  apply IH. destruct (is_alpha c) eqn:Ha; [|exact Hs].
  apply alpha_facts in Ha as (_ & Hsp & _). apply not_space_int in Hsp. congruence.
Qed.

Lemma rstrip_ws_alpha s : any_char is_alpha s = true -> any_char is_alpha (rstrip_ws s) = true.
Proof.
  induction s as [|c s IH]; simpl; [discriminate|]. intros Hs.
  destruct (is_alpha c) eqn:Ha.
  - pose proof (alpha_facts c Ha) as (_ & Hsp & _). apply not_space_int in Hsp.
    destruct (rstrip_ws s); [rewrite Hsp|]; simpl; now rewrite Ha.
  - simpl in Hs. specialize (IH Hs).
    destruct (rstrip_ws s) as [|d r]; [discriminate|].
    simpl. rewrite Ha. exact IH.
Qed.

(** [int] raises [ValueError] on any text that contains a letter. *)
Lemma int_alpha s : any_char is_alpha s = true -> int s = None.
Proof.
  intros Hs. unfold int, strip_ws.
  pose proof (rstrip_ws_alpha _ (lstrip_ws_alpha _ Hs)) as Ht.
  destruct (rstrip_ws (lstrip_ws s)) as [|c t]; [reflexivity|].
  destruct (Ascii.eqb c "-") eqn:Em; [|destruct (Ascii.eqb c "+") eqn:Ep].
  - simpl in Ht. destruct (is_alpha c) eqn:Ha.
    + apply alpha_facts in Ha as (_ & _ & _ & Hm & _). congruence.
    + now rewrite (int_unsigned_alpha t Ht).
  - simpl in Ht. destruct (is_alpha c) eqn:Ha.
    + apply alpha_facts in Ha as (_ & _ & _ & _ & Hp & _). congruence.
    + now apply int_unsigned_alpha.
  - now apply int_unsigned_alpha.
Qed.

End ParserEdges.

(** X3.  A version token whose minor number is followed by a letter (a
    release candidate or beta such as [go1.24rc1]), or which starts, after its
    prefix of [g] and [o], with another letter (as [devel]), makes [int] raise
    [ValueError]; [check_go] does not catch it, so a run on such a toolchain
    ends with a traceback and status 1 instead of a version message. *)
Theorem X3_prerelease_version_is_value_error H args st line err fs1 tok pre c rest :
  shutil_which H st "go" = true ->
  spawn H st ["go"; "version"] None = (Exited 0 line err, fs1) ->
  nth_error (PyStr.split_ws line) 2 = Some tok ->
  Spec.all_chars (fun x => PyStr.mem_char x "go") pre = true ->
  Behaviour.is_alpha c = true ->
  (PyStr.mem_char c "go" = false /\ tok = pre ++ String c rest)
  \/ (exists major minor,
        Spec.is_number major /\ Spec.is_number minor
        /\ tok = pre ++ major ++ "." ++ minor ++ String c rest) ->
  parse_go_version line = Raise ValueError
  /\ run_script H args st
     = (1, mkState fs1 (log st ++ [Spawn ["go"; "version"] None true;
                                   Traceback ValueError])%list).
Proof.
  intros Hw Hs Hnth Hpre Hc Hshape.
  pose proof (alpha_facts c Hc) as (_ & _ & _ & _ & _ & Hdot).
  assert (Hparse : parse_go_version line = Raise ValueError).
  { unfold parse_go_version, version_str_of. rewrite Hnth.
    destruct Hshape as [[Hgo ->] | (major & minor & Hma & Hmi & ->)].
    - rewrite (lstrip_prefix "go" pre c rest Hpre Hgo).
      unfold major_minor_of.
      destruct (split_on_head "." "" c rest eq_refl Hdot) as (h & t & E).
      change (PyStr.split_on "." (String c rest) = String c h :: t) in E.
      rewrite E. cbn [nth_error].
      rewrite (int_alpha (String c h)); [reflexivity|]. simpl. now rewrite Hc.
    - destruct (is_number_cons _ Hma) as (d & m' & Em & Hd).
      pose proof Hma as (_ & Hda & _). pose proof Hmi as (_ & Hdi & _).
      assert (El : PyStr.lstrip "go" (pre ++ major ++ "." ++ minor ++ String c rest)
                   = major ++ "." ++ minor ++ String c rest).
      { rewrite Em. simpl. apply lstrip_prefix; [exact Hpre | now apply isdigit_not_go]. }
      rewrite El. unfold major_minor_of.
      change ("." ++ minor ++ String c rest) with (String "." (minor ++ String c rest)).
      rewrite (split_on_first "." major _ (digits_no_dot _ Hda)).
      destruct (split_on_head "." minor c rest (digits_no_dot _ Hdi) Hdot) as (h & t & E).
      rewrite E. cbn [nth_error]. rewrite (int_number _ Hma).
      rewrite (int_alpha (minor ++ String c h)); [reflexivity|].
      rewrite any_char_app. simpl. rewrite Hc. now rewrite orb_true_r. }
  split; [exact Hparse|].
  pose proof (check_go_found H st Hw) as E. cbv zeta in E.
  rewrite Hs in E. cbn [Z.eqb] in E. rewrite Hparse in E.
  unfold run_script, main. rewrite (bind_raise _ _ _ _ _ E).
  cbn [fs log]. now rewrite <- app_assoc.
Qed.

(** X3 on a Linux host with Go 1.24rc1. *)
Lemma X3_prerelease_version_is_value_error_witness :
  parse_go_version ("go version go1.24rc1 linux/amd64" ++ nl) = Raise ValueError
  /\ run_script Cases.host_go_rc (mkArgs false Samples.local_bin) Samples.st0
     = (1, mkState Samples.fs0
             (log Samples.st0 ++ [Spawn ["go"; "version"] None true;
                                  Traceback ValueError])%list).
Proof.
  apply (X3_prerelease_version_is_value_error Cases.host_go_rc
           (mkArgs false Samples.local_bin) Samples.st0
           ("go version go1.24rc1 linux/amd64" ++ nl) "" Samples.fs0
           "go1.24rc1" "go" "r" "c1").
  - reflexivity.
  - reflexivity.
  - reflexivity.
  - reflexivity.
  - reflexivity.
  - right. exists "1", "24".
    repeat split; try discriminate; try reflexivity;
      unfold PyStr.int_max_str_digits; simpl; lia.
Defined.

Example prerelease_run :
  run_script Cases.host_go_rc (mkArgs false Samples.local_bin) Samples.st0
  = (1, mkState Samples.fs0 [Spawn ["go"; "version"] None true; Traceback ValueError]).
Proof. reflexivity. Qed.

Lemma append_empty_r (a : string) : a ++ "" = a.
Proof. induction a as [|x a IH]; simpl; [reflexivity | now rewrite IH]. Qed.

(** X4.  The patch number is optional and the minor number is not: a token
    [<prefix><major>.<minor>] in third position parses to [(major, minor)], a
    token [<prefix><major>] in third position raises [IndexError]. *)
Theorem X4_two_component_version_parses line line1 pre major minor :
  Spec.all_chars (fun x => PyStr.mem_char x "go") pre = true ->
  Spec.is_number major ->
  Spec.is_number minor ->
  nth_error (PyStr.split_ws line) 2 = Some (pre ++ major ++ "." ++ minor) ->
  nth_error (PyStr.split_ws line1) 2 = Some (pre ++ major) ->
  parse_go_version line
  = Ok (major ++ "." ++ minor, (Spec.decimal_value major, Spec.decimal_value minor))
  /\ parse_go_version line1 = Raise IndexError.
Proof.
  intros Hpre Hma Hmi Hnth Hnth1.
  destruct (is_number_cons _ Hma) as (d & m' & Em & Hd).
  pose proof Hma as (_ & Hda & _). pose proof Hmi as (_ & Hdi & _).
  assert (El : forall rest, PyStr.lstrip "go" (pre ++ major ++ rest) = major ++ rest).
  { intros rest. rewrite Em. simpl.
    apply lstrip_prefix; [exact Hpre | now apply isdigit_not_go]. }
  split.
  - unfold parse_go_version, version_str_of. rewrite Hnth, El.
    unfold major_minor_of.
    change ("." ++ minor) with (String "." minor).
    rewrite (split_on_first "." major _ (digits_no_dot _ Hda)).
    rewrite (split_on_nosep "." minor (digits_no_dot _ Hdi)).
    cbn [nth_error]. now rewrite (int_number _ Hma), (int_number _ Hmi).
  - unfold parse_go_version, version_str_of. rewrite Hnth1.
    specialize (El ""). rewrite !append_empty_r in El. rewrite El.
    unfold major_minor_of.
    rewrite (split_on_nosep "." major (digits_no_dot _ Hda)).
    cbn [nth_error]. now rewrite (int_number _ Hma).
Qed.

(** X4 on the output of Go 1.20, and on a version of one component. *)
Lemma X4_two_component_version_parses_witness :
  parse_go_version "go version go1.20 linux/amd64"
  = Ok ("1" ++ "." ++ "20", (Spec.decimal_value "1", Spec.decimal_value "20"))
  /\ parse_go_version "go version go1 linux/amd64" = Raise IndexError.
Proof.
  apply (X4_two_component_version_parses "go version go1.20 linux/amd64"
           "go version go1 linux/amd64" "go" "1" "20").
  - reflexivity.
  - repeat split; [discriminate | unfold PyStr.int_max_str_digits; simpl; lia].
  - repeat split; [discriminate | unfold PyStr.int_max_str_digits; simpl; lia].
  - reflexivity.
  - reflexivity.
Defined.

Example two_component_version :
  parse_go_version "go version go1.20 linux/amd64" = Ok ("1.20", (1, 20))
  /\ parse_go_version "go version go1 linux/amd64" = Raise IndexError.
Proof. split; reflexivity. Qed.

(** ** More on the OCR Provisioner *)

Section ProvisionerSteps.

Import PyStr Spec Behaviour.
Local Open Scope list_scope.

Variable H : Host.

Lemma bind_ret_unit (m : M unit) st : bind m (fun _ => ret tt) st = m st.
Proof. unfold bind, ret. destruct (m st) as [[[]|e] s]; reflexivity. Qed.

(** The chain of conditionals of [install_tesseract] is a table of
    commands. *)
Lemma provision_with_table pm st :
  provision_with H pm st =
    match install_commands pm with
    | [] =>
        bind (warn H "Could not detect a supported package manager.")
          (fun _ => warn H "Install Tesseract manually: https://github.com/tesseract-ocr/tesseract#installing-tesseract") st
    | cmds => run_all H cmds st
    end.
Proof.
  unfold provision_with, install_commands.
  repeat (match goal with
          | |- context [String.eqb pm ?x] => destruct (String.eqb pm x)
          end;
          [cbn [run_all]; unfold bind;
           repeat match goal with
                  | |- context [pm_run H ?c ?s] =>
                      destruct (pm_run H c s) as [[[]|?] ?]
                  end; reflexivity|]).
  reflexivity.
Qed.

Lemma install_commands_known pm : In pm PKG_MANAGERS <-> install_commands pm <> [].
Proof.
  unfold install_commands, PKG_MANAGERS. split.
  - intros Hin. simpl in Hin.
    destruct Hin as [<-|[<-|[<-|[<-|[<-|[<-|[<-|[]]]]]]]]; discriminate.
  - repeat match goal with
           | |- context [String.eqb pm ?x] =>
               let E := fresh "E" in
               destruct (String.eqb pm x) eqn:E;
               [apply String.eqb_eq in E; subst; intros _; simpl; tauto | clear E]
           end.
    intros Hne. now contradiction Hne.
Qed.

Lemma pm_run_cases cmd st :
  log (snd (pm_run H cmd st)) = log st ++ [Spawn cmd None false]
  /\ match fst (pm_run H cmd st) with
     | Ok _ => True
     | Raise (CalledProcessError rc c) => rc <> 0 /\ c = cmd
     | Raise (OSError _) => True
     | Raise _ => False
     end.
Proof.
  unfold pm_run, bind, subprocess_run.
  destruct (spawn H st cmd None) as [[rc out err|k] fs1]; [|split; [reflexivity | exact I]].
  cbn [andb]. destruct (rc =? 0) eqn:Hrc; cbn [negb fst snd log ret].
  - split; [reflexivity | exact I].
  - split; [reflexivity|]. split; [now apply Z.eqb_neq | reflexivity].
Qed.

(** Commands run one after the other stop at the first that fails. *)
Lemma run_all_prefix cmds : forall st,
  exists n,
    (n <= length cmds)%nat
    /\ (cmds <> [] -> (0 < n)%nat)
    /\ log (snd (run_all H cmds st)) = log st ++ uncaptured (take n cmds)
    /\ match fst (run_all H cmds st) with
       | Ok _ => n = length cmds
       | Raise (CalledProcessError rc cmd) =>
           rc <> 0 /\ nth_error cmds (pred n) = Some cmd
       | Raise (OSError _) => True
       | Raise _ => False
       end.
Proof.
  induction cmds as [|cmd rest IH]; intros st.
  - exists 0%nat. simpl. rewrite app_nil_r. repeat split; [lia | congruence].
  - cbn [run_all]. destruct (pm_run_cases cmd st) as [Hlog1 Hres1].
    destruct (pm_run H cmd st) as [[[]|e] st1] eqn:Epm; cbn [fst snd] in Hlog1, Hres1.
    + rewrite (bind_ok _ _ _ _ _ Epm).
      destruct (IH st1) as (n & Hn & Hpos & Hlog & Hres).
      exists (S n). cbn [length take uncaptured List.map].
      split; [lia|]. split; [intros _; lia|]. split.
      { rewrite Hlog, Hlog1. now rewrite <- app_assoc. }
      destruct (fst (run_all H rest st1)) as [u|[code|rc' cmd'| | |k']];
        try exact Hres; [lia|].
      destruct Hres as [Hrc' Hnth]. split; [exact Hrc'|].
      destruct n as [|n]; [|exact Hnth].
      exfalso. destruct rest; [discriminate Hnth|].
      assert (0 < 0)%nat by (apply Hpos; discriminate). lia.
    + rewrite (bind_raise _ _ _ _ _ Epm).
      exists 1%nat. cbn [length take uncaptured List.map fst snd].
      split; [lia|]. split; [intros _; lia|]. split; [exact Hlog1|].
      destruct e as [code|rc' cmd'| | |k']; try exact Hres1.
      destruct Hres1 as [Hrc' ->]. split; [exact Hrc' | reflexivity].
Qed.

End ProvisionerSteps.

Section ProvisionerOutcome.

Import Behaviour.
Local Open Scope list_scope.

Variable H : Host.

Lemma pm_run_exited cmd st rc out err fs1 :
  spawn H st cmd None = (Exited rc out err, fs1) ->
  pm_run H cmd st
  = (if rc =? 0 then Ok tt else Raise (CalledProcessError rc cmd),
     mkState fs1 (log st ++ [Spawn cmd None false])).
Proof.
  intros Hs. unfold pm_run, bind, subprocess_run. rewrite Hs. cbn [andb].
  now destruct (rc =? 0).
Qed.

Lemma pm_run_not_started cmd st k fs1 :
  spawn H st cmd None = (NotStarted k, fs1) ->
  pm_run H cmd st = (Raise (OSError k), mkState fs1 (log st ++ [Spawn cmd None false])).
Proof. intros Hs. unfold pm_run, bind, subprocess_run. now rewrite Hs. Qed.

(** After commands that all exit with status 0 the remaining ones are run
    from the state they left. *)
Lemma run_all_after before : forall rest st st1,
  all_exit_0 H before st st1 ->
  run_all H (before ++ rest) st = run_all H rest st1
  /\ log st1 = log st ++ uncaptured before.
Proof.
  induction before as [|cmd before IH]; intros rest st st1 Hall.
  - simpl in Hall. subst st1. split; [reflexivity|]. simpl. now rewrite app_nil_r.
  - destruct Hall as (out & err & fs1 & Hs & Hall).
    destruct (IH rest _ _ Hall) as [Erun Elog].
    cbn [app run_all]. rewrite (bind_ok _ _ _ _ _ (pm_run_exited _ _ _ _ _ _ Hs)).
    split; [exact Erun|]. rewrite Elog. cbn [log uncaptured List.map].
    now rewrite <- app_assoc.
Qed.

End ProvisionerOutcome.

(** X5.  The provisioner has install commands exactly for the managers of
    the probe list; for any other name it starts nothing, prints its two
    warnings and returns.  The commands of a manager are started in order with
    their output left on the terminal.  When the commands before one of them
    all exited with status 0, that command is started next and decides: if it
    cannot be started the provisioner raises the [OSError] of the launch; if
    it exits with a status other than 0 the provisioner raises
    [CalledProcessError] with that status and that command; if it exits with
    status 0 and is the last one the provisioner returns.  In each case the
    commands started are exactly those up to this one: after a failure no
    later command is started. *)
Theorem X5_install_commands_run_in_order H pm st :
  let cmds := Behaviour.install_commands pm in
  (In pm PKG_MANAGERS <-> cmds <> [])
  /\ (cmds = [] ->
      provision_with H pm st
      = (Ok tt,
         mkState (fs st)
           (log st ++
            [Stdout (_c H "1;33" "warn:" ++ " "
                     ++ "Could not detect a supported package manager.");
             Stdout (_c H "1;33" "warn:" ++ " " ++
                     "Install Tesseract manually: https://github.com/tesseract-ocr/tesseract#installing-tesseract")])%list))
  /\ (forall before cmd after st1 res fs1,
        cmds = (before ++ cmd :: after)%list ->
        Behaviour.all_exit_0 H before st st1 ->
        spawn H st1 cmd None = (res, fs1) ->
        let st2 := mkState fs1 (log st ++ Behaviour.uncaptured (before ++ [cmd]))%list in
        match res with
        | NotStarted k => provision_with H pm st = (Raise (OSError k), st2)
        | Exited rc out err =>
            if rc =? 0 then
              Behaviour.all_exit_0 H (before ++ [cmd]) st st2
              /\ (after = [] -> provision_with H pm st = (Ok tt, st2))
            else provision_with H pm st = (Raise (CalledProcessError rc cmd), st2)
        end).
Proof.
  intros cmds. split; [apply install_commands_known|]. split.
  - intros E. rewrite provision_with_table. fold cmds. rewrite E.
    unfold bind, warn, emit. cbn [fs log]. now rewrite <- app_assoc.
  - intros before cmd after st1 res fs1 E Hall Hs st2.
    assert (Est2 : st2 = mkState fs1 (log st1 ++ [Spawn cmd None false])%list).
    { unfold st2. destruct (run_all_after H before [] st st1 Hall) as [_ ->].
      unfold Behaviour.uncaptured. now rewrite List.map_app, <- app_assoc. }
    assert (Erun : provision_with H pm st = Behaviour.run_all H (cmd :: after) st1).
    { rewrite provision_with_table. fold cmds.
      destruct (run_all_after H before (cmd :: after) st st1 Hall) as [<- _].
      rewrite <- E. destruct cmds; [now destruct before|reflexivity]. }
    rewrite Erun, Est2. cbn [Behaviour.run_all]. destruct res as [rc out err|k].
    + pose proof (pm_run_exited H cmd st1 rc out err fs1 Hs) as Epm.
      destruct (rc =? 0) eqn:Hrc.
      * apply Z.eqb_eq in Hrc. subst rc. split.
        { clear Erun E Est2 st2. revert st Hall.
          induction before as [|c before IH]; intros st Hall.
          - simpl in Hall. subst st1. simpl. eauto 6.
          - destruct Hall as (out' & err' & fs' & Hs' & Hall).
            simpl. exists out', err', fs'. split; [exact Hs'|]. now apply IH. }
        intros ->. now rewrite (bind_ok _ _ _ _ _ Epm).
      * now rewrite (bind_raise _ _ _ _ _ Epm).
    + now rewrite (bind_raise _ _ _ _ _ (pm_run_not_started H cmd st1 k fs1 Hs)).
Qed.

(** X5 with [apt-get]: the update exits with status 0, the installation with
    status 100. *)
Lemma X5_install_commands_run_in_order_witness :
  let H := Cases.host_apt_install_fails in
  let update := ["sudo"; "apt-get"; "update"; "-q"] in
  let install := ["sudo"; "apt-get"; "install"; "-y"; "tesseract-ocr"] in
  provision_with H "apt-get" Samples.st_gate
  = (Raise (CalledProcessError 100 install),
     mkState Samples.fs0
       (log Samples.st_gate ++ [Spawn update None false; Spawn install None false])%list).
Proof.
  destruct (X5_install_commands_run_in_order Cases.host_apt_install_fails "apt-get"
              Samples.st_gate) as (_ & _ & Hstep).
  apply (Hstep [["sudo"; "apt-get"; "update"; "-q"]]
               ["sudo"; "apt-get"; "install"; "-y"; "tesseract-ocr"] []
               (mkState Samples.fs0
                  (log Samples.st_gate ++ [Spawn ["sudo"; "apt-get"; "update"; "-q"] None false])%list)
               (Exited 100 "" "") Samples.fs0).
  - reflexivity.
  - simpl. exists "", "", Samples.fs0. split; reflexivity.
  - reflexivity.
Defined.

Example apt_update_fails :
  let r := provision_with Cases.host_apt_update_fails "apt-get" Samples.st_gate in
  fst r = Raise (CalledProcessError 100 ["sudo"; "apt-get"; "update"; "-q"])
  /\ log (snd r)
     = (log Samples.st_gate ++ [Spawn ["sudo"; "apt-get"; "update"; "-q"] None false])%list.
Proof. split; reflexivity. Qed.

(** X6.  When the first install command of the detected manager cannot be
    started (for instance [sudo] is not installed), [install_tesseract] does
    not die with a message: the [OSError] is not a [CalledProcessError], the
    handler does not apply, and the exception leaves the function after the
    notice and that one attempt. *)
Theorem X6_unstartable_install_command_is_uncaught H st pm cmd rest k fs1 :
  fst (detect_pkg_manager H st) = Ok pm ->
  Behaviour.install_commands pm = cmd :: rest ->
  let notice :=
    Stdout (_c H "0;32" "==>" ++ " " ++ "Installing Tesseract using package manager: " ++ pm) in
  spawn H (mkState (fs st) (log st ++ [notice])) cmd None = (NotStarted k, fs1) ->
  install_tesseract H st
  = (Raise (OSError k), mkState fs1 (log st ++ [notice; Spawn cmd None false])%list).
Proof.
  intros Hpm Hcmds notice Hs.
  destruct (first_found_spec H PKG_MANAGERS st) as (r & Er & _).
  unfold detect_pkg_manager in Hpm. rewrite Er in Hpm. injection Hpm as ->.
  unfold install_tesseract, detect_pkg_manager. rewrite (bind_ok _ _ _ _ _ Er).
  unfold bind at 1. unfold info at 1. unfold emit at 1. fold notice.
  unfold try_except_CalledProcessError.
  rewrite provision_with_table, Hcmds. cbn [Behaviour.run_all].
  unfold bind, pm_run, bind, subprocess_run. cbn [fs log]. rewrite Hs.
  cbn [log]. now rewrite <- app_assoc.
Qed.

(** X6 on a host with [apt-get] and no [sudo]. *)
Lemma X6_unstartable_install_command_is_uncaught_witness :
  install_tesseract Cases.host_no_sudo Samples.st_gate
  = (Raise (OSError FileNotFoundError),
     mkState Samples.fs0
       (log Samples.st_gate
        ++ [Stdout "==> Installing Tesseract using package manager: apt-get";
            Spawn ["sudo"; "apt-get"; "update"; "-q"] None false])%list).
Proof.
  apply (X6_unstartable_install_command_is_uncaught Cases.host_no_sudo Samples.st_gate
           "apt-get" ["sudo"; "apt-get"; "update"; "-q"]
           [["sudo"; "apt-get"; "install"; "-y"; "tesseract-ocr"]]
           FileNotFoundError Samples.fs0); reflexivity.
Defined.

(** X7.  When [tesseract --version] runs to its end, with any exit status,
    [tesseract_version] returns: the first line of its standard output when
    that is not empty, else the first line of its standard error when that is
    not empty, else [unknown].  The line returned contains no line boundary. *)
Theorem X7_version_is_first_line H st rc out err fs1 :
  spawn H st ["tesseract"; "--version"] None = (Exited rc out err, fs1) ->
  exists v,
    tesseract_version H st
    = (Ok v, mkState fs1 (log st ++ [Spawn ["tesseract"; "--version"] None true])%list)
    /\ (out <> "" -> Behaviour.first_line_of out v)
    /\ (out = "" -> err <> "" -> Behaviour.first_line_of err v)
    /\ (out = "" -> err = "" -> v = "unknown").
Proof.
  intros Hs.
  destruct (tesseract_version_exited H st rc out err fs1 Hs) as (v & Ev & Hv).
  exists v. split; [exact Ev|].
  unfold Spec.reported_version in Hv. cbv zeta in Hv.
  destruct (String.eqb out "") eqn:Eo.
  - apply String.eqb_eq in Eo. subst out.
    split; [congruence|]. split.
    + intros _ Herr. destruct Hv as [[He _]|[_ Hv]]; [congruence|].
      unfold PyStr.splitlines in Hv.
      destruct (PyStr.splitlines_from false err) as [|v' l] eqn:El; [discriminate|].
      injection Hv as ->. now apply (splitlines_first_line err v l).
    + intros _ ->. destruct Hv as [[_ ->]|[Hne _]]; [reflexivity | congruence].
  - apply String.eqb_neq in Eo.
    split; [|split; intros; congruence].
    intros _. destruct Hv as [[He _]|[_ Hv]]; [congruence|].
    unfold PyStr.splitlines in Hv.
    destruct (PyStr.splitlines_from false out) as [|v' l] eqn:El; [discriminate|].
    injection Hv as ->. now apply (splitlines_first_line out v l).
Qed.

(** X7 on a host whose OCR tool prints its version on standard error and
    exits with status 1. *)
Lemma X7_version_is_first_line_witness :
  exists v,
    tesseract_version Cases.host_ocr_on_stderr Samples.st0
    = (Ok v, mkState Samples.fs0
               (log Samples.st0 ++ [Spawn ["tesseract"; "--version"] None true])%list)
    /\ ("" <> "" -> Behaviour.first_line_of "" v)
    /\ ("" = "" ->
        "tesseract 4.1.1" ++ String "013" (String "010" " leptonica") <> "" ->
        Behaviour.first_line_of
          ("tesseract 4.1.1" ++ String "013" (String "010" " leptonica")) v)
    /\ ("" = "" ->
        "tesseract 4.1.1" ++ String "013" (String "010" " leptonica") = "" ->
        v = "unknown").
Proof.
  apply (X7_version_is_first_line Cases.host_ocr_on_stderr Samples.st0 1 ""
           ("tesseract 4.1.1" ++ String "013" (String "010" " leptonica")) Samples.fs0).
  reflexivity.
Defined.

Example version_from_stderr :
  fst (tesseract_version Cases.host_ocr_on_stderr Samples.st0) = Ok "tesseract 4.1.1".
Proof. reflexivity. Qed.

(** ** What a run may do *)

Section Emits.

Import Spec Behaviour.
Local Open Scope list_scope.

Variable H : Host.
Variable P : Event -> Prop.

Lemma emits_ret {A} (a : A) : emits P (ret a).
Proof. intros st. exists []. simpl. now rewrite app_nil_r. Qed.

Lemma emits_raise {A} e : emits P (@raise A e).
Proof. intros st. exists []. simpl. now rewrite app_nil_r. Qed.

Lemma emits_which name : emits P (which H name).
Proof. intros st. exists []. simpl. now rewrite app_nil_r. Qed.

Lemma emits_emit ev : P ev -> emits P (emit ev).
Proof. intros Hev st. exists [ev]. split; [reflexivity | now repeat constructor]. Qed.

(** A sequence emits what its parts emit; the second part may rely on its
    argument being a value the first part returns. *)
Lemma emits_bind_val {A B} (m : M A) (k : A -> M B) :
  emits P m ->
  (forall a, (exists st st', m st = (Ok a, st')) -> emits P (k a)) ->
  emits P (bind m k).
Proof.
  intros Hm Hk st. unfold bind.
  destruct (Hm st) as (new1 & E1 & F1).
  destruct (m st) as [[a|e] st1] eqn:Em; simpl in E1.
  - destruct (Hk a (ex_intro _ st (ex_intro _ st1 Em)) st1) as (new2 & E2 & F2).
    exists (new1 ++ new2). split; [now rewrite E2, E1, app_assoc|].
    apply Forall_app. now split.
  - exists new1. now split.
Qed.

Lemma emits_bind {A B} (m : M A) (k : A -> M B) :
  emits P m -> (forall a, emits P (k a)) -> emits P (bind m k).
Proof. intros Hm Hk. apply emits_bind_val; auto. Qed.

Lemma emits_try {A} (body : M A) handler :
  emits P body -> (forall rc cmd, emits P (handler rc cmd)) ->
  emits P (try_except_CalledProcessError body handler).
Proof.
  intros Hb Hh st. unfold try_except_CalledProcessError.
  destruct (Hb st) as (new1 & E1 & F1).
  destruct (body st) as [[a|[code|rc cmd| | |k]] st1]; simpl in E1;
    try (exists new1; now split).
  destruct (Hh rc cmd st1) as (new2 & E2 & F2).
  exists (new1 ++ new2). split; [now rewrite E2, E1, app_assoc|].
  apply Forall_app. now split.
Qed.

Lemma emits_subprocess_run cmd cwd check captured :
  P (Spawn cmd cwd captured) -> emits P (subprocess_run H cmd cwd check captured).
Proof.
  intros Hev st. exists [Spawn cmd cwd captured]. unfold subprocess_run.
  destruct (spawn H st cmd cwd) as [[rc out err|k] fs1]; simpl.
  - destruct (check && negb (rc =? 0)); simpl; split; try reflexivity;
      now repeat constructor.
  - split; [reflexivity | now repeat constructor].
Qed.

Lemma emits_fs_op ev op : P ev -> emits P (fs_op ev op).
Proof.
  intros Hev st. exists [ev]. unfold fs_op.
  destruct (op (fs st)); simpl; split; try reflexivity; now repeat constructor.
Qed.

Lemma emits_lift_result {A} (r : Result A) : emits P (lift_result r).
Proof. destruct r; [apply emits_ret | apply emits_raise]. Qed.

Lemma emits_lift_option {A} e (o : option A) : emits P (lift_option e o).
Proof. destruct o; [apply emits_ret | apply emits_raise]. Qed.

Lemma emits_die {A} msg : (forall line, P (Stderr line)) -> emits P (@die H A msg).
Proof.
  intros Herr. unfold die, error. apply emits_bind; [now apply emits_emit|].
  intros _. apply emits_raise.
Qed.

Lemma emits_info msg : (forall line, P (Stdout line)) -> emits P (info H msg).
Proof. intros Hout. now apply emits_emit. Qed.

Lemma emits_warn msg : (forall line, P (Stdout line)) -> emits P (warn H msg).
Proof. intros Hout. now apply emits_emit. Qed.

End Emits.

(** One step of a proof that a computation [emits] only events of a kind;
    [side] closes the conditions on single events. *)
Ltac emits_step side :=
  cbv zeta;
  match goal with
  | |- Behaviour.emits _ (die _ _) => apply emits_die; side
  | |- Behaviour.emits _ (info _ _) => apply emits_info; side
  | |- Behaviour.emits _ (warn _ _) => apply emits_warn; side
  | |- Behaviour.emits _ (bind _ _) => apply emits_bind; [|intros ?]
  | |- Behaviour.emits _ (try_except_CalledProcessError _ _) =>
      apply emits_try; [|intros ? ?]
  | |- Behaviour.emits _ (if ?b then _ else _) =>
      let E := fresh "E" in destruct b eqn:E
  | |- Behaviour.emits _ (emit _) => apply emits_emit; side
  | |- Behaviour.emits _ (fs_op _ _) => apply emits_fs_op; side
  | |- Behaviour.emits _ (subprocess_run _ _ _ _ _) => apply emits_subprocess_run; side
  | |- Behaviour.emits _ (run _ _ _ _) => apply emits_subprocess_run; side
  | |- Behaviour.emits _ (which _ _) => apply emits_which
  | |- Behaviour.emits _ (ret _) => apply emits_ret
  | |- Behaviour.emits _ (lift_result _) => apply emits_lift_result
  | |- Behaviour.emits _ (lift_option _ _) => apply emits_lift_option
  end.

Section RunEvents.

Import Spec Behaviour.
Local Open Scope list_scope.

Variable H : Host.

Lemma emits_first_found P names : emits P (first_found H names).
Proof.
  induction names as [|pm rest IH]; simpl; [apply emits_ret|].
  apply emits_bind; [apply emits_which|]. intros found.
  destruct found; [apply emits_ret | exact IH].
Qed.

(** The commands of a list, uncaptured, are all that [run_all] adds. *)
Lemma emits_run_all P cmds :
  (forall cmd, In cmd cmds -> P (Spawn cmd None false)) -> emits P (run_all H cmds).
Proof.
  intros HP st. destruct (run_all_prefix H cmds st) as (n & _ & _ & Hlog & _).
  exists (uncaptured (take n cmds)). split; [exact Hlog|].
  unfold uncaptured. apply Forall_forall. intros ev Hev.
  apply list_elem_of_In in Hev. apply in_map_iff in Hev as (cmd & <- & Hin).
  apply HP. apply list_elem_of_In. apply (subseteq_take n cmds).
  now apply list_elem_of_In.
Qed.

End RunEvents.

(** Closes the condition that one event is allowed. *)
Ltac allowed_side :=
  intros; cbn; unfold Behaviour.allowed_command;
  intuition (try reflexivity; try assumption).

Section AllowedEvents.

Import Spec Behaviour.
Local Open Scope list_scope.

Variable H : Host.
Variable args : Args.

Lemma build_returns st p st' :
  build H st = (Ok p, st') -> p = joinpath (SRC_DIR H) (BIN_NAME H).
Proof.
  unfold build. intros E.
  apply bind_ok_inv in E as (? & s1 & _ & E).
  apply bind_ok_inv in E as (? & s2 & _ & E). cbv zeta in E.
  apply bind_ok_inv in E as (? & s3 & _ & E).
  unfold ret in E. now inversion E.
Qed.

Lemma allowed_check_go : emits (allowed_event H args) (check_go H).
Proof. unfold check_go. repeat emits_step allowed_side. Qed.

Lemma allowed_tesseract_version : emits (allowed_event H args) (tesseract_version H).
Proof. unfold tesseract_version. repeat emits_step allowed_side. Qed.

Lemma allowed_provision_with pm :
  with_ocr args = true -> emits (allowed_event H args) (provision_with H pm).
Proof.
  intros Hocr.
  assert (Hwarn : emits (allowed_event H args)
                    (bind (warn H "Could not detect a supported package manager.")
                       (fun _ => warn H "Install Tesseract manually: https://github.com/tesseract-ocr/tesseract#installing-tesseract")))
    by (repeat emits_step allowed_side).
  assert (Hrun : install_commands pm <> [] ->
                 emits (allowed_event H args) (run_all H (install_commands pm))).
  { intros Hne. apply emits_run_all. intros c Hc. cbn.
    right. right. right. repeat split; try assumption.
    exists pm. split; [|exact Hc]. now apply install_commands_known. }
  intros st. rewrite provision_with_table.
  destruct (install_commands pm) as [|cmd rest] eqn:Ecmds.
  - apply Hwarn.
  - apply Hrun. discriminate.
Qed.

Lemma allowed_check_tesseract :
  emits (allowed_event H args) (check_tesseract H (with_ocr args)).
Proof.
  destruct (with_ocr args) eqn:Hocr; unfold check_tesseract.
  - apply emits_bind; [apply emits_which|]. intros found. destruct found.
    + apply emits_bind; [apply allowed_tesseract_version|]. intros v.
      emits_step allowed_side.
    + apply emits_bind.
      * unfold install_tesseract, detect_pkg_manager.
        apply emits_bind; [apply emits_first_found|]. intros pm.
        apply emits_bind; [emits_step allowed_side|]. intros _.
        apply emits_try; [now apply allowed_provision_with|]. intros rc cmd.
        emits_step allowed_side.
      * intros _. apply emits_bind; [apply allowed_tesseract_version|]. intros v.
        emits_step allowed_side.
  - apply emits_bind; [apply emits_which|]. intros found. destruct found.
    + apply emits_bind; [apply allowed_tesseract_version|]. intros v.
      emits_step allowed_side.
    + repeat emits_step allowed_side.
Qed.

Lemma allowed_build : emits (allowed_event H args) (build H).
Proof. unfold build. repeat emits_step allowed_side. Qed.

Lemma allowed_install_binary :
  emits (allowed_event H args)
    (install_binary H (joinpath (SRC_DIR H) (BIN_NAME H)) (prefix args)).
Proof.
  unfold install_binary. repeat emits_step allowed_side.
  apply negb_true_iff in E. now rewrite E.
Qed.

Lemma allowed_check_path : emits (allowed_event H args) (check_path H (prefix args)).
Proof. unfold check_path. repeat emits_step allowed_side. Qed.

Lemma allowed_print_config p : emits (allowed_event H args) (print_config H p).
Proof. unfold print_config. repeat emits_step allowed_side. Qed.

Lemma allowed_main : emits (allowed_event H args) (main H args).
Proof.
  unfold main.
  apply emits_bind; [apply allowed_check_go|]. intros _.
  apply emits_bind; [apply allowed_check_tesseract|]. intros _.
  apply emits_bind_val; [apply allowed_build|]. intros bin (s & s' & Eb).
  rewrite (build_returns _ _ _ Eb).
  apply emits_bind; [apply allowed_install_binary|]. intros full.
  apply emits_bind; [apply allowed_check_path|]. intros _.
  apply emits_bind; [apply allowed_print_config|]. intros _.
  emits_step allowed_side.
Qed.

(** Every event of a run is an allowed one. *)
Lemma run_script_allowed st :
  Forall (allowed_event H args)
    (drop (length (log st)) (log (snd (run_script H args st)))).
Proof.
  destruct (allowed_main st) as (new & E & F). unfold run_script.
  destruct (main H args st) as [[u|e] st1]; simpl in E.
  - simpl. rewrite E, drop_app_length. exact F.
  - assert (Hd : drop (length (log st)) (log st1 ++ [Traceback e])
                 = new ++ [Traceback e]).
    { now rewrite E, <- app_assoc, drop_app_length. }
    destruct e; simpl; try rewrite Hd; try (rewrite E, drop_app_length); try exact F;
      apply Forall_app; split; try exact F; repeat constructor.
Qed.

End AllowedEvents.

(** X8.  Whatever the host, a run starts no other command than
    [go version], [tesseract --version], [go mod tidy -e] and [go build ...]
    (the last two in the source directory), all with their output captured,
    and, with [--with-ocr] only, install commands of a manager of the probe
    list, with their output left on the terminal.  Without [--with-ocr] every
    command is a [go] or a [tesseract] command: no package manager and no
    [sudo] is ever started. *)
Theorem X8_run_starts_only_known_commands H args st :
  Forall (fun ev =>
            match ev with
            | Spawn cmd cwd captured =>
                Behaviour.allowed_command H args cmd cwd captured
                /\ (with_ocr args = false ->
                    captured = true
                    /\ exists rest, cmd = "go" :: rest \/ cmd = "tesseract" :: rest)
            | _ => True
            end)
    (drop (length (log st)) (log (snd (run_script H args st)))).
Proof.
  eapply Forall_impl; [apply run_script_allowed|].
  intros [line|line|cmd cwd captured|p|src dst|p mode|e] Hev; try exact I.
  simpl in Hev. split; [exact Hev|]. intros Hocr.
  destruct Hev as [(-> & _ & ->)|[(-> & _ & ->)|[([-> | ->] & _ & ->)|(Hocr' & _)]]];
    try (split; [reflexivity|]; eexists; (left; reflexivity) || (right; reflexivity)).
  congruence.
Qed.

(** X9.  Whatever the host, the only file-system operations of a run are:
    creating the install directory, copying the built artifact (the binary
    name in the source directory) to the binary name in the install directory,
    and, off Windows only, setting the mode of that destination to
    [rwxr-xr-x]. *)
Theorem X9_run_touches_only_install_target H args st :
  Forall (Behaviour.allowed_fs_op H args)
    (drop (length (log st)) (log (snd (run_script H args st)))).
Proof.
  eapply Forall_impl; [apply run_script_allowed|].
  intros [line|line|cmd cwd captured|p|src dst|p mode|e] Hev; try exact I; exact Hev.
Qed.

(** ** The Builder and the order of the steps *)

Section BuildSteps.

Import Spec Behaviour.
Local Open Scope list_scope.

Variable H : Host.

(** [build], by what its two commands do. *)
Lemma build_steps st :
  build H st =
    let building :=
      Stdout (_c H "0;32" "==>" ++ " " ++ "Building " ++ BIN_NAME H ++ "...")%string in
    let tidy := Spawn CMD_TIDY (Some (SRC_DIR H)) true in
    let compile := Spawn (CMD_BUILD H) (Some (SRC_DIR H)) true in
    match spawn H (mkState (fs st) (log st ++ [building])) CMD_TIDY (Some (SRC_DIR H)) with
    | (NotStarted k, fs1) =>
        (Raise (OSError k), mkState fs1 (log st ++ [building; tidy]))
    | (Exited rc out err, fs1) =>
        if rc =? 0 then
          match spawn H (mkState fs1 (log st ++ [building; tidy]))
                  (CMD_BUILD H) (Some (SRC_DIR H)) with
          | (NotStarted k, fs2) =>
              (Raise (OSError k), mkState fs2 (log st ++ [building; tidy; compile]))
          | (Exited rc' out' err', fs2) =>
              if rc' =? 0 then
                (Ok (joinpath (SRC_DIR H) (BIN_NAME H)),
                 mkState fs2
                   (log st ++ [building; tidy; compile;
                               Stdout (_c H "0;32" "==>" ++ " " ++ "Built: "
                                       ++ str H (joinpath (SRC_DIR H) (BIN_NAME H)))%string]))
              else
                (Raise (SystemExit 1),
                 mkState fs2
                   (log st ++ [building; tidy; compile;
                               error_line H (MSG_BUILD H rc' (CMD_BUILD H))]))
          end
        else
          (Raise (SystemExit 1),
           mkState fs1 (log st ++ [building; tidy;
                                   error_line H (MSG_BUILD H rc CMD_TIDY)]))
    end.
Proof.
  cbv zeta. unfold build.
  unfold bind at 1. unfold info at 1. unfold emit at 1.
  unfold bind at 1. unfold try_except_CalledProcessError.
  unfold bind at 1. unfold run at 1. unfold subprocess_run at 1. cbn [fs log].
  destruct (spawn H _ CMD_TIDY (Some (SRC_DIR H))) as [[rc out err|k] fs1].
  2:{ cbn [log]. now rewrite <- app_assoc. }
  cbn [andb]. destruct (rc =? 0); cbn [negb].
  2:{ unfold die, error, bind, emit, raise. cbn [fs log]. now rewrite <- !app_assoc. }
  unfold bind at 1. unfold run at 1. unfold subprocess_run at 1. cbn [fs log].
  rewrite <- app_assoc. cbn [app].
  destruct (spawn H _ (CMD_BUILD H) (Some (SRC_DIR H))) as [[rc' out' err'|k] fs2].
  2:{ cbn [log]. now rewrite <- !app_assoc. }
  cbn [andb]. destruct (rc' =? 0); cbn [negb].
  - unfold bind, ret, info, emit. cbn [fs log]. now rewrite <- !app_assoc.
  - unfold die, error, bind, emit, raise. cbn [fs log]. now rewrite <- !app_assoc.
Qed.

Lemma emits_provision_with P pm :
  (forall line, P (Stdout line)) ->
  (forall cmd, P (Spawn cmd None false)) ->
  emits P (provision_with H pm).
Proof.
  intros Hout Hcmd.
  assert (Hwarn : emits P
                    (bind (warn H "Could not detect a supported package manager.")
                       (fun _ => warn H "Install Tesseract manually: https://github.com/tesseract-ocr/tesseract#installing-tesseract")))
    by (repeat emits_step ltac:(auto)).
  intros st. rewrite provision_with_table.
  destruct (install_commands pm) as [|cmd rest] eqn:Ecmds.
  - apply Hwarn.
  - apply emits_run_all. auto.
Qed.

(** The steps before the Installer make no file-system operation. *)
Lemma no_fs_check_go : emits (fun ev => is_fs_op ev = false) (check_go H).
Proof. unfold check_go. repeat emits_step ltac:(intros; reflexivity). Qed.

Lemma no_fs_check_tesseract w :
  emits (fun ev => is_fs_op ev = false) (check_tesseract H w).
Proof.
  assert (Hv : emits (fun ev => is_fs_op ev = false) (tesseract_version H)).
  { unfold tesseract_version. repeat emits_step ltac:(intros; reflexivity). }
  assert (Hi : emits (fun ev => is_fs_op ev = false) (install_tesseract H)).
  { unfold install_tesseract, detect_pkg_manager.
    apply emits_bind; [apply emits_first_found|]. intros pm.
    apply emits_bind; [emits_step ltac:(intros; reflexivity)|]. intros _.
    apply emits_try; [apply emits_provision_with; reflexivity|]. intros rc cmd.
    emits_step ltac:(intros; reflexivity). }
  unfold check_tesseract. destruct w.
  - apply emits_bind; [apply emits_which|]. intros found. destruct found.
    + apply emits_bind; [exact Hv|]. intros v. emits_step ltac:(intros; reflexivity).
    + apply emits_bind; [exact Hi|]. intros _.
      apply emits_bind; [exact Hv|]. intros v. emits_step ltac:(intros; reflexivity).
  - apply emits_bind; [apply emits_which|]. intros found. destruct found.
    + apply emits_bind; [exact Hv|]. intros v. emits_step ltac:(intros; reflexivity).
    + repeat emits_step ltac:(intros; reflexivity).
Qed.

Lemma no_fs_build : emits (fun ev => is_fs_op ev = false) (build H).
Proof. unfold build. repeat emits_step ltac:(intros; reflexivity). Qed.

(** A run that stops on an exception has, as new events, those made so far
    and possibly the traceback. *)
Lemma stopped_run_no_fs_ops args st e s new :
  main H args st = (Raise e, s) ->
  log s = log st ++ new ->
  Cases.no_fs_ops new ->
  Cases.no_fs_ops (Cases.new_events H args st).
Proof.
  intros Em El Hn. unfold Cases.new_events, run_script. rewrite Em.
  assert (Hd : drop (length (log st)) (log s ++ [Traceback e]) = new ++ [Traceback e]).
  { now rewrite El, <- app_assoc, drop_app_length. }
  assert (Ht : Cases.no_fs_ops (new ++ [Traceback e])).
  { apply Forall_app. split; [exact Hn | repeat constructor]. }
  destruct e; cbn [snd log fs]; rewrite ?Hd; try exact Ht.
  now rewrite El, drop_app_length.
Qed.

End BuildSteps.

(** X10.  [build] returns only when [go mod tidy -e] and then [go build]
    both ran in the source directory and exited with status 0.  It then
    returns the source directory joined with the binary name, which is the
    name it gave to [go build] as [-o=]; it does not look at the file system
    itself, which is left as the commands left it. *)
Theorem X10_build_returns_only_after_both_commands H st p st' :
  build H st = (Ok p, st') ->
  let building :=
    Stdout (_c H "0;32" "==>" ++ " " ++ "Building " ++ BIN_NAME H ++ "...") in
  let tidy := Spawn CMD_TIDY (Some (SRC_DIR H)) true in
  let compile := Spawn (CMD_BUILD H) (Some (SRC_DIR H)) true in
  p = joinpath (SRC_DIR H) (BIN_NAME H)
  /\ nth_error (CMD_BUILD H) 3 = Some ("-o=" ++ basename p)
  /\ exists out err fs1 out' err',
       spawn H (mkState (fs st) (log st ++ [building])%list) CMD_TIDY (Some (SRC_DIR H))
       = (Exited 0 out err, fs1)
       /\ spawn H (mkState fs1 (log st ++ [building; tidy])%list)
            (CMD_BUILD H) (Some (SRC_DIR H))
          = (Exited 0 out' err', fs st')
       /\ log st'
          = (log st ++ [building; tidy; compile;
                        Stdout (_c H "0;32" "==>" ++ " " ++ "Built: " ++ str H p)])%list.
Proof.
  intros E building tidy compile.
  pose proof (build_returns H st p st' E) as ->.
  split; [reflexivity|]. split.
  { unfold CMD_BUILD, basename, joinpath. cbn [parts nth_error].
    now rewrite List.last_last. }
  rewrite build_steps in E. cbv zeta in E. fold building tidy compile in E.
  destruct (spawn H _ CMD_TIDY _) as [[rc out err|k] fs1] eqn:Es1; [|discriminate].
  destruct (rc =? 0) eqn:Hrc; [|discriminate]. apply Z.eqb_eq in Hrc. subst rc.
  destruct (spawn H _ (CMD_BUILD H) _) as [[rc' out' err'|k] fs2] eqn:Es2; [|discriminate].
  destruct (rc' =? 0) eqn:Hrc'; [|discriminate]. apply Z.eqb_eq in Hrc'. subst rc'.
  injection E as <-. exists out, err, fs1, out', err'. cbn [fs log].
  split; [reflexivity|]. split; [exact Es2 | reflexivity].
Qed.

(** X10 on a Linux host with Go 1.24.0. *)
Lemma X10_build_returns_only_after_both_commands_witness :
  let H := Samples.host_bare in
  let st := Samples.st_checked in
  let st' := snd (build H st) in
  let p := Samples.artifact in
  let building :=
    Stdout (_c H "0;32" "==>" ++ " " ++ "Building " ++ BIN_NAME H ++ "...") in
  let tidy := Spawn CMD_TIDY (Some (SRC_DIR H)) true in
  let compile := Spawn (CMD_BUILD H) (Some (SRC_DIR H)) true in
  p = joinpath (SRC_DIR H) (BIN_NAME H)
  /\ nth_error (CMD_BUILD H) 3 = Some ("-o=" ++ basename p)
  /\ exists out err fs1 out' err',
       spawn H (mkState (fs st) (log st ++ [building])%list) CMD_TIDY (Some (SRC_DIR H))
       = (Exited 0 out err, fs1)
       /\ spawn H (mkState fs1 (log st ++ [building; tidy])%list)
            (CMD_BUILD H) (Some (SRC_DIR H))
          = (Exited 0 out' err', fs st')
       /\ log st'
          = (log st ++ [building; tidy; compile;
                        Stdout (_c H "0;32" "==>" ++ " " ++ "Built: " ++ str H p)])%list.
Proof.
  apply (X10_build_returns_only_after_both_commands Samples.host_bare Samples.st_checked
           Samples.artifact (snd (build Samples.host_bare Samples.st_checked))).
  reflexivity.
Defined.

(** X11.  A run makes a file-system operation only after the toolchain gate,
    the OCR step and the build have all returned: nothing is created, copied
    or changed unless [go] is at least 1.24 and both build commands exited
    with status 0. *)
Theorem X11_file_system_untouched_before_build H args st :
  ~ Cases.no_fs_ops (Cases.new_events H args st) ->
  exists st1 st2 st3,
    check_go H st = (Ok tt, st1)
    /\ check_tesseract H (with_ocr args) st1 = (Ok tt, st2)
    /\ build H st2 = (Ok (joinpath (SRC_DIR H) (BIN_NAME H)), st3).
Proof.
  intros Hops.
  destruct (no_fs_check_go H st) as (n1 & L1 & F1).
  destruct (check_go H st) as [[[]|e1] s1] eqn:E1; cbn [snd] in L1.
  2:{ exfalso. apply Hops.
      apply (stopped_run_no_fs_ops H args st e1 s1 n1); [|exact L1|exact F1].
      unfold main. now rewrite (bind_raise _ _ _ _ _ E1). }
  destruct (no_fs_check_tesseract H (with_ocr args) s1) as (n2 & L2 & F2).
  destruct (check_tesseract H (with_ocr args) s1) as [[[]|e2] s2] eqn:E2; cbn [snd] in L2.
  2:{ exfalso. apply Hops.
      apply (stopped_run_no_fs_ops H args st e2 s2 (n1 ++ n2)).
      - unfold main. rewrite (bind_ok _ _ _ _ _ E1). now rewrite (bind_raise _ _ _ _ _ E2).
      - now rewrite L2, L1, app_assoc.
      - apply Forall_app. now split. }
  destruct (no_fs_build H s2) as (n3 & L3 & F3).
  destruct (build H s2) as [[p|e3] s3] eqn:E3; cbn [snd] in L3.
  2:{ exfalso. apply Hops.
      apply (stopped_run_no_fs_ops H args st e3 s3 (n1 ++ n2 ++ n3)).
      - unfold main. rewrite (bind_ok _ _ _ _ _ E1), (bind_ok _ _ _ _ _ E2).
        now rewrite (bind_raise _ _ _ _ _ E3).
      - now rewrite L3, L2, L1, !app_assoc.
      - apply Forall_app. split; [exact F1|]. apply Forall_app. now split. }
  exists s1, s2, s3. rewrite (build_returns H s2 p s3 E3) in E3. auto.
Qed.

(** X11 on a Linux host with Go 1.24.0: the run installs, so its steps before
    the Installer returned. *)
Lemma X11_file_system_untouched_before_build_witness :
  exists st1 st2 st3,
    check_go Samples.host_bare Samples.st0 = (Ok tt, st1)
    /\ check_tesseract Samples.host_bare false st1 = (Ok tt, st2)
    /\ build Samples.host_bare st2
       = (Ok (joinpath (SRC_DIR Samples.host_bare) (BIN_NAME Samples.host_bare)), st3).
Proof.
  apply (X11_file_system_untouched_before_build Samples.host_bare
           (mkArgs false Samples.local_bin) Samples.st0).
  intros Hnone. unfold Cases.no_fs_ops, Cases.new_events in Hnone.
  vm_compute in Hnone.
  repeat match type of Hnone with
         | Forall _ (_ :: _) => apply Forall_cons_1 in Hnone as [Hhd Hnone]; try discriminate Hhd; clear Hhd
         end.
Defined.

(** ** More on the Installer *)

Section InstallerEdges.

Import Spec Behaviour.
Local Open Scope list_scope.

Variable H : Host.

Lemma joinpath_neq p name : joinpath p name <> p.
Proof.
  intros E. apply (f_equal (fun q => length (parts q))) in E.
  unfold joinpath in E. simpl in E. rewrite length_app in E. simpl in E. lia.
Qed.

(** What a successful [copy2] has done. *)
Lemma copy2_ok_inv src dst fs0 fs' :
  shutil_copy2 src dst fs0 = inr fs' ->
  let d := if is_dir fs0 dst then joinpath dst (basename src) else dst in
  exists data mode mtime,
    node_at fs0 src = Some (File data mode mtime)
    /\ fs' = <[d := File data mode mtime]> fs0
    /\ src <> d /\ is_dir fs0 d = false.
Proof.
  unfold shutil_copy2. cbv zeta.
  set (d := if is_dir fs0 dst then joinpath dst (basename src) else dst).
  intros E.
  destruct (bool_decide (src = d)) eqn:Esame.
  - apply bool_decide_eq_true in Esame. unfold path_exists in E.
    destruct (node_at fs0 src) as [[m|data mode mtime]|] eqn:Esrc;
      cbn [andb] in E; discriminate.
  - apply bool_decide_eq_false in Esame. cbn [andb] in E.
    destruct (node_at fs0 src) as [[m|data mode mtime]|] eqn:Esrc; try discriminate.
    exists data, mode, mtime. split; [reflexivity|].
    unfold is_dir.
    destruct (node_at fs0 d) as [[m|? ? ?]|]; try discriminate;
      destruct (node_at fs0 (parent d)) as [[m'|? ? ?]|]; try discriminate;
      injection E as <-; auto.
Qed.

(** What a returning [install_binary] has done. *)
Lemma install_binary_ok_inv bin dir st p st' :
  install_binary H bin dir st = (Ok p, st') ->
  let dest := joinpath dir (BIN_NAME H) in
  exists fs1 fs2,
    Path_mkdir (umask H) true true dir (fs st) = inr fs1
    /\ shutil_copy2 bin dest fs1 = inr fs2
    /\ if IS_WINDOWS H then fs st' = fs2 else os_chmod dest 493 fs2 = inr (fs st').
Proof.
  unfold install_binary. intros E. cbv zeta.
  apply bind_ok_inv in E as ([] & s1 & E1 & E). cbv zeta in E.
  apply bind_ok_inv in E as ([] & s2 & E2 & E).
  apply bind_ok_inv in E as ([] & s3 & E3 & E).
  apply bind_ok_inv in E as ([] & s4 & E4 & E).
  unfold ret in E. injection E as _ <-.
  unfold fs_op in E1.
  destruct (Path_mkdir (umask H) true true dir (fs st)) as [k|fs1] eqn:Emk;
    [discriminate|].
  injection E1 as <-. unfold fs_op in E2. cbn [fs log] in E2.
  destruct (shutil_copy2 bin (joinpath dir (BIN_NAME H)) fs1) as [k|fs2] eqn:Ecp;
    [discriminate|].
  injection E2 as <-.
  unfold info, emit in E4. injection E4 as <-. cbn [fs].
  exists fs1, fs2. split; [reflexivity|]. split; [exact Ecp|].
  destruct (IS_WINDOWS H); cbn [negb] in E3.
  - unfold ret in E3. now injection E3 as <-.
  - unfold fs_op in E3. cbn [fs log] in E3.
    destruct (os_chmod (joinpath dir (BIN_NAME H)) 493 fs2) as [k|fs3] eqn:Ech;
      [discriminate|].
    now injection E3 as <-.
Qed.

Lemma Path_mkdir_outside dir fs0 :
  creatable fs0 dir = true ->
  exists fs1,
    Path_mkdir (umask H) true true dir fs0 = inr fs1
    /\ is_dir fs1 dir = true
    /\ (forall q, ~ In q (ancestors_and_self dir) -> node_at fs1 q = node_at fs0 q).
Proof.
  intros Hc.
  destruct (mkdir_parents_ok (umask H) (drive dir) (root dir) (rev (parts dir)) fs0 Hc)
    as (fs1 & E & Hd & _ & Hnew).
  exists fs1. rewrite rev_involutive in Hd.
  split; [exact E|]. split; [now destruct dir | exact Hnew].
Qed.

Lemma joinpath_not_ancestor dir name :
  ~ In (joinpath dir name) (ancestors_and_self dir).
Proof.
  intros Hin. apply ancestors_from_length in Hin.
  unfold joinpath in Hin. simpl in Hin.
  rewrite length_app, length_rev in Hin. simpl in Hin. lia.
Qed.

(** Nothing after the Installer changes the file system. *)
Lemma check_path_keeps_fs dir st u st' :
  check_path H dir st = (Ok u, st') -> fs st' = fs st.
Proof.
  rewrite check_path_spec. intros E. injection E as _ <-.
  now destruct (existsb _ _).
Qed.

Lemma print_config_keeps_fs p st u st' :
  print_config H p st = (Ok u, st') -> fs st' = fs st.
Proof.
  unfold print_config, bind, emit. cbn [fs log]. intros E. now injection E as _ <-.
Qed.

(** A run that exits with status 0 is a run whose [main] returned. *)
Lemma exit_0_main_returned args st st' :
  run_script H args st = (0, st') -> main H args st = (Ok tt, st').
Proof.
  unfold run_script. intros E.
  destruct (reports_main H args st) as (new & _ & C).
  destruct (main H args st) as [[[]|e] s]; cbn [fst] in C.
  - now injection E as <-.
  - destruct e as [code| | | |]; try discriminate.
    destruct C as (-> & _). discriminate.
Qed.

End InstallerEdges.

(** X12.  Once the command line is parsed, a run of the steps of [main]
    that ends with status 0 has installed a copy of the artifact.  At the end
    the artifact (the binary name of the platform in the source directory) is
    a regular file, and either the destination (the binary name in the install
    directory) is a regular file with the same data and modification time and
    the mode [rwxr-xr-x], on Windows the mode of the artifact; or the
    destination was a directory, still is, and holds the copy under the binary
    name, with the mode of the artifact. *)
Theorem X12_exit_0_means_installed H args st :
  fst (run_script H args st) = 0 ->
  let st' := snd (run_script H args st) in
  let bin := joinpath (SRC_DIR H) (Spec.binary_name H) in
  let dest := joinpath (prefix args) (Spec.binary_name H) in
  exists data mode mtime,
    node_at (fs st') bin = Some (File data mode mtime)
    /\ ((is_dir (fs st') dest = false
         /\ node_at (fs st') dest
            = Some (File data (if Spec.windows_family H then mode else Spec.rwxr_xr_x)
                      mtime))
        \/ (is_dir (fs st') dest = true
            /\ node_at (fs st') (joinpath dest (Spec.binary_name H))
               = Some (File data mode mtime))).
Proof.
  change (Spec.binary_name H) with (BIN_NAME H).
  change (Spec.windows_family H) with (IS_WINDOWS H).
  intros Hcode st' bin dest.
  assert (Hrun : run_script H args st = (0, st')).
  { unfold st'. destruct (run_script H args st) as [code s0].
    simpl in Hcode |- *. now subst code. }
  clearbody st'. clear Hcode.
  apply exit_0_main_returned in Hrun. unfold main in Hrun.
  apply bind_ok_inv in Hrun as (u1 & s1 & E1 & Hrun).
  apply bind_ok_inv in Hrun as (u2 & s2 & E2 & Hrun).
  apply bind_ok_inv in Hrun as (p & s3 & E3 & Hrun).
  apply bind_ok_inv in Hrun as (full & s4 & E4 & Hrun).
  apply bind_ok_inv in Hrun as (u5 & s5 & E5 & Hrun).
  apply bind_ok_inv in Hrun as (u6 & s6 & E6 & Hrun).
  pose proof (build_returns H _ _ _ E3) as ->. fold bin in E4.
  assert (Hfs : fs st' = fs s4).
  { unfold info, emit in Hrun. injection Hrun as <-. cbn [fs].
    rewrite (print_config_keeps_fs H _ _ _ _ E6).
    apply (check_path_keeps_fs H _ _ _ _ E5). }
  rewrite Hfs. clear Hfs Hrun E5 E6 E1 E2 E3.
  destruct (install_binary_ok_inv H _ _ _ _ _ E4) as (fs1 & fs2 & _ & Ecp & Ech).
  fold dest in Ecp, Ech.
  destruct (copy2_ok_inv _ _ _ _ Ecp) as (data & mode & mtime & Hsrc & -> & Hne & Hnd).
  assert (Hbase : basename bin = BIN_NAME H).
  { unfold basename, bin, joinpath. cbn [parts]. apply List.last_last. }
  rewrite Hbase in *.
  assert (Hdp : parts dest <> []) by apply joinpath_parts.
  assert (Hip : parts (joinpath dest (BIN_NAME H)) <> []) by apply joinpath_parts.
  exists data, mode, mtime.
  destruct (is_dir fs1 dest) eqn:Hdir.
  - (* the destination is a directory *)
    set (inner := joinpath dest (BIN_NAME H)) in *.
    destruct (is_dir_node _ _ Hdir) as [m Hm].
    assert (Hbd : dest <> bin) by (intros ->; congruence).
    assert (Hid : inner <> dest) by apply joinpath_neq.
    assert (Hdi : dest <> inner) by (intros E; now apply Hid).
    assert (Hib : inner <> bin) by (intros E; now apply Hne).
    assert (Hbin2 : node_at (<[inner := File data mode mtime]> fs1) bin
                    = Some (File data mode mtime)).
    { rewrite node_at_insert by exact Hip. now rewrite decide_False by exact Hib. }
    assert (Hinner2 : node_at (<[inner := File data mode mtime]> fs1) inner
                      = Some (File data mode mtime)).
    { rewrite node_at_insert by exact Hip. now rewrite decide_True by reflexivity. }
    assert (Hdest2 : node_at (<[inner := File data mode mtime]> fs1) dest = Some (Dir m)).
    { rewrite node_at_insert by exact Hip. now rewrite decide_False by exact Hid. }
    destruct (IS_WINDOWS H).
    + rewrite Ech. split; [exact Hbin2|]. right. split; [|exact Hinner2].
      unfold is_dir. now rewrite Hdest2.
    + unfold os_chmod in Ech. rewrite Hdest2 in Ech. injection Ech as <-.
      split; [|right; split].
      * rewrite node_at_insert by exact Hdp. now rewrite decide_False by exact Hbd.
      * unfold is_dir. rewrite node_at_insert by exact Hdp.
        now rewrite decide_True by reflexivity.
      * rewrite node_at_insert by exact Hdp. now rewrite decide_False by exact Hdi.
  - (* the destination is the file *)
    assert (Hbd : dest <> bin) by (intros E; now apply Hne).
    assert (Hbin2 : node_at (<[dest := File data mode mtime]> fs1) bin
                    = Some (File data mode mtime)).
    { rewrite node_at_insert by exact Hdp. now rewrite decide_False by exact Hbd. }
    assert (Hdest2 : node_at (<[dest := File data mode mtime]> fs1) dest
                     = Some (File data mode mtime)).
    { rewrite node_at_insert by exact Hdp. now rewrite decide_True by reflexivity. }
    destruct (IS_WINDOWS H).
    + rewrite Ech. split; [exact Hbin2|]. left. split; [|exact Hdest2].
      unfold is_dir. now rewrite Hdest2.
    + unfold os_chmod in Ech. rewrite Hdest2 in Ech. injection Ech as <-.
      split; [|left; split].
      * rewrite node_at_insert by exact Hdp. now rewrite decide_False by exact Hbd.
      * unfold is_dir. rewrite node_at_insert by exact Hdp.
        now rewrite decide_True by reflexivity.
      * rewrite node_at_insert by exact Hdp. now rewrite decide_True by reflexivity.
Qed.

(** X12 on a Linux host with Go 1.24.0. *)
Lemma X12_exit_0_means_installed_witness :
  let H := Samples.host_bare in
  let args := mkArgs false Samples.local_bin in
  let st' := snd (run_script H args Samples.st0) in
  let bin := joinpath (SRC_DIR H) (Spec.binary_name H) in
  let dest := joinpath (prefix args) (Spec.binary_name H) in
  exists data mode mtime,
    node_at (fs st') bin = Some (File data mode mtime)
    /\ ((is_dir (fs st') dest = false
         /\ node_at (fs st') dest
            = Some (File data (if Spec.windows_family H then mode else Spec.rwxr_xr_x)
                      mtime))
        \/ (is_dir (fs st') dest = true
            /\ node_at (fs st') (joinpath dest (Spec.binary_name H))
               = Some (File data mode mtime))).
Proof.
  apply (X12_exit_0_means_installed Samples.host_bare (mkArgs false Samples.local_bin)
           Samples.st0).
  reflexivity.
Defined.

(** ** Where the Installer fails *)

Section InstallerFailures.

Import Spec.
Local Open Scope list_scope.

Variable H : Host.

Lemma install_binary_mkdir_fails bin dir st k :
  Path_mkdir (umask H) true true dir (fs st) = inl k ->
  install_binary H bin dir st
  = (Raise (OSError k), mkState (fs st) (log st ++ [Mkdir dir])).
Proof.
  intros E. unfold install_binary, bind, fs_op. now rewrite E.
Qed.

Lemma install_binary_copy_fails bin dir st fs1 k :
  Path_mkdir (umask H) true true dir (fs st) = inr fs1 ->
  shutil_copy2 bin (joinpath dir (BIN_NAME H)) fs1 = inl k ->
  install_binary H bin dir st
  = (Raise (OSError k),
     mkState fs1 (log st ++ [Mkdir dir; Copy2 bin (joinpath dir (BIN_NAME H))])).
Proof.
  intros E1 E2. unfold install_binary, bind, fs_op. rewrite E1. cbn [fs log].
  rewrite E2. now rewrite <- app_assoc.
Qed.

(** A path with a node other than the default anchor has components. *)
Lemma node_at_parts fs p :
  node_at fs p <> Some (Dir 493) -> parts p <> [].
Proof. unfold node_at. intros Hn E. rewrite E in Hn. now apply Hn. Qed.

(** [mkdir(parents=True, exist_ok=True)] on a path that is not a directory
    and whose [os.mkdir] fails with anything but a missing parent. *)
Lemma Path_mkdir_refused dir fs k :
  os_mkdir (umask H) dir fs = inl k ->
  k <> FileNotFoundError ->
  is_dir fs dir = false ->
  Path_mkdir (umask H) true true dir fs = inl k.
Proof.
  intros E Hk Hd. unfold Path_mkdir.
  assert (Hp : mkPath (drive dir) (root dir) (rev (rev (parts dir))) = dir)
    by (rewrite rev_involutive; now destruct dir).
  destruct (rev (parts dir)) as [|x t] eqn:Er; cbn [mkdir_parents];
    rewrite Hp, E, Hd; destruct k; try reflexivity; now contradiction Hk.
Qed.

End InstallerFailures.

(** X13.  Let no regular file stand in the way of the install directory, and
    let the artifact not exist and be neither the install directory nor one
    of its ancestors.  Then the Installer fails with [FileNotFoundError] at
    the copy, after it has created the install directory: the directory is
    there afterwards, nothing outside the directory and its ancestors has
    changed, and neither a change of mode nor a notice follows. *)
Theorem X13_missing_artifact_fails_after_mkdir H bin dir st :
  Spec.creatable (fs st) dir = true ->
  node_at (fs st) bin = None ->
  ~ In bin (Spec.ancestors_and_self dir) ->
  exists fs1,
    install_binary H bin dir st
    = (Raise (OSError FileNotFoundError),
       mkState fs1 (log st ++ [Mkdir dir; Copy2 bin (joinpath dir (BIN_NAME H))])%list)
    /\ is_dir fs1 dir = true
    /\ (forall q, ~ In q (Spec.ancestors_and_self dir) -> node_at fs1 q = node_at (fs st) q).
Proof.
  intros Hc Hbin Hout.
  destruct (Path_mkdir_outside H dir (fs st) Hc) as (fs1 & Emk & Hd & Hsame).
  exists fs1. split; [|split; [exact Hd | exact Hsame]].
  apply install_binary_copy_fails; [exact Emk|].
  unfold shutil_copy2. cbv zeta. unfold path_exists.
  rewrite (Hsame bin Hout), Hbin. now rewrite andb_false_r.
Qed.

(** X13 where the build left no artifact and [/home/u/.local/bin] does not
    exist yet. *)
Lemma X13_missing_artifact_fails_after_mkdir_witness :
  exists fs1,
    install_binary Samples.host_bare Samples.artifact Samples.local_bin Samples.st0
    = (Raise (OSError FileNotFoundError),
       mkState fs1 (log Samples.st0
                    ++ [Mkdir Samples.local_bin;
                        Copy2 Samples.artifact
                          (joinpath Samples.local_bin (BIN_NAME Samples.host_bare))])%list)
    /\ is_dir fs1 Samples.local_bin = true
    /\ (forall q, ~ In q (Spec.ancestors_and_self Samples.local_bin) ->
                  node_at fs1 q = node_at (fs Samples.st0) q).
Proof.
  apply (X13_missing_artifact_fails_after_mkdir Samples.host_bare Samples.artifact
           Samples.local_bin Samples.st0).
  - reflexivity.
  - reflexivity.
  - simpl. intuition discriminate.
Defined.

(** X14.  Let the install directory exist, let the artifact be a regular
    file, and let the destination (the binary name of the platform in the
    install directory) be a directory that holds no directory under the base
    name of the artifact, the artifact not being that entry itself.  Then the
    copy goes into the destination under the base name of the artifact, with
    the mode of the artifact.  On every platform outside the Windows family
    the change of mode is then applied to the destination directory; on
    Windows no change of mode is made.  The path the Installer returns and
    announces is the directory, not the copy. *)
Theorem X14_destination_directory_receives_copy H bin dir st data mode mtime m :
  let dest := joinpath dir (Spec.binary_name H) in
  let inner := joinpath dest (basename bin) in
  is_dir (fs st) dir = true ->
  node_at (fs st) bin = Some (File data mode mtime) ->
  node_at (fs st) dest = Some (Dir m) ->
  is_dir (fs st) inner = false ->
  bin <> inner ->
  install_binary H bin dir st
  = (Ok dest,
     mkState (if Spec.windows_family H then <[inner := File data mode mtime]> (fs st)
              else <[dest := Dir Spec.rwxr_xr_x]> (<[inner := File data mode mtime]> (fs st)))
             (log st ++ Spec.installer_trace H bin dir)%list).
Proof.
  change (Spec.installer_trace H bin dir) with (Spec.install_events H bin dir).
  change (Spec.binary_name H) with (BIN_NAME H).
  change (Spec.windows_family H) with (IS_WINDOWS H).
  change Spec.rwxr_xr_x with 493.
  intros dest inner Hdir Hbin Hdest Hinner Hne.
  assert (Hip : parts inner <> []) by apply joinpath_parts.
  assert (Hcp : shutil_copy2 bin dest (fs st) = inr (<[inner := File data mode mtime]> (fs st))).
  { assert (Hd : is_dir (fs st) dest = true) by (unfold is_dir; now rewrite Hdest).
    assert (Hpi : node_at (fs st) (parent inner) = Some (Dir m))
      by (unfold inner; now rewrite parent_joinpath).
    unfold shutil_copy2. cbv zeta. rewrite Hd. fold inner.
    rewrite bool_decide_eq_false_2 by exact Hne. cbn [andb]. rewrite Hbin, Hpi.
    unfold is_dir in Hinner.
    destruct (node_at (fs st) inner) as [[m'|d' m' t']|]; [discriminate| |]; reflexivity. }
  assert (Hch : os_chmod dest 493 (<[inner := File data mode mtime]> (fs st))
                = inr (<[dest := Dir 493]> (<[inner := File data mode mtime]> (fs st)))).
  { unfold os_chmod. rewrite node_at_insert by exact Hip.
    rewrite decide_False by apply joinpath_neq. now rewrite Hdest. }
  unfold install_binary, bind, fs_op. fold dest.
  rewrite (Path_mkdir_existing H dir (fs st) Hdir). cbn [fs log]. rewrite Hcp.
  unfold Spec.install_events. fold dest.
  destruct (IS_WINDOWS H); cbn [negb fs log].
  - unfold ret, info, emit. cbn [fs log]. now rewrite <- !app_assoc.
  - rewrite Hch. unfold ret, info, emit. cbn [fs log]. now rewrite <- !app_assoc.
Qed.

(** X14 where [/home/u/.local/bin/markitdown-mcp] is a directory. *)
Lemma X14_destination_directory_receives_copy_witness :
  let H := Samples.host_bare in
  let st := mkState Cases.fs_dest_is_dir [] in
  let dest := Samples.posix ["home"; "u"; ".local"; "bin"; "markitdown-mcp"] in
  let inner :=
    Samples.posix ["home"; "u"; ".local"; "bin"; "markitdown-mcp"; "markitdown-mcp"] in
  install_binary H Samples.artifact Samples.local_bin st
  = (Ok dest,
     mkState (<[dest := Dir 493]> (<[inner := File "ELF" 509 1700000000]> (fs st)))
             [Mkdir Samples.local_bin; Copy2 Samples.artifact dest; Chmod dest 493;
              Stdout "==> Installed to: /home/u/.local/bin/markitdown-mcp"]).
Proof.
  apply (X14_destination_directory_receives_copy Samples.host_bare Samples.artifact
           Samples.local_bin (mkState Cases.fs_dest_is_dir []) "ELF" 509 1700000000 448).
  - reflexivity.
  - reflexivity.
  - reflexivity.
  - reflexivity.
  - discriminate.
Defined.

(** X15.  A run whose install directory is the source directory never exits
    with status 0: the destination is then the artifact itself, and
    [shutil.copy2] refuses to copy a file onto itself. *)
Theorem X15_install_into_source_dir_never_succeeds H args st :
  prefix args = SRC_DIR H -> fst (run_script H args st) <> 0.
Proof.
  intros Hpre Hcode.
  assert (Hrun : run_script H args st = (0, snd (run_script H args st))).
  { destruct (run_script H args st) as [code s0]. simpl in Hcode |- *. now subst code. }
  apply exit_0_main_returned in Hrun. unfold main in Hrun.
  apply bind_ok_inv in Hrun as (u1 & s1 & _ & Hrun).
  apply bind_ok_inv in Hrun as (u2 & s2 & _ & Hrun).
  apply bind_ok_inv in Hrun as (p & s3 & E3 & Hrun).
  apply bind_ok_inv in Hrun as (full & s4 & E4 & _).
  pose proof (build_returns H _ _ _ E3) as ->. rewrite Hpre in E4.
  destruct (install_binary_ok_inv H _ _ _ _ _ E4) as (fs1 & fs2 & _ & Ecp & _).
  destruct (copy2_ok_inv _ _ _ _ Ecp) as (data & mode & mtime & Hsrc & _ & Hne & _).
  unfold is_dir in Hne. rewrite Hsrc in Hne. now apply Hne.
Qed.

(** X15 on a Linux host with Go 1.24.0 and the source directory as prefix. *)
Lemma X15_install_into_source_dir_never_succeeds_witness :
  fst (run_script Samples.host_bare (mkArgs false Samples.src_dir) Samples.st0) <> 0.
Proof.
  apply (X15_install_into_source_dir_never_succeeds Samples.host_bare
           (mkArgs false Samples.src_dir) Samples.st0).
  reflexivity.
Defined.

(** The run of the witness ends in a traceback of [SameFileError]. *)
Example install_into_source_dir :
  let r := run_script Samples.host_bare (mkArgs false Samples.src_dir) Samples.st0 in
  fst r = 1 /\ List.last (log (snd r)) (Stdout "") = Traceback (OSError SameFileError).
Proof. split; reflexivity. Qed.

(** X16.  A regular file in place of the install directory, or in place of
    its parent when the directory does not exist, makes the Installer fail at
    its first step, with [FileExistsError] or [NotADirectoryError]: the file
    system is unchanged and only the [mkdir] was attempted. *)
Theorem X16_blocked_install_dir_changes_nothing H bin dir st :
  Spec.is_file (fs st) dir = true
  \/ (node_at (fs st) dir = None /\ Spec.is_file (fs st) (parent dir) = true) ->
  install_binary H bin dir st
  = (Raise (OSError (if Spec.is_file (fs st) dir then FileExistsError
                     else NotADirectoryError)),
     mkState (fs st) (log st ++ [Mkdir dir])%list).
Proof.
  intros Hb. apply install_binary_mkdir_fails. unfold Spec.is_file in *.
  destruct Hb as [Hf | [Hn Hf]].
  - destruct (node_at (fs st) dir) as [[m|data mode mtime]|] eqn:En; try discriminate.
    apply Path_mkdir_refused; [|discriminate|].
    + unfold os_mkdir. now rewrite En.
    + unfold is_dir. now rewrite En.
  - rewrite Hn.
    destruct (node_at (fs st) (parent dir)) as [[m|data mode mtime]|] eqn:Ep;
      try discriminate.
    apply Path_mkdir_refused; [|discriminate|].
    + unfold os_mkdir. now rewrite Hn, Ep.
    + unfold is_dir. now rewrite Hn.
Qed.

(** X16 where [/home/u/.local/bin] is a regular file. *)
Lemma X16_blocked_install_dir_changes_nothing_witness :
  let st := mkState Cases.fs_dir_is_file [] in
  install_binary Samples.host_bare Samples.artifact Samples.local_bin st
  = (Raise (OSError (if Spec.is_file (fs st) Samples.local_bin then FileExistsError
                     else NotADirectoryError)),
     mkState (fs st) (log st ++ [Mkdir Samples.local_bin])%list).
Proof.
  apply (X16_blocked_install_dir_changes_nothing Samples.host_bare Samples.artifact
           Samples.local_bin (mkState Cases.fs_dir_is_file [])).
  left. reflexivity.
Defined.

(** The parent of the install directory is a regular file. *)
Example blocked_parent :
  install_binary Samples.host_bare Samples.artifact Samples.local_bin
    (mkState Samples.fs_blocked [])
  = (Raise (OSError NotADirectoryError),
     mkState Samples.fs_blocked [Mkdir Samples.local_bin]).
Proof. reflexivity. Qed.

(** ** Joining and splitting the search path *)

Section PathRoundTrip.

Import PyStr Spec.

(** [sep.join(l).split(sep)] gives [l] back when no entry holds the
    separator; the empty list is the exception, it comes back as [[""]]. *)
Lemma split_on_join sep l :
  l <> [] ->
  Forall (fun s => all_chars (fun x => negb (Ascii.eqb x sep)) s = true) l ->
  split_on sep (join_with (String sep "") l) = l.
Proof.
  induction l as [|x l IH]; [congruence|]. intros _ Hall.
  inversion Hall as [|? ? Hx Hl]; subst.
  destruct l as [|y l'].
  - simpl. now apply split_on_nosep.
  - change (join_with (String sep "") (x :: y :: l'))
      with (x ++ String sep (join_with (String sep "") (y :: l'))).
    rewrite split_on_first by exact Hx. f_equal. apply IH; [discriminate | exact Hl].
Qed.

End PathRoundTrip.

(** X17.  When [PATH] is the join, with the platform's separator, of a
    non-empty list of entries none of which holds the separator, the
    Environment Diagnostics step is silent exactly when the rendered install
    directory is one of the entries, and prints its two warnings
    otherwise. *)
Theorem X17_path_check_after_join H dir st entries :
  entries <> [] ->
  Forall (fun s => Spec.all_chars (fun x => negb (Ascii.eqb x (os_pathsep H))) s = true)
         entries ->
  environ H !! "PATH" = Some (join_with (String (os_pathsep H) "") entries) ->
  (In (str H dir) entries -> check_path H dir st = (Ok tt, st))
  /\ (~ In (str H dir) entries ->
      check_path H dir st
      = (Ok tt, mkState (fs st) (log st ++ Spec.path_warning H dir)%list)).
Proof.
  intros Hne Hall Henv. rewrite check_path_spec. unfold Spec.path_segments.
  rewrite Henv. cbn [from_option id]. rewrite (split_on_join _ _ Hne Hall).
  destruct (existsb (String.eqb (str H dir)) entries) eqn:E.
  - split; [reflexivity|]. intros Hn. apply existsb_eqb_In in E. now contradiction Hn.
  - split; [|reflexivity]. intros Hin. apply existsb_eqb_In in Hin. congruence.
Qed.

(** X17 with [PATH=/usr/bin:/home/u/.local/bin]. *)
Lemma X17_path_check_after_join_witness :
  let H := Samples.host_on_path in
  (In (str H Samples.local_bin) ["/usr/bin"; "/home/u/.local/bin"] ->
   check_path H Samples.local_bin Samples.st0 = (Ok tt, Samples.st0))
  /\ (~ In (str H Samples.local_bin) ["/usr/bin"; "/home/u/.local/bin"] ->
      check_path H Samples.local_bin Samples.st0
      = (Ok tt, mkState (fs Samples.st0)
                  (log Samples.st0 ++ Spec.path_warning H Samples.local_bin)%list)).
Proof.
  apply (X17_path_check_after_join Samples.host_on_path Samples.local_bin Samples.st0
           ["/usr/bin"; "/home/u/.local/bin"]).
  - discriminate.
  - repeat constructor.
  - reflexivity.
Defined.

(** X18.  Without [--with-ocr] the OCR step is advisory.  When the OCR tool
    is not on the search path it starts no command, prints its two warnings
    and returns.  When the tool is on the search path and the version query
    runs to its end, with any exit status, it prints the version found (the
    text before the first line boundary of the standard output, of the
    standard error when the former is empty, or [unknown] when both are) and
    returns.  In neither case does it start a package manager or end the
    run. *)
Theorem X18_verify_mode_returns H st :
  (shutil_which H st "tesseract" = false ->
   check_tesseract H false st
   = (Ok tt,
      mkState (fs st)
        (log st ++
         [Stdout (_c H "1;33" "warn:" ++ " "
                  ++ "Tesseract not found. Image OCR will be unavailable.");
          Stdout (_c H "1;33" "warn:" ++ " " ++
                  "Re-run with --with-ocr to install, or install manually and restart the server.")])%list))
  /\ (forall rc out err fs1,
        shutil_which H st "tesseract" = true ->
        spawn H st ["tesseract"; "--version"] None = (Exited rc out err, fs1) ->
        exists v,
          check_tesseract H false st
          = (Ok tt,
             mkState fs1
               (log st ++
                [Spawn ["tesseract"; "--version"] None true;
                 Stdout (_c H "0;32" "==>" ++ " " ++ "Tesseract found: " ++ v
                         ++ " — OCR enabled")])%list)
          /\ (out <> "" -> Behaviour.first_line_of out v)
          /\ (out = "" -> err <> "" -> Behaviour.first_line_of err v)
          /\ (out = "" -> err = "" -> v = "unknown")).
Proof.
  split.
  - intros Hw. unfold check_tesseract, bind at 1, which. rewrite Hw.
    unfold bind, warn, emit. cbn [fs log]. now rewrite <- app_assoc.
  - intros rc out err fs1 Hw Hs.
    destruct (tesseract_version_text H st rc out err fs1 Hs) as (v & Ev & _ & Hv).
    exists v. split; [|exact Hv].
    unfold check_tesseract, bind at 1, which. rewrite Hw.
    unfold bind. rewrite Ev. unfold info, emit. cbn [fs log].
    now rewrite <- app_assoc.
Qed.

(** X18 on a host without the OCR tool, and on a host whose OCR tool exits
    with status 1 and prints its version on standard error. *)
Lemma X18_verify_mode_returns_witness :
  let err := "tesseract 4.1.1" ++ String "013" (String "010" " leptonica") in
  check_tesseract Samples.host_bare false Samples.st0
  = (Ok tt,
     mkState Samples.fs0
       [Stdout "warn: Tesseract not found. Image OCR will be unavailable.";
        Stdout "warn: Re-run with --with-ocr to install, or install manually and restart the server."])
  /\ exists v,
       check_tesseract Cases.host_ocr_on_stderr false Samples.st0
       = (Ok tt,
          mkState Samples.fs0
            [Spawn ["tesseract"; "--version"] None true;
             Stdout ("==> Tesseract found: " ++ v ++ " — OCR enabled")])
       /\ ("" <> "" -> Behaviour.first_line_of "" v)
       /\ ("" = "" -> err <> "" -> Behaviour.first_line_of err v)
       /\ ("" = "" -> err = "" -> v = "unknown").
Proof.
  split.
  - apply (proj1 (X18_verify_mode_returns Samples.host_bare Samples.st0)). reflexivity.
  - apply (proj2 (X18_verify_mode_returns Cases.host_ocr_on_stderr Samples.st0) 1 ""
             ("tesseract 4.1.1" ++ String "013" (String "010" " leptonica"))
             Samples.fs0); reflexivity.
Defined.

